(** * Auxiliary window sessions of [IssueMainService]

  A shallow embedding of
  [src/vs/platform/issue/electron-main/issueMainService.ts]:
  the placement computation [getWindowPosition], the three session-opening
  operations ([openReporter], [openProcessExplorer], [openBrowserWindow]),
  the window close listeners they register, and the IPC handlers installed
  by [registerListeners].

  Conventions.
  - A JavaScript [number] is a rational ([Q]).  Every operation the service
    performs on numbers is [+], [-], [/ 2] and a comparison, which are exact
    on doubles for the integer pixel values Electron reports.
  - A value that may be [null] or [undefined] is an [option].
  - Objects with identity (windows, disposable stores, promises) live in
    heaps: lists indexed by allocation order.
  - Calls into Electron and into the collaborating services are recorded, in
    program order, in a trace of [Action]s. *)

From Stdlib Require Import ZArith QArith Lqa Lia Bool String List.
From stdpp Require Import base list strings.

Local Open Scope string_scope.
Local Open Scope list_scope.

(** ** Placement: [getWindowPosition] *)

Module Placement.

(** Electron's [Rectangle]; also the four geometry fields of
    [IWindowState]. *)
Record Rectangle : Type := mkRect {
  x : Q;
  y : Q;
  width : Q;
  height : Q
}.

Definition IWindowState : Type := Rectangle.

Record Point : Type := mkPoint { px : Q; py : Q }.

Record Display : Type := mkDisplay { bounds : Rectangle }.

(** The part of Electron's [screen] module the service calls.  The three
    lookups are given the type [Display | undefined], as the guards
    [!displayToUse] and [|| displays[0]] of the source treat them. *)
Record Screen : Type := mkScreen {
  getAllDisplays : list Display;
  getCursorScreenPoint : Point;
  getDisplayNearestPoint : Point -> option Display;
  getDisplayMatching : Rectangle -> option Display;
  getPrimaryDisplay : option Display
}.

(** The reference window: only [getBounds()] is used. *)
Record BrowserWindowBounds : Type := mkBounds { getBounds : Rectangle }.

Definition Qltb (a b : Q) : bool := negb (Qle_bool b a).

(** Lines 442-468: the display the new window is opened on. *)
Definition displayToUse (scr : Screen) (isMacintosh : bool)
    (parentWindow : option BrowserWindowBounds) : option Display :=
  let displays := getAllDisplays scr in
  if Nat.eqb (length displays) 1 then displays !! 0%nat
  else
    let d1 :=
      if isMacintosh
      then getDisplayNearestPoint scr (getCursorScreenPoint scr)
      else None in
    let d2 :=
      match d1, parentWindow with
      | None, Some pw => getDisplayMatching scr (getBounds pw)
      | _, _ => d1
      end in
    match d2 with
    | None =>
        match getPrimaryDisplay scr with
        | Some d => Some d
        | None => displays !! 0%nat
        end
    | Some d => Some d
    end.

(** Lines 470-505: centre the requested size on the display, then clamp,
    one assignment after the other as in the source. *)
Definition centerAndClamp (displayBounds : Rectangle)
    (defaultWidth defaultHeight : Q) : IWindowState :=
  let w0 := defaultWidth in
  let h0 := defaultHeight in
  let x0 := (x displayBounds + (width displayBounds / 2) - (w0 / 2))%Q in
  let y0 := (y displayBounds + (height displayBounds / 2) - (h0 / 2))%Q in
  if Qltb 0 (width displayBounds) && Qltb 0 (height displayBounds) then
    let x1 := if Qltb x0 (x displayBounds) then x displayBounds else x0 in
    let y1 := if Qltb y0 (y displayBounds) then y displayBounds else y0 in
    let x2 :=
      if Qltb (x displayBounds + width displayBounds) x1
      then x displayBounds else x1 in
    let y2 :=
      if Qltb (y displayBounds + height displayBounds) y1
      then y displayBounds else y1 in
    let w1 := if Qltb (width displayBounds) w0 then width displayBounds else w0 in
    let h1 :=
      if Qltb (height displayBounds) h0 then height displayBounds else h0 in
    {| x := x2; y := y2; width := w1; height := h1 |}
  else
    {| x := x0; y := y0; width := w0; height := h0 |}.

(** [getWindowPosition].  [None] is the [TypeError] of reading [.bounds] of
    an undefined display. *)
Definition getWindowPosition (scr : Screen) (isMacintosh : bool)
    (parentWindow : option BrowserWindowBounds)
    (defaultWidth defaultHeight : Q) : option IWindowState :=
  match displayToUse scr isMacintosh parentWindow with
  | None => None
  | Some d => Some (centerAndClamp (bounds d) defaultWidth defaultHeight)
  end.

(** The rectangle [r] lies inside [b] on both axes. *)
Definition contained (r b : Rectangle) : Prop :=
  (x b <= x r)%Q /\ (x r + width r <= x b + width b)%Q /\
  (y b <= y r)%Q /\ (y r + height r <= y b + height b)%Q.

Definition is_integer (q : Q) : Prop := exists z : Z, (q == inject_Z z)%Q.

Definition integer_rect (r : Rectangle) : Prop :=
  is_integer (x r) /\ is_integer (y r) /\
  is_integer (width r) /\ is_integer (height r).

Definition rectZ (a b c d : Z) : Rectangle :=
  mkRect (inject_Z a) (inject_Z b) (inject_Z c) (inject_Z d).

(** A desktop with a single display of the given bounds. *)
Definition singleDisplay (b : Rectangle) : Screen :=
  {| getAllDisplays := [mkDisplay b];
     getCursorScreenPoint := mkPoint 0 0;
     getDisplayNearestPoint := fun _ => Some (mkDisplay b);
     getDisplayMatching := fun _ => Some (mkDisplay b);
     getPrimaryDisplay := Some (mkDisplay b) |}.

End Placement.

(** ** The service state and the objects it refers to *)

Module Service.
Import Placement.

(** Heap addresses.  A parent is a workbench window, as returned by
    [BrowserWindow.getFocusedWindow()] when a session is requested; an
    auxiliary window is one created by this service. *)
Abbreviation ParentId := nat (only parsing).
Abbreviation AuxId := nat (only parsing).
Abbreviation StoreId := nat (only parsing).
Abbreviation PromiseId := nat (only parsing).

(** The payload of an IPC message ([args: any]). *)
Definition Payload : Type := string.

Inductive Role : Type := IssueReporter | ProcessExplorer | GenericBridge.

Definition Role_eqb (a b : Role) : bool :=
  match a, b with
  | IssueReporter, IssueReporter => true
  | ProcessExplorer, ProcessExplorer => true
  | GenericBridge, GenericBridge => true
  | _, _ => false
  end.

(** Window events the service listens to. *)
Inductive WinEvent : Type := EClose | EClosed | EReadyToShow | EDidFinishLoad.

Definition WinEvent_eqb (a b : WinEvent) : bool :=
  match a, b with
  | EClose, EClose => true
  | EClosed, EClosed => true
  | EReadyToShow, EReadyToShow => true
  | EDidFinishLoad, EDidFinishLoad => true
  | _, _ => false
  end.

(** [config['data']] of a bridge request: the theme name is read by the
    service, the rest is handed to the window unread. *)
Record BridgeData : Type := mkBridgeData {
  theme : string;
  content : Payload
}.

(** The arrow functions registered as listeners, each with the variables it
    closes over. *)
Inductive ParentListener : Type :=
| ReporterParentClosed (d : StoreId)       (* lines 344-351 *)
| ExplorerParentClose (d : StoreId)        (* lines 387-394 *)
| BrowserParentClosed (p : PromiseId).     (* lines 292-298 *)

Inductive AuxListener : Type :=
| ReporterClose (d : StoreId)                          (* lines 338-342 *)
| ExplorerClose (d : StoreId)                          (* lines 382-385 *)
| BrowserReadyToShow (winId : string) (p : PromiseId)  (* lines 243-252 *)
| BrowserDidFinishLoad (data : BridgeData)             (* lines 254-256 *)
| BrowserClosedChannel (channel : string) (p : PromiseId) (* lines 278-282 *)
| BrowserClosed (p : PromiseId).                       (* lines 286-289 *)

(** The [ipcMain] listener of lines 268-277. *)
Inductive IpcListener : Type :=
| BridgeChannel (winId command : string) (p : PromiseId).

(** The [setTimeout] callback of lines 246-251. *)
Inductive Timer : Type :=
| AlwaysOnTopOff (winId : string) (p : PromiseId).

Record Registration (L : Type) : Type := mkReg {
  reg_event : WinEvent;
  reg_once : bool;
  reg_listener : L
}.
Arguments mkReg {L} _ _ _.
Arguments reg_event {L} _.
Arguments reg_once {L} _.
Arguments reg_listener {L} _.

(** Constructor options of [new BrowserWindow]. *)
Record WinOptions : Type := mkOptions {
  o_x : option Q;
  o_y : option Q;
  o_width : Q;
  o_height : Q;
  o_title : string;
  o_backgroundColor : option string;
  o_parent : option ParentId
}.

Record ParentWin : Type := mkParentWin {
  pw_bounds : Rectangle;
  pw_listeners : list (Registration ParentListener)
}.

Record AuxWin : Type := mkAuxWin {
  aw_role : Role;
  aw_options : WinOptions;
  aw_minimized : bool;
  aw_destroyed : bool;
  aw_listeners : list (Registration AuxListener)
}.

(** A [DisposableStore].  The owner is a label of the model: the role whose
    session created the store. *)
Record DisposableStore : Type := mkStore {
  owner : Role;
  isDisposed_ : bool        (* DisposableStore._isDisposed *)
}.

Inductive PromiseState : Type :=
| Pending
| Fulfilled (value : option Payload)
| Rejected (reason : option string).

(** The argument of ['vscode:runAction']. *)
Inductive ActionArgs : Type :=
| ArgsAsReceived (a : Payload)
| ArgsArray (l : list Payload).

Record RunAction : Type := mkRunAction {
  ra_id : string;
  ra_from : string;
  ra_args : ActionArgs
}.

(** What is sent back to a requesting renderer. *)
Inductive ProcessRoot : Type :=
| RootProcess (item : string)
| RootError (hostName errorMessage : string).

Record ProcessEntry : Type := mkEntry {
  pe_name : string;
  pe_rootProcess : ProcessRoot
}.

Inductive ReplyPayload : Type :=
| SystemInfoMsg (msg : string)
| ProcessList (processes : list ProcessEntry)
| BoolMsg (b : bool)
| PerformanceMsg (info : string)
| WindowsMsg (windows : list string).

(** Calls that leave the service, in program order. *)
Inductive Action : Type :=
| NewBrowserWindow (w : AuxId) (role : Role) (opts : WinOptions)
| SetMenuBarVisibility (w : AuxId) (visible : bool)
| OpenDevTools (w : AuxId)
| LoadURL (w : AuxId) (url : string)
| Show (w : AuxId)
| SetAlwaysOnTop (w : AuxId) (flag : bool)
| Restore (w : AuxId)
| Focus (w : AuxId)
| Close (w : AuxId)
| Destroy (w : AuxId)
| SendRunAction (parent : ParentId) (a : RunAction)
| SendStoredData (w : AuxId) (data : BridgeData)
| CreateIPCObjectUrl (d : StoreId)
| UpdateIPCObjectUrl (d : StoreId) (windowId : AuxId)
| DisposeIPCObjectUrl (d : StoreId)
| IpcRemoveAllListeners (channel : string)
| IpcOn (channel : string)
| SetTimeout (ms : nat)
| ShowMessageBox (w : AuxId)
| OpenExternal (url : string)
| Reply (sender : nat) (channel : string) (payload : ReplyPayload)
| Settle (p : PromiseId) (outcome : PromiseState)
| LogTrace (msg : string)
| LogWarn (msg : string)
| LogError (msg : string).

Record Env : Type := mkEnv {
  screen : Screen;
  isMacintosh : bool;
  isWin32 : bool      (* process.platform === 'win32' *)
}.

(** The six private fields of the service, followed by the world they
    point into.  The window that has the focus is a workbench window or
    none: the model follows the runs in which the operations of the service
    are requested from a workbench window, and does not represent the focus
    being on one of the service's own windows, so that no window of the
    service is ever recorded as a parent. *)
Record State : Type := mkState {
  issueReporterWindow : option AuxId;
  issueReporterParentWindow : option ParentId;
  processExplorerWindow : option AuxId;
  processExplorerParentWindow : option ParentId;
  _browserWindow : option AuxId;
  _browserParentWindow : option ParentId;
  parents : list ParentWin;
  auxs : list AuxWin;
  stores : list DisposableStore;
  promises : list PromiseState;
  ipcListeners : list (string * IpcListener);
  timers : list Timer;
  focusedWindow : option ParentId;  (* BrowserWindow.getFocusedWindow() *)
  env : Env;
  trace : list Action
}.

(** Field assignments. *)
Definition set_issueReporterWindow (v : option AuxId) (s : State) : State :=
  mkState v (issueReporterParentWindow s) (processExplorerWindow s) (processExplorerParentWindow s) (_browserWindow s) (_browserParentWindow s) (parents s) (auxs s) (stores s) (promises s) (ipcListeners s) (timers s) (focusedWindow s) (env s) (trace s).

Definition set_issueReporterParentWindow (v : option ParentId) (s : State) : State :=
  mkState (issueReporterWindow s) v (processExplorerWindow s) (processExplorerParentWindow s) (_browserWindow s) (_browserParentWindow s) (parents s) (auxs s) (stores s) (promises s) (ipcListeners s) (timers s) (focusedWindow s) (env s) (trace s).

Definition set_processExplorerWindow (v : option AuxId) (s : State) : State :=
  mkState (issueReporterWindow s) (issueReporterParentWindow s) v (processExplorerParentWindow s) (_browserWindow s) (_browserParentWindow s) (parents s) (auxs s) (stores s) (promises s) (ipcListeners s) (timers s) (focusedWindow s) (env s) (trace s).

Definition set_processExplorerParentWindow (v : option ParentId) (s : State) : State :=
  mkState (issueReporterWindow s) (issueReporterParentWindow s) (processExplorerWindow s) v (_browserWindow s) (_browserParentWindow s) (parents s) (auxs s) (stores s) (promises s) (ipcListeners s) (timers s) (focusedWindow s) (env s) (trace s).

Definition set_browserWindow (v : option AuxId) (s : State) : State :=
  mkState (issueReporterWindow s) (issueReporterParentWindow s) (processExplorerWindow s) (processExplorerParentWindow s) v (_browserParentWindow s) (parents s) (auxs s) (stores s) (promises s) (ipcListeners s) (timers s) (focusedWindow s) (env s) (trace s).

Definition set_browserParentWindow (v : option ParentId) (s : State) : State :=
  mkState (issueReporterWindow s) (issueReporterParentWindow s) (processExplorerWindow s) (processExplorerParentWindow s) (_browserWindow s) v (parents s) (auxs s) (stores s) (promises s) (ipcListeners s) (timers s) (focusedWindow s) (env s) (trace s).

Definition set_parents (v : list ParentWin) (s : State) : State :=
  mkState (issueReporterWindow s) (issueReporterParentWindow s) (processExplorerWindow s) (processExplorerParentWindow s) (_browserWindow s) (_browserParentWindow s) v (auxs s) (stores s) (promises s) (ipcListeners s) (timers s) (focusedWindow s) (env s) (trace s).

Definition set_auxs (v : list AuxWin) (s : State) : State :=
  mkState (issueReporterWindow s) (issueReporterParentWindow s) (processExplorerWindow s) (processExplorerParentWindow s) (_browserWindow s) (_browserParentWindow s) (parents s) v (stores s) (promises s) (ipcListeners s) (timers s) (focusedWindow s) (env s) (trace s).

Definition set_stores (v : list DisposableStore) (s : State) : State :=
  mkState (issueReporterWindow s) (issueReporterParentWindow s) (processExplorerWindow s) (processExplorerParentWindow s) (_browserWindow s) (_browserParentWindow s) (parents s) (auxs s) v (promises s) (ipcListeners s) (timers s) (focusedWindow s) (env s) (trace s).

Definition set_promises (v : list PromiseState) (s : State) : State :=
  mkState (issueReporterWindow s) (issueReporterParentWindow s) (processExplorerWindow s) (processExplorerParentWindow s) (_browserWindow s) (_browserParentWindow s) (parents s) (auxs s) (stores s) v (ipcListeners s) (timers s) (focusedWindow s) (env s) (trace s).

Definition set_ipcListeners (v : list (string * IpcListener)) (s : State) : State :=
  mkState (issueReporterWindow s) (issueReporterParentWindow s) (processExplorerWindow s) (processExplorerParentWindow s) (_browserWindow s) (_browserParentWindow s) (parents s) (auxs s) (stores s) (promises s) v (timers s) (focusedWindow s) (env s) (trace s).

Definition set_timers (v : list Timer) (s : State) : State :=
  mkState (issueReporterWindow s) (issueReporterParentWindow s) (processExplorerWindow s) (processExplorerParentWindow s) (_browserWindow s) (_browserParentWindow s) (parents s) (auxs s) (stores s) (promises s) (ipcListeners s) v (focusedWindow s) (env s) (trace s).

Definition set_focusedWindow (v : option ParentId) (s : State) : State :=
  mkState (issueReporterWindow s) (issueReporterParentWindow s) (processExplorerWindow s) (processExplorerParentWindow s) (_browserWindow s) (_browserParentWindow s) (parents s) (auxs s) (stores s) (promises s) (ipcListeners s) (timers s) v (env s) (trace s).

Definition set_trace (v : list Action) (s : State) : State :=
  mkState (issueReporterWindow s) (issueReporterParentWindow s) (processExplorerWindow s) (processExplorerParentWindow s) (_browserWindow s) (_browserParentWindow s) (parents s) (auxs s) (stores s) (promises s) (ipcListeners s) (timers s) (focusedWindow s) (env s) v.

(** ** Primitive operations on the world *)

Inductive Res (A : Type) : Type :=
| Ok (a : A)
| Throw (e : string).
Arguments Ok {A} _.
Arguments Throw {A} _.

Definition log (a : Action) (s : State) : State :=
  set_trace (trace s ++ [a]) s.

(** [resolve] and [reject] of a promise: only a pending promise is settled,
    and the trace records it. *)
Definition settle (p : PromiseId) (outcome : PromiseState) (s : State) : State :=
  match promises s !! p with
  | Some Pending => log (Settle p outcome) (set_promises (<[p := outcome]> (promises s)) s)
  | _ => s
  end.

Definition resolve (p : PromiseId) (v : option Payload) (s : State) : State :=
  settle p (Fulfilled v) s.

Definition reject (p : PromiseId) (reason : option string) (s : State) : State :=
  settle p (Rejected reason) s.

Definition newPromise (s : State) : PromiseId * State :=
  (length (promises s), set_promises (promises s ++ [Pending]) s).

(** [new DisposableStore()] followed by
    [add(protocolMainService.createIPCObjectUrl())] (lines 312-314, 362-364):
    the store owns exactly the configuration channel. *)
Definition newDisposableStore (role : Role) (s : State) : StoreId * State :=
  let d := length (stores s) in
  (d, log (CreateIPCObjectUrl d) (set_stores (stores s ++ [mkStore role false]) s)).

(** Modelled from the spec: [DisposableStore.dispose] of
    [vs/base/common/lifecycle], which is not among the sources.  Section 4.2:
    "dispose releases the address and must be idempotent".  The first call
    releases the configuration channel the store owns; later calls do
    nothing. *)
Definition dispose (d : StoreId) (s : State) : State :=
  match stores s !! d with
  | Some st =>
      if isDisposed_ st then s
      else log (DisposeIPCObjectUrl d)
             (set_stores (<[d := mkStore (owner st) true]> (stores s)) s)
  | None => s
  end.

Definition isDisposeOf (d : StoreId) (a : Action) : bool :=
  match a with
  | DisposeIPCObjectUrl d' => Nat.eqb d' d
  | _ => false
  end.

(** How many times the configuration channel of store [d] has been
    released. *)
Definition disposals (d : StoreId) (s : State) : nat :=
  length (List.filter (isDisposeOf d) (trace s)).

Definition updAux (w : AuxId) (f : AuxWin -> AuxWin) (s : State) : State :=
  set_auxs (alter f w (auxs s)) s.

Definition updParent (P : ParentId) (f : ParentWin -> ParentWin) (s : State) : State :=
  set_parents (alter f P (parents s)) s.

Definition set_aw_listeners (ls : list (Registration AuxListener)) (aw : AuxWin) : AuxWin :=
  mkAuxWin (aw_role aw) (aw_options aw) (aw_minimized aw) (aw_destroyed aw) ls.

Definition set_aw_minimized (b : bool) (aw : AuxWin) : AuxWin :=
  mkAuxWin (aw_role aw) (aw_options aw) b (aw_destroyed aw) (aw_listeners aw).

Definition set_aw_destroyed (b : bool) (aw : AuxWin) : AuxWin :=
  mkAuxWin (aw_role aw) (aw_options aw) (aw_minimized aw) b (aw_listeners aw).

Definition set_pw_listeners (ls : list (Registration ParentListener)) (pw : ParentWin) : ParentWin :=
  mkParentWin (pw_bounds pw) ls.

(** [window.on(event, listener)] and [window.once(event, listener)]. *)
Definition onAux (w : AuxId) (e : WinEvent) (once : bool) (l : AuxListener) (s : State) : State :=
  updAux w (fun aw => set_aw_listeners (aw_listeners aw ++ [mkReg e once l]) aw) s.

Definition onParent (P : ParentId) (e : WinEvent) (l : ParentListener) (s : State) : State :=
  updParent P (fun pw => set_pw_listeners (pw_listeners pw ++ [mkReg e false l]) pw) s.

(** [ipcMain.removeAllListeners(channel)] and [ipcMain.on(channel, l)], for
    the channels of bridge pairs.  The handlers of [registerListeners] are
    kept apart from [ipcListeners]: a pair that names one of their channels is
    outside the model. *)
Definition removeAllListeners (channel : string) (s : State) : State :=
  log (IpcRemoveAllListeners channel)
    (set_ipcListeners
       (List.filter (fun cl => negb (String.eqb (fst cl) channel)) (ipcListeners s)) s).

Definition ipcOn (channel : string) (l : IpcListener) (s : State) : State :=
  log (IpcOn channel) (set_ipcListeners (ipcListeners s ++ [(channel, l)]) s).

(** [window.isDestroyed()], [window.isMinimized()], [window.restore()],
    [window.focus()].  [focus] is the call: which window has the focus is the
    desktop's answer, event [FocusChanged]. *)
Definition isDestroyed (w : AuxId) (s : State) : bool :=
  match auxs s !! w with
  | Some aw => aw_destroyed aw
  | None => true
  end.

Definition isMinimized (w : AuxId) (s : State) : bool :=
  match auxs s !! w with
  | Some aw => aw_minimized aw
  | None => false
  end.

Definition restore (w : AuxId) (s : State) : State :=
  log (Restore w) (updAux w (set_aw_minimized false) s).

Definition focus (w : AuxId) (s : State) : State := log (Focus w) s.

(** [new BrowserWindow(opts)].  The role is a label of the model: it records
    which of the three operations created the window. *)
Definition newBrowserWindow (role : Role) (opts : WinOptions) (s : State) : AuxId * State :=
  let w := length (auxs s) in
  (w, log (NewBrowserWindow w role opts)
        (set_auxs (auxs s ++ [mkAuxWin role opts false false []]) s)).

(** The windows of a role that exist and have not been destroyed. *)
Definition isLive (role : Role) (s : State) (w : AuxId) : bool :=
  match auxs s !! w with
  | Some aw => Role_eqb (aw_role aw) role && negb (aw_destroyed aw)
  | None => false
  end.

Definition liveWindows (role : Role) (s : State) : list AuxId :=
  List.filter (isLive role s) (seq 0 (length (auxs s))).

(** ** Listeners *)

(** Bodies of the listeners registered on auxiliary windows. *)
Definition runAuxListener (l : AuxListener) (s : State) : State :=
  match l with
  | ReporterClose d =>
      dispose d (set_issueReporterWindow None s)
  | ExplorerClose d =>
      dispose d (set_processExplorerWindow None s)
  | BrowserReadyToShow winId p =>
      let s1 :=
        match _browserWindow s with
        | Some w => log (SetAlwaysOnTop w true) (log (Show w) s)
        | None => s
        end in
      log (SetTimeout 100) (set_timers (timers s1 ++ [AlwaysOnTopOff winId p]) s1)
  | BrowserDidFinishLoad data =>
      match _browserWindow s with
      | Some w => log (SendStoredData w data) s
      | None => s
      end
  | BrowserClosedChannel channel p =>
      reject p None (set_browserWindow None (removeAllListeners channel s))
  | BrowserClosed p =>
      reject p None (set_browserWindow None s)
  end.

Definition listensTo {L : Type} (e : WinEvent) (r : Registration L) : bool :=
  WinEvent_eqb (reg_event r) e.

(** Emission of [e] on an auxiliary window: the listeners registered for [e]
    at that moment run in registration order; [once] listeners are removed
    before they run. *)
Definition emitAux (e : WinEvent) (w : AuxId) (s : State) : State :=
  match auxs s !! w with
  | None => s
  | Some aw =>
      let called := List.filter (listensTo e) (aw_listeners aw) in
      let kept := List.filter (fun r => negb (listensTo e r && reg_once r)) (aw_listeners aw) in
      foldl (fun s r => runAuxListener (reg_listener r) s)
            (updAux w (set_aw_listeners kept) s) called
  end.

(** [window.close()].  Electron emits ['close'] on the window from inside the
    call; the window is destroyed, and ['closed'] emitted, later. *)
Definition close (w : AuxId) (s : State) : State :=
  emitAux EClose w (log (Close w) s).

(** [window.destroy()]: no ['close'] event; the window is destroyed and
    ['closed'] is emitted. *)
Definition destroy (w : AuxId) (s : State) : State :=
  emitAux EClosed w (updAux w (set_aw_destroyed true) (log (Destroy w) s)).

(** Bodies of the listeners registered on parent windows. *)
Definition runParentListener (l : ParentListener) (s : State) : State :=
  match l with
  | ReporterParentClosed d =>
      match issueReporterWindow s with
      | Some w => dispose d (set_issueReporterWindow None (close w s))
      | None => s
      end
  | ExplorerParentClose d =>
      match processExplorerWindow s with
      | Some w => dispose d (set_processExplorerWindow None (close w s))
      | None => s
      end
  | BrowserParentClosed p =>
      match _browserWindow s with
      | Some w => reject p None (set_browserWindow None (close w s))
      | None => s
      end
  end.

Definition emitParent (e : WinEvent) (P : ParentId) (s : State) : State :=
  match parents s !! P with
  | None => s
  | Some pw =>
      foldl (fun s r => runParentListener (reg_listener r) s) s
            (List.filter (listensTo e) (pw_listeners pw))
  end.

(** Lines 246-251. *)
Definition runTimer (t : Timer) (s : State) : State :=
  match t with
  | AlwaysOnTopOff winId p =>
      let s1 :=
        match _browserWindow s with
        | Some w => log (SetAlwaysOnTop w false) s
        | None => s
        end in
      if String.eqb winId "addEmulator" then resolve p None s1 else s1
  end.

(** Lines 268-277: the switch is on the [winId] of the request that created
    the window. *)
Definition runIpcListener (l : IpcListener) (args : Payload) (s : State) : State :=
  match l with
  | BridgeChannel winId command p =>
      if String.eqb winId "certificate" then resolve p (Some args) s
      else
        match _browserParentWindow s with
        | Some P => log (SendRunAction P (mkRunAction command "mouse" (ArgsArray [args]))) s
        | None => s
        end
  end.

Definition onChannel (channel : string) (cl : string * IpcListener) : bool :=
  String.eqb (fst cl) channel.

(** A message on [channel] reaches every listener registered for it. *)
Definition emitIpc (channel : string) (args : Payload) (s : State) : State :=
  foldl (fun s cl => runIpcListener (snd cl) args s) s
        (List.filter (onChannel channel) (ipcListeners s)).

(** ** Opening sessions *)

(** The fields of [IssueReporterData] and [ProcessExplorerData] the service
    reads: [data.styles.backgroundColor] and [data.zoomLevel]. *)
Record WindowData : Type := mkWindowData {
  backgroundColor : option string;
  zoomLevel : Q
}.

Definition DEFAULT_BACKGROUND_COLOR : string := "#1E1E1E".

Definition typeError : string := "TypeError".

(** [parentWindow.getBounds()] of a parent window. *)
Definition parentBounds (P : ParentId) (s : State) : option BrowserWindowBounds :=
  match parents s !! P with
  | Some pw => Some (mkBounds (pw_bounds pw))
  | None => None
  end.

Definition windowPosition (P : ParentId) (defaultWidth defaultHeight : Q) (s : State)
    : option IWindowState :=
  getWindowPosition (screen (env s)) (isMacintosh (env s)) (parentBounds P s)
    defaultWidth defaultHeight.

(** [createBrowserWindow] (lines 401-431); [webPreferences] are left out. *)
Definition createBrowserWindow (role : Role) (position : IWindowState)
    (ipcObjectUrl : StoreId) (backgroundColor : option string) (title : string)
    (zoomLevel : Q) (s : State) : AuxId * State :=
  let color :=
    match backgroundColor with
    | Some c => if String.eqb c "" then DEFAULT_BACKGROUND_COLOR else c
    | None => DEFAULT_BACKGROUND_COLOR
    end in
  let opts :=
    {| o_x := Some (x position); o_y := Some (y position);
       o_width := width position; o_height := height position;
       o_title := title; o_backgroundColor := Some color; o_parent := None |} in
  let '(window, s1) := newBrowserWindow role opts s in
  (window, log (SetMenuBarVisibility window false) s1).

(** [openReporter] (lines 308-356).  The second component is [Throw] when the
    returned promise is rejected. *)
Definition openReporter (data : WindowData) (s : State) : State * Res unit :=
  let created :=
    match issueReporterWindow s with
    | Some _ => (s, Ok tt)
    | None =>
        let s1 := set_issueReporterParentWindow (focusedWindow s) s in
        match issueReporterParentWindow s1 with
        | None => (s1, Ok tt)
        | Some P =>
            let '(issueReporterDisposables, s2) := newDisposableStore IssueReporter s1 in
            match windowPosition P 700 800 s2 with
            | None => (s2, Throw typeError)
            | Some position =>
                let '(w, s3) :=
                  createBrowserWindow IssueReporter position issueReporterDisposables
                    (backgroundColor data) "Issue Reporter" (zoomLevel data) s2 in
                let s4 := set_issueReporterWindow (Some w) s3 in
                let s5 := log (UpdateIPCObjectUrl issueReporterDisposables w) s4 in
                let s6 := log (LoadURL w "vs/code/electron-sandbox/issue/issueReporter.html") s5 in
                let s7 := onAux w EClose false (ReporterClose issueReporterDisposables) s6 in
                let s8 := onParent P EClosed (ReporterParentClosed issueReporterDisposables) s7 in
                (s8, Ok tt)
            end
        end
    end in
  match created with
  | (s', Ok _) =>
      match issueReporterWindow s' with
      | Some w => (focus w s', Ok tt)
      | None => (s', Ok tt)
      end
  | (s', Throw e) => (s', Throw e)
  end.

(** [openProcessExplorer] (lines 358-399). *)
Definition openProcessExplorer (data : WindowData) (s : State) : State * Res unit :=
  let created :=
    match processExplorerWindow s with
    | Some _ => (s, Ok tt)
    | None =>
        let s1 := set_processExplorerParentWindow (focusedWindow s) s in
        match processExplorerParentWindow s1 with
        | None => (s1, Ok tt)
        | Some P =>
            let '(processExplorerDisposables, s2) := newDisposableStore ProcessExplorer s1 in
            match windowPosition P 800 500 s2 with
            | None => (s2, Throw typeError)
            | Some position =>
                let '(w, s3) :=
                  createBrowserWindow ProcessExplorer position processExplorerDisposables
                    (backgroundColor data) "Process Explorer" (zoomLevel data) s2 in
                let s4 := set_processExplorerWindow (Some w) s3 in
                let s5 := log (UpdateIPCObjectUrl processExplorerDisposables w) s4 in
                let s6 :=
                  log (LoadURL w "vs/code/electron-sandbox/processExplorer/processExplorer.html") s5 in
                let s7 := onAux w EClose false (ExplorerClose processExplorerDisposables) s6 in
                let s8 := onParent P EClose (ExplorerParentClose processExplorerDisposables) s7 in
                (s8, Ok tt)
            end
        end
    end in
  match created with
  | (s', Ok _) =>
      match processExplorerWindow s' with
      | Some w => (focus w s', Ok tt)
      | None => (s', Ok tt)
      end
  | (s', Throw e) => (s', Throw e)
  end.

(** ** The bridge window: [openBrowserWindow] *)

(** An element of [config['events']].  A missing [channel] or [command] is
    the empty string: both are falsy. *)
Record EventPair : Type := mkEventPair {
  channel : string;
  command : string
}.

(** [args[0]] of [openBrowserWindow]. *)
Record BridgeConfig : Type := mkBridgeConfig {
  cfg_height : option Q;
  cfg_width : option Q;
  cfg_data : option BridgeData;
  darkBackgroundColor : option string;
  lightBackgroundColor : option string;
  loadURL : string;
  winId : string;
  events : list EventPair
}.

(** Truthiness of a possibly missing number. *)
Definition truthy (o : option Q) : option Q :=
  match o with
  | Some q => if Qeq_bool q 0 then None else Some q
  | None => None
  end.

(** Lines 207-213. *)
Definition windowHeight (win32 : bool) (config : BridgeConfig) : Q :=
  if win32 then
    match truthy (cfg_height config) with
    | Some h => h
    | None => 10
    end
  else
    match truthy (cfg_height config) with
    | Some h => (h + 15)%Q
    | None => 25
    end.

(** [theme.indexOf('Dark') !== -1]. *)
Definition isDarkTheme (t : string) : bool :=
  match index 0 "Dark" t with
  | Some _ => true
  | None => false
  end.

(** Lines 259-284: one [ipcMain] listener and one ['closed'] listener per
    usable pair. *)
Definition registerEventPairs (w : AuxId) (winId : string) (p : PromiseId)
    (pairs : list EventPair) (s : State) : State :=
  foldl
    (fun s event =>
       if String.eqb (channel event) "" || String.eqb (command event) "" then s
       else
         let s1 := removeAllListeners (channel event) s in
         let s2 := ipcOn (channel event) (BridgeChannel winId (command event) p) s1 in
         onAux w EClosed false (BrowserClosedChannel (channel event) p) s2)
    s pairs.

(** The constructor options of lines 220-238. *)
Definition bridgeOptions (win32 : bool) (config : BridgeConfig) (data : BridgeData)
    (position : IWindowState) (P : ParentId) : WinOptions :=
  let wh := windowHeight win32 config in
  {| o_x := None; o_y := None;
     o_width :=
       match truthy (cfg_width config) with
       | Some ww => ww
       | None => width position
       end;
     o_height := if Qeq_bool wh 0 then height position else wh;
     o_title := "open BrowserWindow";
     o_backgroundColor :=
       if isDarkTheme (theme data)
       then darkBackgroundColor config
       else lightBackgroundColor config;
     o_parent := Some P |}.

(** Lines 243-298: the listeners of a new bridge window [w] with parent
    [P]. *)
Definition installBridgeListeners (w : AuxId) (P : ParentId) (p : PromiseId)
    (config : BridgeConfig) (data : BridgeData) (s : State) : State :=
  let s1 := onAux w EReadyToShow true (BrowserReadyToShow (winId config) p) s in
  let s2 := onAux w EDidFinishLoad false (BrowserDidFinishLoad data) s1 in
  let s3 :=
    match events config with
    | [] => onAux w EClosed false (BrowserClosed p) s2
    | _ :: _ => registerEventPairs w (winId config) p (events config) s2
    end in
  onParent P EClosed (BrowserParentClosed p) s3.

(** Lines 239-242. *)
Definition startBridgeWindow (w : AuxId) (config : BridgeConfig) (s : State) : State :=
  log (LoadURL w (loadURL config))
    (log (LogTrace "issueService#openBrowserWindow: opening BrowserWindow")
       (log (OpenDevTools w) (log (SetMenuBarVisibility w false) s))).

(** Lines 216-300, entered with [this._browserWindow] null. *)
Definition createBridgeWindow (config : BridgeConfig) (p : PromiseId) (s : State)
    : State * Res unit :=
  let s1 := set_browserParentWindow (focusedWindow s) s in
  match _browserParentWindow s1 with
  | None => (s1, Ok tt)
  | Some P =>
      match windowPosition P 700 800 s1 with
      | None => (s1, Throw typeError)
      | Some position =>
          match cfg_data config with
          | None => (s1, Throw typeError)   (* config['data'].theme *)
          | Some data =>
              let '(w, s2) :=
                newBrowserWindow GenericBridge
                  (bridgeOptions (isWin32 (env s1)) config data position P) s1 in
              let s3 := set_browserWindow (Some w) s2 in
              (installBridgeListeners w P p config data (startBridgeWindow w config s3),
               Ok tt)
          end
      end
  end.

(** [openBrowserWindow] (lines 192-306): the promise is allocated, then its
    executor runs; an exception in the executor rejects the promise.  The
    calls made on a window are recorded as calls: what Electron answers to a
    call on a destroyed window is not modelled. *)
Definition openBrowserWindow (args : option (list BridgeConfig)) (s : State)
    : PromiseId * State :=
  let '(p, s0) := newPromise s in
  let live :=
    match _browserWindow s0 with
    | Some w => if isDestroyed w s0 then None else Some w
    | None => None
    end in
  match live with
  | Some w =>
      let s1 := if isMinimized w s0 then restore w s0 else s0 in
      (p, reject p None (focus w s1))
  | None =>
      match args with
      | None | Some [] => (p, reject p None s0)
      | Some (config :: _) =>
          let created :=
            match _browserWindow s0 with
            | Some _ => (s0, Ok tt)
            | None => createBridgeWindow config p s0
            end in
          match created with
          | (s1, Ok _) =>
              match _browserWindow s1 with
              | Some w => (p, focus w s1)
              | None => (p, s1)
              end
          | (s1, Throw e) => (p, reject p (Some e) s1)
          end
      end
  end.

(** ** The IPC handlers of [registerListeners] *)

(** The requesting renderer.  [senderIsDestroyed] is what
    [event.sender.isDestroyed()] answers when the reply is ready. *)
Record IpcMainEvent : Type := mkIpcMainEvent {
  sender : nat;
  senderIsDestroyed : bool
}.

Record DiagnosticOptions : Type := mkDiagnosticOptions {
  includeProcesses : bool;
  includeWorkspaceMetadata : bool
}.

Inductive RemoteDiagnostic : Type :=
| RemoteDiagnosticError (hostName errorMessage : string)
| RemoteDiagnosticInfo (hostName : string) (processes : option string).

Record MainProcessInfo : Type := mkMainProcessInfo {
  mainPID : nat;
  windows : list string
}.

(** The collaborating services, each call given by its outcome: a value, or
    the message of the error it fails with.  [remoteRejectsFirst] is a fact
    of timing: when [getMainProcessInfo] and [getRemoteDiagnostics] are
    awaited together and both fail, whether the remote call is the one that
    rejects first. *)
Record Collaborators : Type := mkCollaborators {
  getMainProcessInfo : Res MainProcessInfo;
  getMainProcessId : Res nat;
  getRemoteDiagnostics : DiagnosticOptions -> Res (list RemoteDiagnostic);
  listProcesses : nat -> Res string;
  getSystemInfo : MainProcessInfo -> list RemoteDiagnostic -> Res string;
  diagnosticsGetPerformanceInfo : MainProcessInfo -> list RemoteDiagnostic -> Res string;
  showMessageBox : Res nat;
  remoteRejectsFirst : bool
}.

(** [`${e}`] for an [Error] with the given message. *)
Definition renderError (e : string) : string := String.append "Error: " e.

(** [Promise.all] of two calls: both values, or the rejection that comes
    first in time.  When both calls fail, [secondFirst] tells whether the
    second one rejects before the first. *)
Definition promiseAll2 {A B : Type} (secondFirst : bool) (a : Res A) (b : Res B)
    : Res (A * B) :=
  match a, b with
  | Ok va, Ok vb => Ok (va, vb)
  | Throw e, Ok _ => Throw e
  | Ok _, Throw e => Throw e
  | Throw ea, Throw eb => Throw (if secondFirst then eb else ea)
  end.

(** [safeSend] (lines 186-190). *)
Definition safeSend (event : IpcMainEvent) (channel : string) (payload : ReplyPayload)
    (s : State) : State :=
  if negb (senderIsDestroyed event) then log (Reply (sender event) channel payload) s
  else s.

Definition isReply (a : Action) : bool :=
  match a with
  | Reply _ _ _ => true
  | _ => false
  end.

(** The messages sent back to requesting renderers so far. *)
Definition replies (s : State) : list Action := List.filter isReply (trace s).

(** ['vscode:issueSystemInfoRequest'] (lines 59-64). *)
Definition issueSystemInfoRequest (c : Collaborators) (event : IpcMainEvent) (s : State)
    : State * Res unit :=
  match promiseAll2 (remoteRejectsFirst c) (getMainProcessInfo c)
          (getRemoteDiagnostics c (mkDiagnosticOptions false false)) with
  | Throw e => (s, Throw e)
  | Ok (info, remoteData) =>
      match getSystemInfo c info remoteData with
      | Throw e => (s, Throw e)
      | Ok msg => (safeSend event "vscode:issueSystemInfoResponse" (SystemInfoMsg msg) s, Ok tt)
      end
  end.

(** The [forEach] of lines 74-88. *)
Definition remoteEntries (remoteDiagnostics : list RemoteDiagnostic) : list ProcessEntry :=
  flat_map
    (fun data =>
       match data with
       | RemoteDiagnosticError hostName errorMessage =>
           [mkEntry hostName (RootError hostName errorMessage)]
       | RemoteDiagnosticInfo hostName (Some processes) =>
           [mkEntry hostName (RootProcess processes)]
       | RemoteDiagnosticInfo _ None => []
       end)
    remoteDiagnostics.

(** The [try] block of lines 69-88: the array [processes] as it stands when
    the block is left, and the error it is left with, if any. *)
Definition gatherProcesses (c : Collaborators) : list ProcessEntry * option string :=
  match getMainProcessId c with
  | Throw e => ([], Some e)
  | Ok mainPid =>
      match listProcesses c mainPid with
      | Throw e => ([], Some e)
      | Ok rootProcess =>
          let processes := [mkEntry "Local" (RootProcess rootProcess)] in
          match getRemoteDiagnostics c (mkDiagnosticOptions true false) with
          | Throw e => (processes, Some e)
          | Ok remoteDiagnostics => (processes ++ remoteEntries remoteDiagnostics, None)
          end
      end
  end.

(** ['vscode:listProcesses'] (lines 66-94). *)
Definition listProcessesRequest (c : Collaborators) (event : IpcMainEvent) (s : State)
    : State * Res unit :=
  let '(processes, failure) := gatherProcesses c in
  let s1 :=
    match failure with
    | Some e => log (LogError (String.append "Listing processes failed: " (renderError e))) s
    | None => s
    end in
  (safeSend event "vscode:listProcessesResponse" (ProcessList processes) s1, Ok tt).

(** ['vscode:issueReporterClipboard'] (lines 96-110). *)
Definition issueReporterClipboard (c : Collaborators) (event : IpcMainEvent) (s : State)
    : State * Res unit :=
  match issueReporterWindow s with
  | Some w =>
      let s1 := log (ShowMessageBox w) s in
      match showMessageBox c with
      | Throw e => (s1, Throw e)
      | Ok response =>
          (safeSend event "vscode:issueReporterClipboardResponse"
             (BoolMsg (Nat.eqb response 0)) s1, Ok tt)
      end
  | None => (s, Ok tt)
  end.

(** [getPerformanceInfo] (lines 508-517). *)
Definition getPerformanceInfo (c : Collaborators) (s : State) : State * Res string :=
  let attempt :=
    match promiseAll2 (remoteRejectsFirst c) (getMainProcessInfo c)
            (getRemoteDiagnostics c (mkDiagnosticOptions true true)) with
    | Throw e => Throw e
    | Ok (info, remoteData) => diagnosticsGetPerformanceInfo c info remoteData
    end in
  match attempt with
  | Ok performanceInfo => (s, Ok performanceInfo)
  | Throw error =>
      (log (LogWarn (String.append "issueService#getPerformanceInfo " error)) s, Throw error)
  end.

(** ['vscode:issuePerformanceInfoRequest'] (lines 112-115). *)
Definition issuePerformanceInfoRequest (c : Collaborators) (event : IpcMainEvent)
    (s : State) : State * Res unit :=
  match getPerformanceInfo c s with
  | (s1, Throw e) => (s1, Throw e)
  | (s1, Ok performanceInfo) =>
      (safeSend event "vscode:issuePerformanceInfoResponse"
         (PerformanceMsg performanceInfo) s1, Ok tt)
  end.

(** ['vscode:windowsInfoRequest'] (lines 174-177). *)
Definition windowsInfoRequest (c : Collaborators) (event : IpcMainEvent) (s : State)
    : State * Res unit :=
  match getMainProcessInfo c with
  | Throw e => (s, Throw e)
  | Ok mainProcessInfo =>
      (safeSend event "vscode:windowsInfoResponse" (WindowsMsg (windows mainProcessInfo)) s,
       Ok tt)
  end.

(** ['vscode:issueReporterConfirmClose'] (lines 117-136), in the two parts
    separated by [await]: other handlers may run in between. *)
Definition issueReporterConfirmClose (s : State) : State :=
  match issueReporterWindow s with
  | Some w => log (ShowMessageBox w) s
  | None => s
  end.

Definition issueReporterConfirmCloseAnswered (response : nat) (s : State) : State :=
  if Nat.eqb response 0 then
    match issueReporterWindow s with
    | Some w => set_issueReporterWindow None (destroy w s)
    | None => s
    end
  else s.

(** The argument of ['vscode:workbenchCommand']. *)
Record CommandInfo : Type := mkCommandInfo {
  id : string;
  from : string;
  args : Payload
}.

(** ['vscode:workbenchCommand'] (lines 138-156).  [SendRunAction P] records
    the call of [send] on the window the reference holds, whether or not that
    window is still open. *)
Definition workbenchCommand (commandInfo : CommandInfo) (s : State) : State * Res unit :=
  let source :=
    if String.eqb (from commandInfo) "issueReporter"
    then Some (issueReporterParentWindow s)
    else if String.eqb (from commandInfo) "processExplorer"
    then Some (processExplorerParentWindow s)
    else None in
  match source with
  | None =>
      (s, Throw (String.append "Unexpected command source: " (from commandInfo)))
  | Some parentWindow =>
      match parentWindow with
      | Some P =>
          (log (SendRunAction P
                  (mkRunAction (id commandInfo) (from commandInfo)
                     (ArgsAsReceived (args commandInfo)))) s, Ok tt)
      | None => (s, Ok tt)
      end
  end.

(** ['vscode:openExternal'] (lines 158-160). *)
Definition openExternal (arg : string) (s : State) : State := log (OpenExternal arg) s.

(** ['vscode:closeIssueReporter'], ['vscode:closeProcessExplorer'] and
    ['vscode:closeBrowserWindow'] (lines 162-172, 179-183). *)
Definition closeIssueReporter (s : State) : State :=
  match issueReporterWindow s with
  | Some w => close w s
  | None => s
  end.

Definition closeProcessExplorer (s : State) : State :=
  match processExplorerWindow s with
  | Some w => close w s
  | None => s
  end.

Definition closeBrowserWindow (s : State) : State :=
  match _browserWindow s with
  | Some w => close w s
  | None => s
  end.

(** ** The event loop *)

(** What can happen to the service: a call of one of its public operations,
    a message on [ipcMain], or an event of a window, a timer or the desktop. *)
Inductive Event : Type :=
| CallOpenReporter (data : WindowData)
| CallOpenProcessExplorer (data : WindowData)
| CallOpenBrowserWindow (args : option (list BridgeConfig))
| IpcSystemInfoRequest (c : Collaborators) (event : IpcMainEvent)
| IpcListProcesses (c : Collaborators) (event : IpcMainEvent)
| IpcClipboard (c : Collaborators) (event : IpcMainEvent)
| IpcPerformanceInfoRequest (c : Collaborators) (event : IpcMainEvent)
| IpcConfirmClose
| ConfirmCloseAnswered (response : nat)
| IpcWorkbenchCommand (commandInfo : CommandInfo)
| IpcOpenExternal (arg : string)
| IpcCloseIssueReporter
| IpcCloseProcessExplorer
| IpcCloseBrowserWindow
| IpcWindowsInfoRequest (c : Collaborators) (event : IpcMainEvent)
| IpcBridgeMessage (channel : string) (args : Payload)
| AuxEmits (w : AuxId) (e : WinEvent)
| ParentEmits (P : ParentId) (e : WinEvent)
| TimerFires (n : nat)
| ParentOpened (bounds : Rectangle)
| FocusChanged (o : option ParentId)
| AuxMinimized (w : AuxId) (b : bool).

(** An auxiliary window is destroyed by the time it emits ['closed']. *)
Definition auxEmits (w : AuxId) (e : WinEvent) (s : State) : State :=
  match e with
  | EClosed => emitAux EClosed w (updAux w (set_aw_destroyed true) s)
  | _ => emitAux e w s
  end.

Definition timerFires (n : nat) (s : State) : State :=
  match timers s !! n with
  | Some t => runTimer t (set_timers (delete n (timers s)) s)
  | None => s
  end.

(** Only a window that exists can take the focus. *)
Definition focusChanged (o : option ParentId) (s : State) : State :=
  match o with
  | Some P => if Nat.ltb P (length (parents s)) then set_focusedWindow o s else s
  | None => set_focusedWindow None s
  end.

Definition step (ev : Event) (s : State) : State :=
  match ev with
  | CallOpenReporter data => fst (openReporter data s)
  | CallOpenProcessExplorer data => fst (openProcessExplorer data s)
  | CallOpenBrowserWindow args => snd (openBrowserWindow args s)
  | IpcSystemInfoRequest c event => fst (issueSystemInfoRequest c event s)
  | IpcListProcesses c event => fst (listProcessesRequest c event s)
  | IpcClipboard c event => fst (issueReporterClipboard c event s)
  | IpcPerformanceInfoRequest c event => fst (issuePerformanceInfoRequest c event s)
  | IpcConfirmClose => issueReporterConfirmClose s
  | ConfirmCloseAnswered response => issueReporterConfirmCloseAnswered response s
  | IpcWorkbenchCommand commandInfo => fst (workbenchCommand commandInfo s)
  | IpcOpenExternal arg => openExternal arg s
  | IpcCloseIssueReporter => closeIssueReporter s
  | IpcCloseProcessExplorer => closeProcessExplorer s
  | IpcCloseBrowserWindow => closeBrowserWindow s
  | IpcWindowsInfoRequest c event => fst (windowsInfoRequest c event s)
  | IpcBridgeMessage channel args => emitIpc channel args s
  | AuxEmits w e => auxEmits w e s
  | ParentEmits P e => emitParent e P s
  | TimerFires n => timerFires n s
  | ParentOpened bounds => set_parents (parents s ++ [mkParentWin bounds []]) s
  | FocusChanged o => focusChanged o s
  | AuxMinimized w b => updAux w (set_aw_minimized b) s
  end.

Definition run (evs : list Event) (s : State) : State :=
  foldl (fun s ev => step ev s) s evs.

(** The service as constructed: no window, nothing registered. *)
Definition initial (e : Env) : State :=
  mkState None None None None None None [] [] [] [] [] [] None e [].

Definition reachable (s : State) : Prop :=
  exists e evs, s = run evs (initial e).

End Service.

(** ** Diagnostic sessions and what holds of them in every reachable state *)

Module Invariant.
Import Placement Service.

(** The two roles whose sessions own a configuration channel. *)
Inductive DiagnosticRole : Type := Reporter | Explorer.

Definition roleOf (k : DiagnosticRole) : Role :=
  match k with
  | Reporter => IssueReporter
  | Explorer => ProcessExplorer
  end.

Definition slotOf (k : DiagnosticRole) (s : State) : option AuxId :=
  match k with
  | Reporter => issueReporterWindow s
  | Explorer => processExplorerWindow s
  end.

Definition parentSlotOf (k : DiagnosticRole) (s : State) : option ParentId :=
  match k with
  | Reporter => issueReporterParentWindow s
  | Explorer => processExplorerParentWindow s
  end.

(** The listener on the window's ['close'] (lines 338, 382), and the
    listener on the parent (line 344, on ['closed']; line 387, on
    ['close']). *)
Definition childListener (k : DiagnosticRole) (d : StoreId) : AuxListener :=
  match k with
  | Reporter => ReporterClose d
  | Explorer => ExplorerClose d
  end.

Definition parentListener (k : DiagnosticRole) (d : StoreId) : ParentListener :=
  match k with
  | Reporter => ReporterParentClosed d
  | Explorer => ExplorerParentClose d
  end.

Definition parentEvent (k : DiagnosticRole) : WinEvent :=
  match k with
  | Reporter => EClosed
  | Explorer => EClose
  end.



Definition auxListeners (s : State) (w : AuxId) : option (list (Registration AuxListener)) :=
  aw_listeners <$> auxs s !! w.

Definition parentListeners (s : State) (P : ParentId)
    : option (list (Registration ParentListener)) :=
  pw_listeners <$> parents s !! P.

Definition ownerOf (s : State) (d : StoreId) : option Role :=
  owner <$> stores s !! d.

(** The session of role [k] with window [w], store [d] and parent [P] is
    live: [w] is in the slot, its only listener is the one that disposes [d],
    [d] is not disposed, and [P] carries the parent listener for [d]. *)
Definition liveSession (k : DiagnosticRole) (w : AuxId) (d : StoreId) (P : ParentId)
    (s : State) : Prop :=
  slotOf k s = Some w /\
  auxListeners s w = Some [mkReg EClose false (childListener k d)] /\
  stores s !! d = Some (mkStore (roleOf k) false) /\
  parentSlotOf k s = Some P /\
  exists ls, parentListeners s P = Some ls /\
             In (mkReg (parentEvent k) false (parentListener k d)) ls.

(** Stores are referred to by listeners of the role that owns them. *)
Definition auxRegOk (s : State) (r : Registration AuxListener) : Prop :=
  match reg_listener r with
  | ReporterClose d => ownerOf s d = Some IssueReporter
  | ExplorerClose d => ownerOf s d = Some ProcessExplorer
  | _ => True
  end.

Definition parentRegOk (s : State) (r : Registration ParentListener) : Prop :=
  match reg_listener r with
  | ReporterParentClosed d => reg_event r = EClosed /\ ownerOf s d = Some IssueReporter
  | ExplorerParentClose d => reg_event r = EClose /\ ownerOf s d = Some ProcessExplorer
  | BrowserParentClosed _ => reg_event r = EClosed
  end.

(** The release of a configuration channel is recorded exactly when its
    store becomes disposed. *)
Definition disposedOnce (s : State) : Prop :=
  forall d,
    disposals d s =
    (match stores s !! d with
     | Some st => if isDisposed_ st then 1 else 0
     | None => 0
     end)%nat.

Record Inv (s : State) : Prop := mkInv {
  inv_sessions :
    forall k w, slotOf k s = Some w -> exists d P, liveSession k w d P s;
  inv_bridge :
    forall b, _browserWindow s = Some b ->
      exists ls, auxListeners s b = Some ls /\
                 Forall (fun r => reg_event r <> EClose) ls;
  inv_aux :
    forall w ls, auxListeners s w = Some ls -> Forall (auxRegOk s) ls;
  inv_parents :
    forall P ls, parentListeners s P = Some ls -> Forall (parentRegOk s) ls;
  inv_focus :
    forall P, focusedWindow s = Some P -> (P < length (parents s))%nat;
  inv_disposals : disposedOnce s
}.

(** A listener of the bridge window: none is registered on ['close']. *)
Definition bridgeKind (r : Registration AuxListener) : Prop :=
  reg_event r <> EClose /\
  match reg_listener r with
  | ReporterClose _ | ExplorerClose _ => False
  | _ => True
  end.

(** [s'] comes after [s] in the life of a session that has ended: an empty
    slot stays empty, a disposed store stays disposed, the trace grows. *)
Record later (s s' : State) : Prop := mkLater {
  later_slot : forall k, slotOf k s = None -> slotOf k s' = None;
  later_disposed :
    forall d r, stores s !! d = Some (mkStore r true) ->
                stores s' !! d = Some (mkStore r true);
  later_trace : exists t, trace s' = trace s ++ t
}.

(** The operation that opens a session of role [k]. *)
Definition openDiagnostic (k : DiagnosticRole) (data : WindowData) (s : State)
    : State * Res unit :=
  match k with
  | Reporter => openReporter data s
  | Explorer => openProcessExplorer data s
  end.

(** Two states that agree on everything the invariant reads. *)
Record sameCore (s s' : State) : Prop := mkSameCore {
  same_reporter : issueReporterWindow s' = issueReporterWindow s;
  same_reporterParent : issueReporterParentWindow s' = issueReporterParentWindow s;
  same_explorer : processExplorerWindow s' = processExplorerWindow s;
  same_explorerParent : processExplorerParentWindow s' = processExplorerParentWindow s;
  same_browser : _browserWindow s' = _browserWindow s;
  same_aux : forall w, auxListeners s' w = auxListeners s w;
  same_parents : forall P, parentListeners s' P = parentListeners s P;
  same_parents_length : length (parents s') = length (parents s);
  same_stores : stores s' = stores s;
  same_focus : focusedWindow s' = focusedWindow s;
  same_disposals : forall d, disposals d s' = disposals d s
}.

End Invariant.

(** ** Concrete worlds used to exercise the model *)

Module Examples.
Import Placement Service.

(** A Linux desktop with one 1920x1080 display. *)
Definition someEnv : Env :=
  mkEnv (singleDisplay (rectZ 0 0 1920 1080)) false false.

Definition liveSender : IpcMainEvent := mkIpcMainEvent 7 false.

Definition someInfo : MainProcessInfo := mkMainProcessInfo 4242 ["window 1"].


(** The remote-diagnostics call fails; everything else answers. *)
Definition remoteDown : Collaborators :=
  {| getMainProcessInfo := Ok someInfo;
     getMainProcessId := Ok 4242%nat;
     getRemoteDiagnostics := fun _ => Throw "connection lost";
     listProcesses := fun _ => Ok "local tree";
     getSystemInfo := fun _ _ => Ok "system info";
     diagnosticsGetPerformanceInfo := fun _ _ => Ok "performance info";
     showMessageBox := Ok 0%nat;
     remoteRejectsFirst := false |}.

(** The performance-info call of the diagnostics service fails. *)
Definition performanceDown : Collaborators :=
  {| getMainProcessInfo := Ok someInfo;
     getMainProcessId := Ok 4242%nat;
     getRemoteDiagnostics := fun _ => Ok [];
     listProcesses := fun _ => Ok "local tree";
     getSystemInfo := fun _ _ => Ok "system info";
     diagnosticsGetPerformanceInfo := fun _ _ => Throw "no data";
     showMessageBox := Ok 0%nat;
     remoteRejectsFirst := false |}.

(** A workbench window is open and focused. *)
Definition workbenchFocused : State :=
  run [ParentOpened (rectZ 100 100 1200 800); FocusChanged (Some 0%nat)] (initial someEnv).

Definition someData : WindowData := mkWindowData (Some "#252526") 0.

(** A certificate dialog: its channel ends the session. *)
Definition certificateConfig : BridgeConfig :=
  {| cfg_height := Some 400%Q; cfg_width := Some 600%Q;
     cfg_data := Some (mkBridgeData "Default Dark+" "{}");
     darkBackgroundColor := Some "#1E1E1E"; lightBackgroundColor := Some "#FFFFFF";
     loadURL := "https://example.test/certificate"; winId := "certificate";
     events := [mkEventPair "cert-ready" "certificate";
                mkEventPair "progress" "updateProgress"] |}.

(** A login dialog that happens to be configured with the same pair. *)
Definition loginConfig : BridgeConfig :=
  {| cfg_height := Some 400%Q; cfg_width := Some 600%Q;
     cfg_data := Some (mkBridgeData "Default Dark+" "{}");
     darkBackgroundColor := Some "#1E1E1E"; lightBackgroundColor := Some "#FFFFFF";
     loadURL := "https://example.test/login"; winId := "login";
     events := [mkEventPair "cert-ready" "certificate"] |}.

Definition reporterOpen : State := step (CallOpenReporter someData) workbenchFocused.

Definition explorerOpen : State := step (CallOpenProcessExplorer someData) workbenchFocused.

Definition bridgeOpen : State :=
  step (CallOpenBrowserWindow (Some [loginConfig])) workbenchFocused.

(** The issue reporter is open and has been minimized. *)
Definition reporterMinimized : State := step (AuxMinimized 0%nat true) reporterOpen.

Definition certificateOpen : State :=
  step (CallOpenBrowserWindow (Some [certificateConfig])) workbenchFocused.

(** A request for the emulator dialog, with no event pairs. *)
Definition emulatorConfig : BridgeConfig :=
  {| cfg_height := None; cfg_width := None;
     cfg_data := Some (mkBridgeData "Default Light+" "{}");
     darkBackgroundColor := Some "#1E1E1E"; lightBackgroundColor := Some "#FFFFFF";
     loadURL := "https://example.test/emulator"; winId := "addEmulator";
     events := [] |}.


End Examples.

(** ** Vocabulary for the further properties *)

Module More.
Import Placement Service Invariant.

(** The [from] a window of role [k] sends with its workbench commands. *)
Definition roleName (k : DiagnosticRole) : string :=
  match k with
  | Reporter => "issueReporter"
  | Explorer => "processExplorer"
  end.

(** The default size passed to [getWindowPosition] (lines 315, 365). *)
Definition defaultWidth (k : DiagnosticRole) : Q :=
  match k with
  | Reporter => 700
  | Explorer => 800
  end.

Definition defaultHeight (k : DiagnosticRole) : Q :=
  match k with
  | Reporter => 800
  | Explorer => 500
  end.

(** ['vscode:closeIssueReporter'] and ['vscode:closeProcessExplorer']. *)
Definition closeRequest (k : DiagnosticRole) : Event :=
  match k with
  | Reporter => IpcCloseIssueReporter
  | Explorer => IpcCloseProcessExplorer
  end.

(** The pairs the loop of lines 260-283 does not skip. *)
Definition usable (event : EventPair) : bool :=
  negb (String.eqb (channel event) "" || String.eqb (command event) "").

(** The ['closed'] listeners that loop registers, in order. *)
Definition closedListeners (p : PromiseId) (pairs : list EventPair)
    : list (Registration AuxListener) :=
  map (fun event => mkReg EClosed false (BrowserClosedChannel (channel event) p))
      (List.filter usable pairs).

(** There is no bridge window, or the one in the slot is destroyed: the test
    of line 194 fails. *)
Definition noLiveBridge (s : State) : Prop :=
  match _browserWindow s with
  | Some w => isDestroyed w s = true
  | None => True
  end.

Definition hostName (data : RemoteDiagnostic) : string :=
  match data with
  | RemoteDiagnosticError h _ => h
  | RemoteDiagnosticInfo h _ => h
  end.

(** The remote hosts that get an entry in the process list: those that
    failed, and those that sent processes. *)
Definition listed (data : RemoteDiagnostic) : bool :=
  match data with
  | RemoteDiagnosticError _ _ => true
  | RemoteDiagnosticInfo _ (Some _) => true
  | RemoteDiagnosticInfo _ None => false
  end.

(** The listeners a new bridge window carries when [openBrowserWindow]
    returns (lines 243-291), in registration order. *)
Definition bridgeListeners (p : PromiseId) (config : BridgeConfig) (data : BridgeData)
    : list (Registration AuxListener) :=
  [mkReg EReadyToShow true (BrowserReadyToShow (winId config) p);
   mkReg EDidFinishLoad false (BrowserDidFinishLoad data)] ++
  match events config with
  | [] => [mkReg EClosed false (BrowserClosed p)]
  | _ :: _ => closedListeners p (events config)
  end.

(** The call that opens a session of role [k]: the one operation that
    assigns the role's parent reference (lines 310, 360). *)
Definition opens (k : DiagnosticRole) (ev : Event) : bool :=
  match k, ev with
  | Reporter, CallOpenReporter _ => true
  | Explorer, CallOpenProcessExplorer _ => true
  | _, _ => false
  end.

(** The parent references of the two diagnostic roles are in [s'] what they
    are in [s]. *)
Definition sameParentRefs (s s' : State) : Prop :=
  issueReporterParentWindow s' = issueReporterParentWindow s /\
  processExplorerParentWindow s' = processExplorerParentWindow s.

End More.

(** * Properties *)

Module PlacementFacts.
Import Placement.

Lemma Qltb_lt (a b : Q) : Qltb a b = true <-> (a < b)%Q.
Proof.
  unfold Qltb. rewrite negb_true_iff. split.
  - intros H. apply Qnot_le_lt. intros Hle.
    apply Qle_bool_iff in Hle. congruence.
  - intros H. destruct (Qle_bool b a) eqn:E; [|reflexivity].
    apply Qle_bool_iff in E. exfalso. exact (Qlt_not_le _ _ H E).
Qed.

Lemma Qltb_ge (a b : Q) : Qltb a b = false <-> (b <= a)%Q.
Proof.
  unfold Qltb. rewrite negb_false_iff. apply Qle_bool_iff.
Qed.

Lemma half_sum (a : Q) : (a / 2 + a / 2 == a)%Q.
Proof. field. Qed.

(** One axis of the clamp: the centred origin either stays, or is pinned to
    the display's origin; the extent never passes the display's far edge. *)
Lemma axis_contained (o len d : Q) :
  (0 < len)%Q ->
  let c := (o + len / 2 - d / 2)%Q in
  let c1 := if Qltb c o then o else c in
  let c2 := if Qltb (o + len) c1 then o else c1 in
  let d1 := if Qltb len d then len else d in
  (o <= c2)%Q /\ (c2 + d1 <= o + len)%Q.
Proof.
  intros Hlen c c1 c2 d1.
  pose proof (half_sum len) as Hl. pose proof (half_sum d) as Hd.
  subst c2 c1 d1 c.
  destruct (Qltb (o + len / 2 - d / 2) o) eqn:E1;
    [apply Qltb_lt in E1 | apply Qltb_ge in E1];
  match goal with
  | |- context [Qltb (o + len) ?t] =>
      destruct (Qltb (o + len) t) eqn:E2;
        [apply Qltb_lt in E2 | apply Qltb_ge in E2]
  end;
  (destruct (Qltb len d) eqn:E3;
     [apply Qltb_lt in E3 | apply Qltb_ge in E3]);
  split; lra.
Qed.

(** Both axes: a display with positive extent contains the clamped
    rectangle. *)
Lemma centerAndClamp_contained (b : Rectangle) (dw dh : Q) :
  (0 < width b)%Q -> (0 < height b)%Q ->
  contained (centerAndClamp b dw dh) b.
Proof.
  intros Hw Hh. unfold centerAndClamp.
  assert (Ew : Qltb 0 (width b) = true) by (apply Qltb_lt; exact Hw).
  assert (Eh : Qltb 0 (height b) = true) by (apply Qltb_lt; exact Hh).
  rewrite Ew, Eh. cbn [andb].
  destruct (axis_contained (x b) (width b) dw Hw) as [X1 X2].
  destruct (axis_contained (y b) (height b) dh Hh) as [Y1 Y2].
  unfold contained. cbn [x y width height]. auto.
Qed.

Lemma is_integer_inject (z : Z) : is_integer (inject_Z z).
Proof. exists z. reflexivity. Qed.

Lemma is_integer_double_centre (a c d : Z) :
  is_integer (2 * (inject_Z a + inject_Z c / 2 - inject_Z d / 2)).
Proof.
  exists (2 * a + c - d)%Z.
  unfold Qeq, Qmult, Qminus, Qplus, Qdiv, Qinv, Qopp, inject_Z. cbn. lia.
Qed.

Lemma is_integer_double (z : Z) : is_integer (2 * inject_Z z).
Proof.
  exists (2 * z)%Z. rewrite inject_Z_mult. reflexivity.
Qed.

(** One axis on integer inputs: twice the origin is an integer, and so is
    the extent. *)
Lemma axis_half_integer (a c d : Z) :
  let o := inject_Z a in
  let len := inject_Z c in
  let q := (o + len / 2 - inject_Z d / 2)%Q in
  let c1 := if Qltb q o then o else q in
  let c2 := if Qltb (o + len) c1 then o else c1 in
  let d1 := if Qltb len (inject_Z d) then len else inject_Z d in
  is_integer (2 * c2) /\ is_integer d1 /\ is_integer (2 * q).
Proof.
  intros o len q c1 c2 d1. subst c2 c1 d1 q o len.
  repeat split.
  - destruct (Qltb _ (inject_Z a)).
    + destruct (Qltb _ (inject_Z a)); apply is_integer_double.
    + destruct (Qltb _ _);
        [apply is_integer_double | apply is_integer_double_centre].
  - destruct (Qltb _ _); apply is_integer_inject.
  - apply is_integer_double_centre.
Qed.

(** C4: for every display with positive width and height, the rectangle
    returned by [getWindowPosition] lies within the bounds of the display it
    chose; and on a single 1920x1080 display at the origin, a 700x800 request
    is placed at x = 610, y = 140 with its size unchanged. *)
Theorem getWindowPosition_contained :
  (forall scr mac pw d dw dh,
      displayToUse scr mac pw = Some d ->
      (0 < width (bounds d))%Q -> (0 < height (bounds d))%Q ->
      exists st, getWindowPosition scr mac pw dw dh = Some st /\
                 contained st (bounds d)) /\
  (forall mac pw,
      exists st,
        getWindowPosition (singleDisplay (rectZ 0 0 1920 1080)) mac pw 700 800 = Some st /\
        (x st == 610)%Q /\ (y st == 140)%Q /\
        (width st == 700)%Q /\ (height st == 800)%Q).
Proof.
  split.
  - intros scr mac pw d dw dh Hd Hw Hh.
    unfold getWindowPosition. rewrite Hd. eexists. split; [reflexivity|].
    apply centerAndClamp_contained; assumption.
  - intros mac pw. eexists. split; [reflexivity|].
    repeat split; reflexivity.
Qed.

Lemma getWindowPosition_contained_witness :
  exists st,
    getWindowPosition (singleDisplay (rectZ 0 0 1920 1080)) false None 700 800 = Some st /\
    contained st (rectZ 0 0 1920 1080).
Proof.
  apply (proj1 getWindowPosition_contained
           (singleDisplay (rectZ 0 0 1920 1080)) false None
           (mkDisplay (rectZ 0 0 1920 1080)) 700%Q 800%Q).
  - reflexivity.
  - reflexivity.
  - reflexivity.
Defined.

(** C5, refuted as stated: on a display 1921 pixels wide, a request 700
    pixels wide is centred at x = 610.5, which is not an integer. *)
Lemma getWindowPosition_x_not_integer :
  exists st,
    getWindowPosition (singleDisplay (rectZ 0 0 1921 1080)) false None 700 800 = Some st /\
    ~ is_integer (x st).
Proof.
  eexists. split; [reflexivity|].
  intros [z Hz].
  assert (E : (x (centerAndClamp (rectZ 0 0 1921 1080) 700 800) == 1221 # 2)%Q)
    by (vm_compute; reflexivity).
  rewrite E in Hz. unfold Qeq in Hz. cbn in Hz. lia.
Qed.

(** C5, amended: for integer display bounds and integer requested sizes,
    [width] and [height] of the placement are integers, and [x] and [y] are
    integers or half-integers (twice each is an integer). *)
Theorem getWindowPosition_half_integers :
  forall scr mac pw d (a b c e dw dh : Z),
    displayToUse scr mac pw = Some d ->
    bounds d = rectZ a b c e ->
    exists st,
      getWindowPosition scr mac pw (inject_Z dw) (inject_Z dh) = Some st /\
      is_integer (2 * x st) /\ is_integer (2 * y st) /\
      is_integer (width st) /\ is_integer (height st).
Proof.
  intros scr mac pw d a b c e dw dh Hd Hb.
  unfold getWindowPosition. rewrite Hd, Hb. eexists. split; [reflexivity|].
  destruct (axis_half_integer a c dw) as (X1 & X2 & X3).
  destruct (axis_half_integer b e dh) as (Y1 & Y2 & Y3).
  unfold centerAndClamp, rectZ. cbn [x y width height].
  destruct (Qltb 0 (inject_Z c) && Qltb 0 (inject_Z e));
    cbn [x y width height]; repeat split;
    auto using is_integer_inject.
Qed.

Lemma getWindowPosition_half_integers_witness :
  exists st,
    getWindowPosition (singleDisplay (rectZ 0 0 1921 1080)) false None
      (inject_Z 700) (inject_Z 800) = Some st /\
    is_integer (2 * x st) /\ is_integer (2 * y st) /\
    is_integer (width st) /\ is_integer (height st).
Proof.
  apply (getWindowPosition_half_integers
           (singleDisplay (rectZ 0 0 1921 1080)) false None
           (mkDisplay (rectZ 0 0 1921 1080)) 0%Z 0%Z 1921%Z 1080%Z 700%Z 800%Z).
  - reflexivity.
  - reflexivity.
Defined.

End PlacementFacts.

(** ** Message handlers *)

Module HandlerFacts.
Import Placement Service Examples.

Lemma safeSend_live (event : IpcMainEvent) (ch : string) (pl : ReplyPayload) (s : State) :
  senderIsDestroyed event = false ->
  safeSend event ch pl s = log (Reply (sender event) ch pl) s.
Proof. intros H. unfold safeSend. rewrite H. reflexivity. Qed.


Lemma replies_log (a : Action) (s : State) :
  replies (log a s) = replies s ++ (if isReply a then [a] else []).
Proof.
  unfold replies, log. cbn.
  rewrite List.filter_app. cbn. destruct (isReply a); reflexivity.
Qed.

(** What the list-processes handler does when its [try] block is left with
    the error [e] and the entries [gathered]. *)
Lemma listProcessesRequest_failed c event s gathered e :
  gatherProcesses c = (gathered, Some e) ->
  listProcessesRequest c event s =
    (safeSend event "vscode:listProcessesResponse" (ProcessList gathered)
       (log (LogError (String.append "Listing processes failed: " (renderError e))) s),
     Ok tt).
Proof. intros H. unfold listProcessesRequest. rewrite H. reflexivity. Qed.

(** C8: whichever step of process listing fails (the main process id, the
    local listing, or the remote-diagnostics call), the handler logs the
    failure, then answers the request with what had been gathered (the local
    tree once the local step has succeeded), and completes normally. *)
Theorem listProcesses_replies_with_partial_results :
  forall c event s e,
    let logged := log (LogError (String.append "Listing processes failed: " (renderError e))) s in
    let answer gathered :=
      (safeSend event "vscode:listProcessesResponse" (ProcessList gathered) logged, Ok tt) in
    (getMainProcessId c = Throw e ->
       listProcessesRequest c event s = answer []) /\
    (forall pid,
       getMainProcessId c = Ok pid -> listProcesses c pid = Throw e ->
       listProcessesRequest c event s = answer []) /\
    (forall pid root,
       getMainProcessId c = Ok pid -> listProcesses c pid = Ok root ->
       getRemoteDiagnostics c (mkDiagnosticOptions true false) = Throw e ->
       listProcessesRequest c event s = answer [mkEntry "Local" (RootProcess root)]) /\
    (forall gathered,
       senderIsDestroyed event = false ->
       trace (fst (answer gathered)) =
         trace s ++ [LogError (String.append "Listing processes failed: " (renderError e));
                     Reply (sender event) "vscode:listProcessesResponse" (ProcessList gathered)]).
Proof.
  intros c event s e logged answer. repeat split.
  - intros H. apply listProcessesRequest_failed. unfold gatherProcesses. rewrite H. reflexivity.
  - intros pid H1 H2. apply listProcessesRequest_failed.
    unfold gatherProcesses. rewrite H1, H2. reflexivity.
  - intros pid root H1 H2 H3. apply listProcessesRequest_failed.
    unfold gatherProcesses. rewrite H1, H2, H3. reflexivity.
  - intros gathered Hs. subst answer logged. cbn [fst].
    rewrite safeSend_live by assumption. cbn.
    rewrite <- app_assoc. reflexivity.
Qed.

Lemma listProcesses_replies_with_partial_results_witness :
  listProcessesRequest remoteDown liveSender (initial someEnv) =
    (safeSend liveSender "vscode:listProcessesResponse"
       (ProcessList [mkEntry "Local" (RootProcess "local tree")])
       (log (LogError "Listing processes failed: Error: connection lost") (initial someEnv)),
     Ok tt).
Proof.
  destruct (listProcesses_replies_with_partial_results remoteDown liveSender
              (initial someEnv) "connection lost") as (_ & _ & H & _).
  apply (H 4242%nat "local tree"); reflexivity.
Defined.

(** C9, refuted as stated: the performance-info call fails and the requester,
    though alive, is sent nothing: the failure ends in the handler. *)
Lemma performanceInfo_failure_not_answered :
  diagnosticsGetPerformanceInfo performanceDown someInfo [] = Throw "no data" /\
  senderIsDestroyed liveSender = false /\
  replies (fst (issuePerformanceInfoRequest performanceDown liveSender (initial someEnv))) = [] /\
  snd (issuePerformanceInfoRequest performanceDown liveSender (initial someEnv)) = Throw "no data".
Proof. repeat split. Qed.

(** C9, amended: when a collaborator call of the performance-info request
    fails, [getPerformanceInfo] logs a warning carrying the error's message
    and then rethrows the error to the request handler, which fails with it
    in turn; no response is sent to the requester.  The error is that of the
    call that failed; when the two calls awaited together both fail, it is
    the error of one of the two, the one that rejects first. *)
Theorem performanceInfo_failure_logged_then_rethrown :
  forall c event s,
    let options := mkDiagnosticOptions true true in
    let outcome e :=
      getPerformanceInfo c s =
        (log (LogWarn (String.append "issueService#getPerformanceInfo " e)) s, Throw e) /\
      issuePerformanceInfoRequest c event s =
        (log (LogWarn (String.append "issueService#getPerformanceInfo " e)) s, Throw e) /\
      trace (fst (issuePerformanceInfoRequest c event s)) =
        trace s ++ [LogWarn (String.append "issueService#getPerformanceInfo " e)] /\
      replies (fst (issuePerformanceInfoRequest c event s)) = replies s in
    (forall e remoteData,
        getMainProcessInfo c = Throw e ->
        getRemoteDiagnostics c options = Ok remoteData ->
        outcome e) /\
    (forall e info,
        getMainProcessInfo c = Ok info ->
        getRemoteDiagnostics c options = Throw e ->
        outcome e) /\
    (forall e info remoteData,
        getMainProcessInfo c = Ok info ->
        getRemoteDiagnostics c options = Ok remoteData ->
        diagnosticsGetPerformanceInfo c info remoteData = Throw e ->
        outcome e) /\
    (forall e1 e2,
        getMainProcessInfo c = Throw e1 ->
        getRemoteDiagnostics c options = Throw e2 ->
        outcome e1 \/ outcome e2).
Proof.
  intros c event s options outcome.
  assert (G : forall e,
             getPerformanceInfo c s =
               (log (LogWarn (String.append "issueService#getPerformanceInfo " e)) s, Throw e) ->
             outcome e).
  { intros e G. unfold outcome.
    assert (R : issuePerformanceInfoRequest c event s =
                (log (LogWarn (String.append "issueService#getPerformanceInfo " e)) s,
                 Throw e)).
    { unfold issuePerformanceInfoRequest. rewrite G. reflexivity. }
    split; [exact G|]. split; [exact R|]. rewrite R. cbn [fst]. split; [reflexivity|].
    rewrite replies_log. cbn. apply app_nil_r. }
  split; [|split; [|split]].
  - intros e remoteData H1 H2. apply G. unfold getPerformanceInfo.
    fold options. rewrite H1, H2. reflexivity.
  - intros e info H1 H2. apply G. unfold getPerformanceInfo.
    fold options. rewrite H1, H2. reflexivity.
  - intros e info remoteData H1 H2 H3. apply G. unfold getPerformanceInfo.
    fold options. rewrite H1, H2. cbn. rewrite H3. reflexivity.
  - intros e1 e2 H1 H2.
    destruct (remoteRejectsFirst c) eqn:E; [right | left]; apply G;
      unfold getPerformanceInfo; fold options; rewrite H1, H2, E; reflexivity.
Qed.

Lemma performanceInfo_failure_logged_then_rethrown_witness :
  issuePerformanceInfoRequest performanceDown liveSender (initial someEnv) =
    (log (LogWarn (String.append "issueService#getPerformanceInfo " "no data"))
       (initial someEnv),
     Throw "no data").
Proof.
  destruct (performanceInfo_failure_logged_then_rethrown performanceDown liveSender
              (initial someEnv)) as (_ & _ & H & _).
  apply (H "no data" someInfo []); reflexivity.
Defined.



End HandlerFacts.

(** ** Sessions *)

Module SessionFacts.
Import Placement Service Examples.

Ltac fields :=
  cbn [issueReporterWindow issueReporterParentWindow processExplorerWindow
       processExplorerParentWindow _browserWindow _browserParentWindow parents auxs
       stores promises ipcListeners timers focusedWindow env trace
       set_issueReporterWindow set_issueReporterParentWindow set_processExplorerWindow
       set_processExplorerParentWindow set_browserWindow set_browserParentWindow
       set_parents set_auxs set_stores set_promises set_ipcListeners set_timers
       set_focusedWindow set_trace log updAux updParent focus fst snd] in *.

Lemma settle_pending (p : PromiseId) (o : PromiseState) (s : State) :
  promises s !! p = Some Pending ->
  settle p o s = log (Settle p o) (set_promises (<[p := o]> (promises s)) s).
Proof. intros H. unfold settle. rewrite H. reflexivity. Qed.

Lemma settle_settled (p : PromiseId) (o : PromiseState) (s : State) :
  promises s !! p <> Some Pending -> settle p o s = s.
Proof.
  intros H. unfold settle.
  destruct (promises s !! p) as [[| |]|]; congruence.
Qed.

Lemma lookup_snoc {A : Type} (l : list A) (a : A) : (l ++ [a]) !! length l = Some a.
Proof. rewrite lookup_app_r by lia. rewrite Nat.sub_diag. reflexivity. Qed.

Lemma insert_snoc {A : Type} (l : list A) (a b : A) :
  <[length l := b]> (l ++ [a]) = l ++ [b].
Proof.
  rewrite insert_app_r_alt by lia. rewrite Nat.sub_diag. reflexivity.
Qed.

Lemma openBrowserWindow_live args s w aw :
  _browserWindow s = Some w ->
  auxs s !! w = Some aw ->
  aw_destroyed aw = false ->
  openBrowserWindow args s =
    (length (promises s),
     reject (length (promises s)) None
       (focus w (if aw_minimized aw
                 then restore w (set_promises (promises s ++ [Pending]) s)
                 else set_promises (promises s ++ [Pending]) s))).
Proof.
  intros Hw Haw Hd. unfold openBrowserWindow, newPromise, isDestroyed, isMinimized.
  cbn [_browserWindow auxs set_promises]. rewrite Hw, Haw, Hd. cbv beta iota. rewrite Haw. reflexivity.
Qed.

(** Liveness is read off the role and the destroyed flag only. *)
Lemma liveWindows_ext role s s' :
  length (auxs s') = length (auxs s) ->
  (forall w, isLive role s' w = isLive role s w) ->
  liveWindows role s' = liveWindows role s.
Proof.
  intros Hl He. unfold liveWindows. rewrite Hl.
  apply List.filter_ext. exact He.
Qed.

Lemma isLive_alter_minimized role w b s v :
  isLive role (updAux w (set_aw_minimized b) s) v = isLive role s v.
Proof.
  unfold isLive, updAux. cbn [auxs set_auxs].
  destruct (decide (w = v)) as [->|Hne].
  - rewrite list_lookup_alter_eq. destruct (auxs s !! v); reflexivity.
  - rewrite list_lookup_alter_ne by assumption. reflexivity.
Qed.

Lemma liveWindows_alter_minimized role w b s :
  liveWindows role (updAux w (set_aw_minimized b) s) = liveWindows role s.
Proof.
  apply liveWindows_ext.
  - apply length_alter.
  - intros v. apply isLive_alter_minimized.
Qed.

(** C7: a bridge request made while a bridge window exists and is not
    destroyed creates no window; the existing window is restored if it is
    minimized, then focused, and then the promise of the new request is
    rejected, all within the call. *)
Theorem openBrowserWindow_second_request_rejected :
  forall args s w aw,
    _browserWindow s = Some w ->
    auxs s !! w = Some aw ->
    aw_destroyed aw = false ->
    let p := fst (openBrowserWindow args s) in
    let s' := snd (openBrowserWindow args s) in
    p = length (promises s) /\
    promises s' = promises s ++ [Rejected None] /\
    trace s' =
      trace s ++ (if aw_minimized aw then [Restore w] else [])
              ++ [Focus w; Settle p (Rejected None)] /\
    length (auxs s') = length (auxs s) /\
    liveWindows GenericBridge s' = liveWindows GenericBridge s /\
    _browserWindow s' = Some w /\
    isMinimized w s' = false.
Proof.
  intros args s w aw Hw Haw Hd p s'. subst p s'.
  rewrite (openBrowserWindow_live args s w aw Hw Haw Hd). cbn [fst snd].
  unfold reject. rewrite settle_pending.
  2:{ destruct (aw_minimized aw); cbn; apply lookup_snoc. }
  destruct (aw_minimized aw) eqn:Hm; unfold restore, isMinimized; fields;
    rewrite insert_snoc.
  - split; [reflexivity|]. split; [reflexivity|]. split; [rewrite <- !app_assoc; reflexivity|].
    split; [apply length_alter|]. split; [apply (liveWindows_alter_minimized GenericBridge w false s)|].
    split; [assumption|]. rewrite list_lookup_alter_eq, Haw. reflexivity.
  - split; [reflexivity|]. split; [reflexivity|]. split; [rewrite <- !app_assoc; reflexivity|].
    split; [reflexivity|]. split; [reflexivity|].
    split; [assumption|]. rewrite Haw. exact Hm.
Qed.

Lemma openBrowserWindow_second_request_rejected_witness :
  promises (snd (openBrowserWindow (Some [loginConfig]) bridgeOpen)) =
    [Pending; Rejected None] /\
  length (auxs (snd (openBrowserWindow (Some [loginConfig]) bridgeOpen))) = 1%nat.
Proof.
  edestruct (openBrowserWindow_second_request_rejected (Some [loginConfig]) bridgeOpen 0%nat)
    as (_ & H2 & _ & H4 & _).
  - reflexivity.
  - reflexivity.
  - reflexivity.
  - split; [exact H2 | exact H4].
Defined.

(** *** Messages on the channels of a bridge session *)

Lemma registerEventPairs_app w winId p pre post s :
  registerEventPairs w winId p (pre ++ post) s =
  registerEventPairs w winId p post (registerEventPairs w winId p pre s).
Proof. unfold registerEventPairs. apply foldl_app. Qed.

(** Registering pairs touches the [ipcMain] listeners, the listeners of the
    window and the trace only. *)
Lemma registerEventPairs_frame w winId p pairs s :
  promises (registerEventPairs w winId p pairs s) = promises s /\
  _browserParentWindow (registerEventPairs w winId p pairs s) = _browserParentWindow s /\
  _browserWindow (registerEventPairs w winId p pairs s) = _browserWindow s /\
  parents (registerEventPairs w winId p pairs s) = parents s.
Proof.
  revert s. induction pairs as [|ev pairs IH]; intros s; [repeat split|].
  cbn [registerEventPairs foldl].
  destruct (String.eqb (channel ev) "" || String.eqb (command ev) "").
  - apply IH.
  - destruct (IH (onAux w EClosed false (BrowserClosedChannel (channel ev) p)
                    (ipcOn (channel ev) (BridgeChannel winId (command ev) p)
                       (removeAllListeners (channel ev) s)))) as (H1 & H2 & H3 & H4).
    unfold registerEventPairs in *. rewrite H1, H2, H3, H4. repeat split.
Qed.

Lemma filter_onChannel_removed ch (ls : list (string * IpcListener)) :
  List.filter (onChannel ch) (List.filter (fun cl => negb (String.eqb (fst cl) ch)) ls) = [].
Proof.
  induction ls as [|[c l] ls IH]; [reflexivity|].
  cbn [List.filter fst]. destruct (String.eqb c ch) eqn:E; cbn [negb]; [exact IH|].
  cbn [List.filter]. unfold onChannel at 1. cbn [fst]. rewrite E. exact IH.
Qed.

Lemma filter_onChannel_other ch ch' (ls : list (string * IpcListener)) :
  String.eqb ch' ch = false ->
  List.filter (onChannel ch) (List.filter (fun cl => negb (String.eqb (fst cl) ch')) ls) =
  List.filter (onChannel ch) ls.
Proof.
  intros Hne. induction ls as [|[c l] ls IH]; [reflexivity|].
  cbn [List.filter fst]. destruct (String.eqb c ch') eqn:E; cbn [negb].
  - apply String.eqb_eq in E. subst c. unfold onChannel at 2. cbn [fst].
    rewrite Hne. exact IH.
  - cbn [List.filter]. destruct (onChannel ch (c, l)); [f_equal|]; exact IH.
Qed.

(** After a usable pair on [ch] is registered, its listener is the only one
    on [ch]. *)
Lemma register_pair_listeners w winId p ch cmd s :
  List.filter (onChannel ch)
    (ipcListeners
       (onAux w EClosed false (BrowserClosedChannel ch p)
          (ipcOn ch (BridgeChannel winId cmd p) (removeAllListeners ch s)))) =
  [(ch, BridgeChannel winId cmd p)].
Proof.
  unfold onAux, ipcOn, removeAllListeners. fields.
  rewrite List.filter_app, filter_onChannel_removed.
  cbn [List.filter]. unfold onChannel. cbn [fst].
  rewrite String.eqb_refl. reflexivity.
Qed.

(** Pairs that are unusable, or on another channel, leave the listeners on
    [ch] as they are. *)
Lemma register_other_pairs w winId p ch post s :
  Forall (fun ev => channel ev = ch -> command ev = "") post ->
  List.filter (onChannel ch) (ipcListeners (registerEventPairs w winId p post s)) =
  List.filter (onChannel ch) (ipcListeners s).
Proof.
  intros Hpost. revert s.
  induction Hpost as [|ev post Hev _ IH]; intros s; [reflexivity|].
  cbn [registerEventPairs foldl].
  destruct (String.eqb (channel ev) "") eqn:E1; cbn [orb]; [apply IH|].
  destruct (String.eqb (command ev) "") eqn:E2; [apply IH|].
  unfold registerEventPairs in IH. rewrite IH.
  assert (Hne : String.eqb (channel ev) ch = false).
  { apply String.eqb_neq. intros Heq. apply Hev in Heq.
    apply String.eqb_neq in E2. contradiction. }
  unfold onAux, ipcOn, removeAllListeners. fields.
  rewrite List.filter_app, filter_onChannel_other by assumption.
  cbn [List.filter]. unfold onChannel at 2. cbn [fst]. rewrite Hne. apply app_nil_r.
Qed.

(** The listeners on [ch] once all pairs are registered: the listener of the
    last usable pair on [ch]. *)
Lemma registerEventPairs_listeners w winId p pre post ch cmd s :
  ch <> "" -> cmd <> "" ->
  Forall (fun ev => channel ev = ch -> command ev = "") post ->
  List.filter (onChannel ch)
    (ipcListeners (registerEventPairs w winId p (pre ++ mkEventPair ch cmd :: post) s)) =
  [(ch, BridgeChannel winId cmd p)].
Proof.
  intros Hch Hcmd Hpost.
  rewrite registerEventPairs_app.
  change (registerEventPairs w winId p (mkEventPair ch cmd :: post) ?t)
    with (registerEventPairs w winId p post
            (registerEventPairs w winId p [mkEventPair ch cmd] t)).
  rewrite register_other_pairs by assumption.
  cbn [registerEventPairs foldl channel command].
  apply String.eqb_neq in Hch. apply String.eqb_neq in Hcmd.
  rewrite Hch, Hcmd. cbn [orb]. apply register_pair_listeners.
Qed.

(** The placement depends on the desktop and on the parent windows only. *)
Lemma windowPosition_frame P dw dh s s' :
  env s' = env s -> parents s' = parents s ->
  windowPosition P dw dh s' = windowPosition P dw dh s.
Proof.
  intros He Hp. unfold windowPosition, parentBounds. rewrite He, Hp. reflexivity.
Qed.

(** What a first bridge request does: a promise, a window, its listeners,
    and the focus. *)
Lemma openBrowserWindow_creates cfg rest s P position data :
  _browserWindow s = None ->
  focusedWindow s = Some P ->
  windowPosition P 700 800 s = Some position ->
  cfg_data cfg = Some data ->
  let p := length (promises s) in
  let w := length (auxs s) in
  let s1 := set_browserParentWindow (Some P) (set_promises (promises s ++ [Pending]) s) in
  let s2 :=
    snd (newBrowserWindow GenericBridge
           (bridgeOptions (isWin32 (env s)) cfg data position P) s1) in
  openBrowserWindow (Some (cfg :: rest)) s =
    (p, focus w (installBridgeListeners w P p cfg data
                   (startBridgeWindow w cfg (set_browserWindow (Some w) s2)))).
Proof.
  intros Hslot Hfocus Hpos Hdata p w s1 s2.
  unfold openBrowserWindow, newPromise.
  cbn [_browserWindow set_promises]. rewrite Hslot.
  unfold createBridgeWindow.
  cbn [focusedWindow set_promises _browserParentWindow set_browserParentWindow].
  rewrite Hfocus.
  rewrite (windowPosition_frame P 700 800 s) by reflexivity.
  rewrite Hpos, Hdata.
  unfold newBrowserWindow.
  cbn [auxs set_browserParentWindow set_promises env].
  set (created := installBridgeListeners _ _ _ _ _ _).
  assert (Hb : _browserWindow created = Some w).
  { subst created. unfold installBridgeListeners, startBridgeWindow.
    destruct (events cfg); [reflexivity|].
    destruct (registerEventPairs_frame w (winId cfg) p (e :: l)
                (onAux w EDidFinishLoad false (BrowserDidFinishLoad data)
                   (onAux w EReadyToShow true (BrowserReadyToShow (winId cfg) p)
                      (log (LoadURL w (loadURL cfg))
                         (log (LogTrace "issueService#openBrowserWindow: opening BrowserWindow")
                            (log (OpenDevTools w)
                               (log (SetMenuBarVisibility w false)
                                  (set_browserWindow (Some w) s2)))))))) as (_ & _ & H3 & _).
    unfold onParent. fields. exact H3. }
  cbv beta iota zeta. rewrite Hb. reflexivity.
Qed.

Lemma installBridgeListeners_frame w P p cfg data s :
  promises (installBridgeListeners w P p cfg data s) = promises s /\
  _browserParentWindow (installBridgeListeners w P p cfg data s) = _browserParentWindow s /\
  _browserWindow (installBridgeListeners w P p cfg data s) = _browserWindow s.
Proof.
  unfold installBridgeListeners, onParent. fields.
  destruct (events cfg) as [|ev pairs]; [repeat split|].
  destruct (registerEventPairs_frame w (winId cfg) p (ev :: pairs)
              (onAux w EDidFinishLoad false (BrowserDidFinishLoad data)
                 (onAux w EReadyToShow true (BrowserReadyToShow (winId cfg) p) s)))
    as (H1 & H2 & H3 & _).
  rewrite H1, H2, H3. repeat split.
Qed.

Lemma installBridgeListeners_listeners w P p cfg data pre post ch cmd s :
  events cfg = pre ++ mkEventPair ch cmd :: post ->
  ch <> "" -> cmd <> "" ->
  Forall (fun ev => channel ev = ch -> command ev = "") post ->
  List.filter (onChannel ch) (ipcListeners (installBridgeListeners w P p cfg data s)) =
  [(ch, BridgeChannel (winId cfg) cmd p)].
Proof.
  intros Hev Hch Hcmd Hpost. unfold installBridgeListeners, onParent. fields.
  destruct (events cfg) as [|ev pairs] eqn:E.
  - destruct pre; discriminate.
  - rewrite Hev. apply registerEventPairs_listeners; assumption.
Qed.

(** C6, amended: whether a message on a configured channel ends a bridge
    session is decided by the [winId] of the request, not by the command of
    the pair.  In a session requested with [winId] 'certificate', a message
    on the channel of any usable pair settles the pending promise with the
    message's arguments and nothing is sent to the parent; with any other
    [winId], the message is forwarded to the parent as ['vscode:runAction']
    carrying the pair's command, and the promise stays pending. *)
Theorem bridge_message_decided_by_winId :
  forall s cfg rest P position data pre post ch cmd args,
    _browserWindow s = None ->
    focusedWindow s = Some P ->
    windowPosition P 700 800 s = Some position ->
    cfg_data cfg = Some data ->
    events cfg = pre ++ mkEventPair ch cmd :: post ->
    ch <> "" -> cmd <> "" ->
    Forall (fun ev => channel ev = ch -> command ev = "") post ->
    let p := fst (openBrowserWindow (Some (cfg :: rest)) s) in
    let s1 := snd (openBrowserWindow (Some (cfg :: rest)) s) in
    let s2 := emitIpc ch args s1 in
    promises s1 !! p = Some Pending /\
    (winId cfg = "certificate" ->
       promises s2 !! p = Some (Fulfilled (Some args)) /\
       trace s2 = trace s1 ++ [Settle p (Fulfilled (Some args))]) /\
    (winId cfg <> "certificate" ->
       promises s2 !! p = Some Pending /\
       trace s2 =
         trace s1 ++ [SendRunAction P (mkRunAction cmd "mouse" (ArgsArray [args]))]).
Proof.
  intros s cfg rest P position data pre post ch cmd args
    Hslot Hfocus Hpos Hdata Hev Hch Hcmd Hpost p s1 s2.
  subst s2 s1 p.
  rewrite (openBrowserWindow_creates cfg rest s P position data) by assumption.
  cbn [fst snd].
  set (w := length (auxs s)). set (p := length (promises s)).
  set (base := startBridgeWindow w cfg _).
  destruct (installBridgeListeners_frame w P p cfg data base) as (Fp & Fparent & _).
  assert (Hp : promises (focus w (installBridgeListeners w P p cfg data base)) !! p
               = Some Pending).
  { unfold focus. fields. rewrite Fp. subst base. unfold startBridgeWindow, newBrowserWindow.
    fields. apply lookup_snoc. }
  assert (Hparent :
            _browserParentWindow (focus w (installBridgeListeners w P p cfg data base)) = Some P).
  { unfold focus. fields. rewrite Fparent. reflexivity. }
  split; [exact Hp|].
  unfold emitIpc.
  replace (ipcListeners (focus w (installBridgeListeners w P p cfg data base)))
    with (ipcListeners (installBridgeListeners w P p cfg data base)) by reflexivity.
  rewrite (installBridgeListeners_listeners w P p cfg data pre post ch cmd base)
    by assumption.
  cbn [foldl snd runIpcListener].
  split.
  - intros Hid. rewrite Hid. cbn [String.eqb Ascii.eqb Bool.eqb].
    unfold resolve. rewrite settle_pending by exact Hp.
    split; [|reflexivity].
    cbn [promises log set_trace set_promises].
    apply list_lookup_insert_eq. apply lookup_lt_Some in Hp. exact Hp.
  - intros Hid. apply String.eqb_neq in Hid. rewrite Hid, Hparent.
    split; [exact Hp | reflexivity].
Qed.

Lemma bridge_message_decided_by_winId_witness :
  promises (emitIpc "cert-ready" "payload"
              (snd (openBrowserWindow (Some [certificateConfig]) workbenchFocused))) !! 0%nat =
    Some (Fulfilled (Some "payload")).
Proof.
  pose proof
    (fun position data =>
       bridge_message_decided_by_winId workbenchFocused certificateConfig [] 0%nat
         position data [] [mkEventPair "progress" "updateProgress"]
         "cert-ready" "certificate" "payload") as G.
  edestruct G as (_ & H & _).
  - reflexivity.
  - reflexivity.
  - vm_compute. reflexivity.
  - reflexivity.
  - reflexivity.
  - discriminate.
  - discriminate.
  - constructor; [cbn; discriminate | constructor].
  - apply H. reflexivity.
Defined.

(** C6, refuted as stated: a session configured with the pair
    ('cert-ready', 'certificate') but requested with [winId] 'login' forwards
    the message to its parent and leaves the promise pending; and a session
    requested with [winId] 'certificate' settles its promise on its other
    channel, 'progress', instead of forwarding that message. *)
Lemma certificate_pair_does_not_decide :
  events loginConfig = [mkEventPair "cert-ready" "certificate"] /\
  promises (emitIpc "cert-ready" "payload" bridgeOpen) = [Pending] /\
  trace (emitIpc "cert-ready" "payload" bridgeOpen) =
    trace bridgeOpen ++
      [SendRunAction 0 (mkRunAction "certificate" "mouse" (ArgsArray ["payload"]))] /\
  In (mkEventPair "progress" "updateProgress") (events certificateConfig) /\
  promises (emitIpc "progress" "50%" certificateOpen) = [Fulfilled (Some "50%")] /\
  trace (emitIpc "progress" "50%" certificateOpen) =
    trace certificateOpen ++ [Settle 0 (Fulfilled (Some "50%"))].
Proof.
  split; [reflexivity|]. split; [vm_compute; reflexivity|].
  split; [vm_compute; reflexivity|].
  split; [right; left; reflexivity|]. split; vm_compute; reflexivity.
Qed.

End SessionFacts.

(** ** The invariant *)

Module InvariantFacts.
Import Placement Service Invariant Examples SessionFacts.

Lemma sameCore_refl s : sameCore s s.
Proof. constructor; reflexivity. Qed.

Lemma sameCore_trans s1 s2 s3 : sameCore s1 s2 -> sameCore s2 s3 -> sameCore s1 s3.
Proof.
  intros [] []. constructor; intros; congruence.
Qed.

Lemma liveSession_sameCore k w d P s s' :
  sameCore s s' -> liveSession k w d P s -> liveSession k w d P s'.
Proof.
  intros C (H1 & H2 & H3 & H4 & ls & H5 & H6). destruct C.
  unfold liveSession.
  repeat split.
  - destruct k; cbn in *; congruence.
  - congruence.
  - congruence.
  - destruct k; cbn in *; congruence.
  - exists ls. split; [congruence | exact H6].
Qed.

Lemma Inv_sameCore s s' : sameCore s s' -> Inv s -> Inv s'.
Proof.
  intros C I. pose proof C as C'. destruct C, I. constructor.
  - intros k w Hk.
    assert (Hk' : slotOf k s = Some w) by (destruct k; cbn in *; congruence).
    destruct (inv_sessions0 k w Hk') as (d & P & L).
    exists d, P. eapply liveSession_sameCore; eassumption.
  - intros b Hb. rewrite same_browser0 in Hb.
    destruct (inv_bridge0 b Hb) as (ls & H1 & H2). exists ls. split; [congruence|exact H2].
  - intros w ls Hw. rewrite same_aux0 in Hw.
    eapply Forall_impl; [apply (inv_aux0 w ls Hw)|].
    intros r. unfold auxRegOk, ownerOf. rewrite same_stores0. auto.
  - intros P ls HP. rewrite same_parents0 in HP.
    eapply Forall_impl; [apply (inv_parents0 P ls HP)|].
    intros r. unfold parentRegOk, ownerOf. rewrite same_stores0. auto.
  - intros P HP. rewrite same_focus0 in HP. rewrite same_parents_length0. auto.
  - intros d. rewrite same_disposals0, same_stores0. apply inv_disposals0.
Qed.

Lemma disposals_log d a s :
  disposals d (log a s) = (disposals d s + (if isDisposeOf d a then 1 else 0))%nat.
Proof.
  unfold disposals, log. cbn [trace set_trace].
  rewrite List.filter_app, length_app. cbn [List.filter].
  destruct (isDisposeOf d a); reflexivity.
Qed.

(** Recording a call that is not the release of a channel. *)
Lemma sameCore_log a s :
  (forall d, isDisposeOf d a = false) -> sameCore s (log a s).
Proof.
  intros H. constructor; try reflexivity.
  intros d. rewrite disposals_log, H. lia.
Qed.

Lemma sameCore_set_promises v s : sameCore s (set_promises v s).
Proof. constructor; reflexivity. Qed.

Lemma sameCore_set_timers v s : sameCore s (set_timers v s).
Proof. constructor; reflexivity. Qed.

Lemma sameCore_set_ipcListeners v s : sameCore s (set_ipcListeners v s).
Proof. constructor; reflexivity. Qed.

Lemma sameCore_set_browserParentWindow v s : sameCore s (set_browserParentWindow v s).
Proof. constructor; reflexivity. Qed.

Lemma sameCore_settle p o s : sameCore s (settle p o s).
Proof.
  unfold settle. destruct (promises s !! p) as [[| |]|]; try apply sameCore_refl.
  eapply sameCore_trans; [apply sameCore_set_promises|].
  apply sameCore_log. reflexivity.
Qed.

Lemma sameCore_removeAllListeners ch s : sameCore s (removeAllListeners ch s).
Proof.
  unfold removeAllListeners.
  eapply sameCore_trans; [apply sameCore_set_ipcListeners|].
  apply sameCore_log. reflexivity.
Qed.

Lemma sameCore_ipcOn ch l s : sameCore s (ipcOn ch l s).
Proof.
  unfold ipcOn.
  eapply sameCore_trans; [apply sameCore_set_ipcListeners|].
  apply sameCore_log. reflexivity.
Qed.

(** Changing a flag of a window leaves its listeners alone. *)
Lemma auxListeners_updAux w f s v :
  (forall aw, aw_listeners (f aw) = aw_listeners aw) ->
  auxListeners (updAux w f s) v = auxListeners s v.
Proof.
  intros Hf. unfold auxListeners, updAux. cbn [auxs set_auxs].
  destruct (decide (w = v)) as [->|Hne].
  - rewrite list_lookup_alter_eq. destruct (auxs s !! v); cbn; [rewrite Hf|]; reflexivity.
  - rewrite list_lookup_alter_ne by assumption. reflexivity.
Qed.

Lemma sameCore_updAux_flag w f s :
  (forall aw, aw_listeners (f aw) = aw_listeners aw) ->
  sameCore s (updAux w f s).
Proof.
  intros Hf. constructor; try reflexivity.
  intros v. apply auxListeners_updAux. exact Hf.
Qed.

Lemma sameCore_restore w s : sameCore s (restore w s).
Proof.
  unfold restore.
  eapply sameCore_trans; [apply (sameCore_updAux_flag w (set_aw_minimized false)); reflexivity|].
  apply sameCore_log. reflexivity.
Qed.

Lemma sameCore_focus w s : sameCore s (focus w s).
Proof. apply sameCore_log. reflexivity. Qed.
Lemma roleOf_inj k k' : roleOf k = roleOf k' -> k = k'.
Proof. destruct k, k'; cbn; congruence. Qed.

(** A live session stays live when the state changes elsewhere. *)
Lemma liveSession_frame k w d P s s' :
  slotOf k s' = slotOf k s ->
  parentSlotOf k s' = parentSlotOf k s ->
  auxListeners s' w = auxListeners s w ->
  stores s' !! d = stores s !! d ->
  (forall ls, parentListeners s P = Some ls ->
     exists ls', parentListeners s' P = Some ls' /\ (forall r, In r ls -> In r ls')) ->
  liveSession k w d P s -> liveSession k w d P s'.
Proof.
  intros E1 E2 E3 E4 E5 (H1 & H2 & H3 & H4 & ls & H5 & H6).
  unfold liveSession. rewrite E1, E2, E3, E4.
  repeat split; try assumption.
  destruct (E5 ls H5) as (ls' & H7 & H8). exists ls'. split; [exact H7 | auto].
Qed.

Lemma liveSession_aux_bound k w d P s :
  liveSession k w d P s -> (w < length (auxs s))%nat.
Proof.
  intros (_ & H & _). unfold auxListeners in H.
  destruct (auxs s !! w) eqn:E; [|discriminate].
  apply lookup_lt_Some in E. exact E.
Qed.

Lemma liveSession_store_bound k w d P s :
  liveSession k w d P s -> (d < length (stores s))%nat.
Proof.
  intros (_ & _ & H & _). apply lookup_lt_Some in H. exact H.
Qed.

Lemma ownerOf_bound s d r : ownerOf s d = Some r -> (d < length (stores s))%nat.
Proof.
  unfold ownerOf. intros H. destruct (stores s !! d) eqn:E; [|discriminate].
  apply lookup_lt_Some in E. exact E.
Qed.

(** Listeners stay well-typed as long as stores keep their owners. *)
Lemma auxRegOk_mono s s' r :
  (forall x o, ownerOf s x = Some o -> ownerOf s' x = Some o) ->
  auxRegOk s r -> auxRegOk s' r.
Proof. intros H. unfold auxRegOk. destruct (reg_listener r); auto. Qed.

Lemma parentRegOk_mono s s' r :
  (forall x o, ownerOf s x = Some o -> ownerOf s' x = Some o) ->
  parentRegOk s r -> parentRegOk s' r.
Proof.
  intros H. unfold parentRegOk. destruct (reg_listener r); auto; intros []; auto.
Qed.

(** Clearing the slot of a role ends the obligations of its session. *)
Lemma Inv_clear_reporter s : Inv s -> Inv (set_issueReporterWindow None s).
Proof.
  intros []. constructor; try assumption.
  intros k w Hk. destruct k; [discriminate|].
  destruct (inv_sessions0 Explorer w Hk) as (d & P & L). exists d, P.
  revert L. apply liveSession_frame; try reflexivity. eauto.
Qed.

Lemma Inv_clear_explorer s : Inv s -> Inv (set_processExplorerWindow None s).
Proof.
  intros []. constructor; try assumption.
  intros k w Hk. destruct k; [|discriminate].
  destruct (inv_sessions0 Reporter w Hk) as (d & P & L). exists d, P.
  revert L. apply liveSession_frame; try reflexivity. eauto.
Qed.

Lemma Inv_clear_browser s : Inv s -> Inv (set_browserWindow None s).
Proof.
  intros []. constructor; try assumption.
  intros b Hb. discriminate.
Qed.

(** Disposing a store whose role has no session. *)
Lemma Inv_dispose k d s :
  Inv s -> ownerOf s d = Some (roleOf k) -> slotOf k s = None -> Inv (dispose d s).
Proof.
  intros I Ho Hs. unfold dispose. unfold ownerOf in Ho.
  destruct (stores s !! d) as [st|] eqn:Est; [|exact I].
  destruct (isDisposed_ st) eqn:Edis; [exact I|].
  cbn in Ho. injection Ho as Ho.
  assert (Hd : (d < length (stores s))%nat) by (apply lookup_lt_Some in Est; exact Est).
  assert (Hown : forall x, ownerOf (log (DisposeIPCObjectUrl d)
                   (set_stores (<[d:=mkStore (owner st) true]> (stores s)) s)) x = ownerOf s x).
  { intros x. unfold ownerOf. cbn [stores set_stores log set_trace].
    destruct (decide (d = x)) as [->|Hne].
    - rewrite list_lookup_insert_eq by assumption. rewrite Est. reflexivity.
    - rewrite list_lookup_insert_ne by assumption. reflexivity. }
  destruct I. constructor.
  - intros k' w Hk'.
    assert (Hk'' : slotOf k' s = Some w) by (destruct k'; exact Hk').
    destruct (inv_sessions0 k' w Hk'') as (d' & P & L). exists d', P.
    apply (liveSession_frame k' w d' P s); [destruct k'; reflexivity..| | |eauto|exact L].
    + reflexivity.
    + cbn [stores set_stores log set_trace]. apply list_lookup_insert_ne.
      intros ->. destruct L as (_ & _ & H3 & _). rewrite Est in H3. injection H3 as H3.
      rewrite H3 in Ho. cbn in Ho. apply roleOf_inj in Ho. subst k'. congruence.
  - exact inv_bridge0.
  - intros w ls Hw. eapply Forall_impl; [apply (inv_aux0 w ls Hw)|].
    intros r. apply auxRegOk_mono. intros x o. rewrite Hown. auto.
  - intros P ls HP. eapply Forall_impl; [apply (inv_parents0 P ls HP)|].
    intros r. apply parentRegOk_mono. intros x o. rewrite Hown. auto.
  - exact inv_focus0.
  - intros x. rewrite disposals_log.
    change (disposals x (set_stores ?v s)) with (disposals x s).
    cbn [stores set_stores log set_trace isDisposeOf].
    pose proof (inv_disposals0 x) as Hx.
    destruct (decide (d = x)) as [->|Hne].
    + rewrite list_lookup_insert_eq by assumption. cbn [isDisposed_].
      rewrite Est, Edis in Hx. rewrite Hx, Nat.eqb_refl. reflexivity.
    + rewrite list_lookup_insert_ne by assumption.
      apply Nat.eqb_neq in Hne. rewrite Hne, Hx. lia.
Qed.

(** Owners never change. *)
Lemma ownerOf_sameCore s s' x : sameCore s s' -> ownerOf s' x = ownerOf s x.
Proof. intros []. unfold ownerOf. rewrite same_stores0. reflexivity. Qed.

Lemma ownerOf_dispose d s x : ownerOf (dispose d s) x = ownerOf s x.
Proof.
  unfold dispose. destruct (stores s !! d) as [st|] eqn:Est; [|reflexivity].
  destruct (isDisposed_ st); [reflexivity|].
  unfold ownerOf. cbn [stores set_stores log set_trace].
  destruct (decide (d = x)) as [->|Hne].
  - rewrite list_lookup_insert_eq by (apply lookup_lt_Some in Est; exact Est).
    rewrite Est. reflexivity.
  - rewrite list_lookup_insert_ne by assumption. reflexivity.
Qed.

(** Peels the outermost operation off the state on the right. *)
Ltac same_core_step :=
  first
    [ apply sameCore_restore
    | apply sameCore_focus
    | apply sameCore_settle
    | apply sameCore_removeAllListeners
    | apply sameCore_ipcOn
    | apply sameCore_set_promises
    | apply sameCore_set_timers
    | apply sameCore_set_ipcListeners
    | apply sameCore_set_browserParentWindow
    | apply sameCore_log; reflexivity ].

Ltac same_core :=
  repeat first
    [ apply sameCore_refl
    | eapply sameCore_trans; [|same_core_step] ].

Lemma sameCore_runAux_bridge_show winId p s :
  sameCore s (runAuxListener (BrowserReadyToShow winId p) s).
Proof.
  cbn [runAuxListener]. destruct (_browserWindow s); same_core.
Qed.

Lemma ownerOf_runAuxListener l s x : ownerOf (runAuxListener l s) x = ownerOf s x.
Proof.
  destruct l; cbn [runAuxListener].
  - rewrite ownerOf_dispose. reflexivity.
  - rewrite ownerOf_dispose. reflexivity.
  - apply ownerOf_sameCore, sameCore_runAux_bridge_show.
  - destruct (_browserWindow s); reflexivity.
  - unfold reject. rewrite (ownerOf_sameCore _ _ x (sameCore_settle _ _ _)). reflexivity.
  - unfold reject. rewrite (ownerOf_sameCore _ _ x (sameCore_settle _ _ _)). reflexivity.
Qed.

Lemma Inv_runAuxListener s r :
  Inv s -> auxRegOk s r -> Inv (runAuxListener (reg_listener r) s).
Proof.
  intros I Hr. unfold auxRegOk in Hr.
  destruct (reg_listener r); cbn [runAuxListener].
  - apply (Inv_dispose Reporter); [apply Inv_clear_reporter, I | exact Hr | reflexivity].
  - apply (Inv_dispose Explorer); [apply Inv_clear_explorer, I | exact Hr | reflexivity].
  - eapply Inv_sameCore; [apply sameCore_runAux_bridge_show | exact I].
  - destruct (_browserWindow s); [|exact I].
    eapply Inv_sameCore; [apply sameCore_log; reflexivity | exact I].
  - unfold reject. eapply Inv_sameCore; [apply sameCore_settle|].
    apply Inv_clear_browser.
    eapply Inv_sameCore; [apply sameCore_removeAllListeners | exact I].
  - unfold reject. eapply Inv_sameCore; [apply sameCore_settle|].
    apply Inv_clear_browser, I.
Qed.

Lemma Inv_fold_aux regs s :
  Inv s -> Forall (auxRegOk s) regs ->
  Inv (foldl (fun s r => runAuxListener (reg_listener r) s) s regs) /\
  forall x, ownerOf (foldl (fun s r => runAuxListener (reg_listener r) s) s regs) x = ownerOf s x.
Proof.
  revert s. induction regs as [|r regs IH]; intros s I Hregs; [split; [exact I|reflexivity]|].
  cbn [foldl]. inversion Hregs as [|? ? Hr Hrest]; subst.
  destruct (IH (runAuxListener (reg_listener r) s)) as (I' & O').
  - apply Inv_runAuxListener; assumption.
  - eapply Forall_impl; [exact Hrest|]. intros r'. apply auxRegOk_mono.
    intros x o. rewrite ownerOf_runAuxListener. auto.
  - split; [exact I'|]. intros x. rewrite O'. apply ownerOf_runAuxListener.
Qed.

(** Dropping [once] listeners from a window. *)
Lemma Inv_filter_listeners (f : Registration AuxListener -> bool) w aw s :
  Inv s -> auxs s !! w = Some aw ->
  (forall r, reg_once r = false -> f r = true) ->
  Inv (updAux w (set_aw_listeners (List.filter f (aw_listeners aw))) s).
Proof.
  intros I Haw Hf.
  assert (Hl : forall v,
             auxListeners (updAux w (set_aw_listeners (List.filter f (aw_listeners aw))) s) v =
             if decide (w = v) then Some (List.filter f (aw_listeners aw))
             else auxListeners s v).
  { intros v. unfold auxListeners, updAux. cbn [auxs set_auxs].
    destruct (decide (w = v)) as [->|Hne].
    - rewrite list_lookup_alter_eq, Haw. reflexivity.
    - rewrite list_lookup_alter_ne by assumption. reflexivity. }
  assert (Hw : auxListeners s w = Some (aw_listeners aw)).
  { unfold auxListeners. rewrite Haw. reflexivity. }
  destruct I. constructor; try assumption.
  - intros k v Hk.
    assert (Hk' : slotOf k s = Some v) by (destruct k; exact Hk).
    destruct (inv_sessions0 k v Hk') as (d & P & L). exists d, P.
    apply (liveSession_frame k v d P s); [destruct k; reflexivity..| |reflexivity|eauto|exact L].
    rewrite Hl. destruct (decide (w = v)) as [->|]; [|reflexivity].
    destruct L as (_ & L2 & _). rewrite L2. rewrite L2 in Hw. injection Hw as Hw.
    rewrite <- Hw. cbn [List.filter]. rewrite Hf by reflexivity. reflexivity.
  - intros b Hb. destruct (inv_bridge0 b Hb) as (ls & H1 & H2).
    rewrite Hl. destruct (decide (w = b)) as [->|]; [|eauto].
    rewrite Hw in H1. injection H1 as <-.
    eexists. split; [reflexivity|].
    apply List.Forall_forall. intros r Hr. apply List.filter_In in Hr.
    rewrite List.Forall_forall in H2. apply H2, Hr.
  - intros v ls. rewrite Hl. destruct (decide (w = v)) as [->|]; [|apply inv_aux0].
    intros [= <-]. pose proof (inv_aux0 v _ Hw) as Hok.
    apply List.Forall_forall. intros r Hr. apply List.filter_In in Hr.
    rewrite List.Forall_forall in Hok. apply Hok, Hr.
Qed.

Lemma Inv_emitAux e w s :
  Inv s ->
  Inv (emitAux e w s) /\ forall x, ownerOf (emitAux e w s) x = ownerOf s x.
Proof.
  intros I. unfold emitAux.
  destruct (auxs s !! w) as [aw|] eqn:Haw; [|split; [exact I|reflexivity]].
  set (kept := List.filter _ (aw_listeners aw)).
  assert (I' : Inv (updAux w (set_aw_listeners kept) s)).
  { apply Inv_filter_listeners; [exact I | exact Haw|].
    intros r Hr. rewrite Hr, andb_false_r. reflexivity. }
  assert (Hl : auxListeners s w = Some (aw_listeners aw)).
  { unfold auxListeners. rewrite Haw. reflexivity. }
  destruct (Inv_fold_aux (List.filter (listensTo e) (aw_listeners aw))
              (updAux w (set_aw_listeners kept) s) I') as (I'' & O).
  - apply List.Forall_forall. intros r Hr. apply List.filter_In in Hr.
    pose proof (inv_aux s I w _ Hl) as Hok. rewrite List.Forall_forall in Hok.
    apply (auxRegOk_mono s); [auto | apply Hok, Hr].
  - split; [exact I'' | exact O].
Qed.

Lemma Inv_close w s :
  Inv s -> Inv (close w s) /\ forall x, ownerOf (close w s) x = ownerOf s x.
Proof.
  intros I. unfold close.
  apply (Inv_emitAux EClose w (log (Close w) s)).
  eapply Inv_sameCore; [apply sameCore_log; reflexivity | exact I].
Qed.

Lemma Inv_destroy w s : Inv s -> Inv (destroy w s).
Proof.
  intros I. unfold destroy. apply Inv_emitAux.
  eapply Inv_sameCore; [|exact I].
  eapply sameCore_trans; [|apply sameCore_updAux_flag; reflexivity].
  apply sameCore_log; reflexivity.
Qed.

Lemma Inv_auxEmits w e s : Inv s -> Inv (auxEmits w e s).
Proof.
  intros I. unfold auxEmits. destruct e; try (apply Inv_emitAux; exact I).
  apply Inv_emitAux. eapply Inv_sameCore; [|exact I].
  apply sameCore_updAux_flag. reflexivity.
Qed.

Lemma Inv_runParentListener s r :
  Inv s -> parentRegOk s r ->
  Inv (runParentListener (reg_listener r) s) /\
  forall x, ownerOf (runParentListener (reg_listener r) s) x = ownerOf s x.
Proof.
  intros I Hr. unfold parentRegOk in Hr.
  destruct (reg_listener r) as [n|n|n]; cbn [runParentListener].
  - destruct (issueReporterWindow s) as [w|]; [|split; [exact I|reflexivity]].
    destruct (Inv_close w s I) as (Ic & Oc). destruct Hr as (_ & Hr). split.
    + apply (Inv_dispose Reporter); [apply Inv_clear_reporter, Ic | | reflexivity].
      change (ownerOf (close w s) n = Some IssueReporter). rewrite Oc. exact Hr.
    + intros x. rewrite ownerOf_dispose. apply Oc.
  - destruct (processExplorerWindow s) as [w|]; [|split; [exact I|reflexivity]].
    destruct (Inv_close w s I) as (Ic & Oc). destruct Hr as (_ & Hr). split.
    + apply (Inv_dispose Explorer); [apply Inv_clear_explorer, Ic | | reflexivity].
      change (ownerOf (close w s) n = Some ProcessExplorer). rewrite Oc. exact Hr.
    + intros x. rewrite ownerOf_dispose. apply Oc.
  - destruct (_browserWindow s) as [w|]; [|split; [exact I|reflexivity]].
    destruct (Inv_close w s I) as (Ic & Oc). unfold reject. split.
    + eapply Inv_sameCore; [apply sameCore_settle|]. apply Inv_clear_browser, Ic.
    + intros x. rewrite (ownerOf_sameCore _ _ x (sameCore_settle _ _ _)). apply Oc.
Qed.

Lemma Inv_fold_parent regs s :
  Inv s -> Forall (parentRegOk s) regs ->
  Inv (foldl (fun s r => runParentListener (reg_listener r) s) s regs).
Proof.
  revert s. induction regs as [|r regs IH]; intros s I Hregs; [exact I|].
  cbn [foldl]. inversion Hregs as [|? ? Hr Hrest]; subst.
  destruct (Inv_runParentListener s r I Hr) as (I' & O').
  apply IH; [exact I'|].
  eapply Forall_impl; [exact Hrest|]. intros r'. apply parentRegOk_mono.
  intros x o. rewrite O'. auto.
Qed.

Lemma Inv_emitParent e P s : Inv s -> Inv (emitParent e P s).
Proof.
  intros I. unfold emitParent.
  destruct (parents s !! P) as [pw|] eqn:HP; [|exact I].
  apply Inv_fold_parent; [exact I|].
  assert (Hl : parentListeners s P = Some (pw_listeners pw)).
  { unfold parentListeners. rewrite HP. reflexivity. }
  pose proof (inv_parents s I P _ Hl) as Hok.
  apply List.Forall_forall. intros r Hr. apply List.filter_In in Hr.
  rewrite List.Forall_forall in Hok. apply Hok, Hr.
Qed.

Lemma role_cases (j k : DiagnosticRole) : j = k \/ j <> k.
Proof. destruct j, k; auto; right; discriminate. Qed.

(** A new session: a fresh window [w] carrying the child listener, the
    parent listener appended to [P], everything else as before. *)
Lemma Inv_install k s s' w d P :
  Inv s ->
  slotOf k s = None ->
  slotOf k s' = Some w ->
  parentSlotOf k s' = Some P ->
  (forall j, j <> k -> slotOf j s' = slotOf j s /\ parentSlotOf j s' = parentSlotOf j s) ->
  _browserWindow s' = _browserWindow s ->
  auxListeners s w = None ->
  auxListeners s' w = Some [mkReg EClose false (childListener k d)] ->
  (forall v, v <> w -> auxListeners s' v = auxListeners s v) ->
  (exists ls, parentListeners s P = Some ls /\
              parentListeners s' P =
                Some (ls ++ [mkReg (parentEvent k) false (parentListener k d)])) ->
  (forall Q, Q <> P -> parentListeners s' Q = parentListeners s Q) ->
  length (parents s') = length (parents s) ->
  stores s' = stores s ->
  stores s !! d = Some (mkStore (roleOf k) false) ->
  focusedWindow s' = focusedWindow s ->
  (forall x, disposals x s' = disposals x s) ->
  Inv s'.
Proof.
  intros I Hnone Hslot Hparent Hother Hbrowser Hfresh Hw Haux (ls0 & HP0 & HP1) Hpar
    Hlen Hstores Hd Hfocus Hdisp.
  assert (Hown : forall x, ownerOf s' x = ownerOf s x).
  { intros x. unfold ownerOf. rewrite Hstores. reflexivity. }
  assert (Hgrow : forall Q ls, parentListeners s Q = Some ls ->
            exists ls', parentListeners s' Q = Some ls' /\ (forall r, In r ls -> In r ls')).
  { intros Q ls HQ. destruct (decide (Q = P)) as [->|Hne].
    - rewrite HP0 in HQ. injection HQ as <-. eexists. split; [exact HP1|].
      intros r Hr. apply List.in_or_app. left. exact Hr.
    - exists ls. rewrite Hpar by assumption. auto. }
  constructor.
  - intros j v Hj. destruct (role_cases j k) as [->|Hne].
    + rewrite Hslot in Hj. injection Hj as <-. exists d, P.
      unfold liveSession. rewrite Hstores.
      repeat split; try assumption.
      eexists. split; [exact HP1|]. apply List.in_or_app. right. left. reflexivity.
    + destruct (Hother j Hne) as (E1 & E2). rewrite E1 in Hj.
      destruct (inv_sessions s I j v Hj) as (d' & P' & L). exists d', P'.
      apply (liveSession_frame j v d' P' s); try assumption.
      * apply Haux. intros ->. destruct L as (_ & L2 & _). congruence.
      * rewrite Hstores. reflexivity.
      * apply Hgrow.
  - intros b Hb. rewrite Hbrowser in Hb.
    destruct (inv_bridge s I b Hb) as (ls & H1 & H2). exists ls. split; [|exact H2].
    rewrite Haux; [exact H1|]. intros ->. congruence.
  - intros v ls Hv. destruct (decide (v = w)) as [->|Hne].
    + rewrite Hw in Hv. injection Hv as <-. constructor; [|constructor].
      unfold auxRegOk, ownerOf. rewrite Hstores. cbn [reg_listener].
      destruct k; cbn [childListener]; rewrite Hd; reflexivity.
    + rewrite Haux in Hv by assumption.
      eapply Forall_impl; [apply (inv_aux s I v ls Hv)|].
      intros r. apply auxRegOk_mono. intros x o. rewrite Hown. auto.
  - intros Q ls HQ.
    assert (Hmono : forall r, parentRegOk s r -> parentRegOk s' r).
    { intros r. apply parentRegOk_mono. intros x o. rewrite Hown. auto. }
    destruct (decide (Q = P)) as [->|Hne].
    + rewrite HP1 in HQ. injection HQ as <-. apply Forall_app. split.
      * eapply Forall_impl; [apply (inv_parents s I P ls0 HP0)|]. exact Hmono.
      * constructor; [|constructor].
        unfold parentRegOk, ownerOf. rewrite Hstores. cbn [reg_listener reg_event].
        destruct k; cbn [parentListener parentEvent]; rewrite Hd; split; reflexivity.
    + rewrite Hpar in HQ by assumption.
      eapply Forall_impl; [apply (inv_parents s I Q ls HQ)|]. exact Hmono.
  - intros Q HQ. rewrite Hfocus in HQ. rewrite Hlen. apply (inv_focus s I Q HQ).
  - intros x. rewrite Hdisp, Hstores. apply (inv_disposals s I).
Qed.

Lemma Inv_newDisposableStore role s : Inv s -> Inv (snd (newDisposableStore role s)).
Proof.
  intros I. unfold newDisposableStore. cbn [snd].
  set (s' := log _ _).
  assert (Hst : forall x st, stores s !! x = Some st -> stores s' !! x = Some st).
  { intros x st Hx. subst s'. cbn [stores set_stores log set_trace].
    rewrite lookup_app_l by (apply lookup_lt_Some in Hx; exact Hx). exact Hx. }
  assert (Hown : forall x o, ownerOf s x = Some o -> ownerOf s' x = Some o).
  { intros x o. unfold ownerOf. destruct (stores s !! x) as [st|] eqn:E; [|discriminate].
    rewrite (Hst x st E). auto. }
  constructor.
  - intros k w Hk.
    assert (Hk' : slotOf k s = Some w) by (destruct k; exact Hk).
    destruct (inv_sessions s I k w Hk') as (d & P & L). exists d, P.
    apply (liveSession_frame k w d P s); [destruct k; reflexivity..|reflexivity| |eauto|exact L].
    destruct L as (_ & _ & L3 & _). rewrite L3. apply Hst. exact L3.
  - exact (inv_bridge s I).
  - intros w ls Hw. eapply Forall_impl; [apply (inv_aux s I w ls Hw)|].
    intros r. apply auxRegOk_mono. exact Hown.
  - intros P ls HP. eapply Forall_impl; [apply (inv_parents s I P ls HP)|].
    intros r. apply parentRegOk_mono. exact Hown.
  - exact (inv_focus s I).
  - intros x. subst s'. rewrite disposals_log. cbn [isDisposeOf].
    change (disposals x (set_stores ?v s)) with (disposals x s).
    cbn [stores set_stores log set_trace].
    pose proof (inv_disposals s I x) as Hx. rewrite Hx, Nat.add_0_r.
    destruct (stores s !! x) as [st|] eqn:E.
    + rewrite lookup_app_l by (apply lookup_lt_Some in E; exact E). rewrite E. reflexivity.
    + apply lookup_ge_None in E.
      destruct (decide (x = length (stores s))) as [->|Hne].
      * rewrite lookup_snoc. reflexivity.
      * rewrite lookup_ge_None_2; [reflexivity|]. rewrite length_app. cbn. lia.
Qed.

Lemma Inv_set_reporterParent v s :
  Inv s -> issueReporterWindow s = None -> Inv (set_issueReporterParentWindow v s).
Proof.
  intros I Hs. destruct I. constructor; try assumption.
  intros k w Hk. destruct k; [cbn in Hk; congruence|].
  destruct (inv_sessions0 Explorer w Hk) as (d & P & L). exists d, P.
  apply (liveSession_frame Explorer w d P s); try reflexivity; [eauto|exact L].
Qed.

Lemma Inv_set_explorerParent v s :
  Inv s -> processExplorerWindow s = None -> Inv (set_processExplorerParentWindow v s).
Proof.
  intros I Hs. destruct I. constructor; try assumption.
  intros k w Hk. destruct k; [|cbn in Hk; congruence].
  destruct (inv_sessions0 Reporter w Hk) as (d & P & L). exists d, P.
  apply (liveSession_frame Reporter w d P s); try reflexivity; [eauto|exact L].
Qed.

(** Views of the lists after an append and an update in place. *)
Lemma lookup_alter_snoc {A : Type} (f : A -> A) (l : list A) (a : A) :
  alter f (length l) (l ++ [a]) !! length l = Some (f a).
Proof. rewrite list_lookup_alter_eq, lookup_snoc. reflexivity. Qed.

Lemma lookup_alter_snoc_ne {A : Type} (f : A -> A) (l : list A) (a : A) (v : nat) :
  v <> length l -> alter f (length l) (l ++ [a]) !! v = l !! v.
Proof.
  intros Hne. rewrite list_lookup_alter_ne by auto.
  destruct (decide (v < length l)%nat) as [Hlt|Hge].
  - apply lookup_app_l. exact Hlt.
  - rewrite !lookup_ge_None_2; [reflexivity| lia |rewrite length_app; cbn; lia].
Qed.

Ltac views :=
  unfold auxListeners, parentListeners, disposals;
  cbn [issueReporterWindow issueReporterParentWindow processExplorerWindow
       processExplorerParentWindow _browserWindow _browserParentWindow parents auxs
       stores promises ipcListeners timers focusedWindow env trace
       set_issueReporterWindow set_issueReporterParentWindow set_processExplorerWindow
       set_processExplorerParentWindow set_browserWindow set_browserParentWindow
       set_parents set_auxs set_stores set_promises set_ipcListeners set_timers
       set_focusedWindow set_trace log updAux updParent onAux onParent focus
       slotOf parentSlotOf].

Lemma filter_dispose_snoc d (t : list Action) (a : Action) :
  isDisposeOf d a = false ->
  List.filter (isDisposeOf d) (t ++ [a]) = List.filter (isDisposeOf d) t.
Proof.
  intros H. rewrite List.filter_app. cbn [List.filter]. rewrite H. apply app_nil_r.
Qed.

Lemma Inv_openReporter data s : Inv s -> Inv (fst (openReporter data s)).
Proof.
  intros I. unfold openReporter.
  destruct (issueReporterWindow s) as [w|] eqn:Hs.
  { rewrite Hs. cbn [fst]. eapply Inv_sameCore; [apply sameCore_focus|exact I]. }
  cbn [issueReporterParentWindow set_issueReporterParentWindow].
  pose proof (Inv_set_reporterParent (focusedWindow s) s I Hs) as I1.
  destruct (focusedWindow s) as [P|] eqn:HF.
  2:{ cbn [issueReporterWindow set_issueReporterParentWindow]. rewrite Hs. exact I1. }
  pose proof (Inv_newDisposableStore IssueReporter _ I1) as I2.
  unfold newDisposableStore in *. cbn [snd] in I2.
  set (s2 := log _ _) in *.
  destruct (windowPosition P 700 800 s2) as [position|]; [|exact I2].
  unfold createBrowserWindow, newBrowserWindow.
  set (opts := mkOptions _ _ _ _ _ _ _).
  cbv beta iota zeta.
  cbn [issueReporterWindow set_issueReporterWindow log set_trace onAux onParent updAux
       updParent set_auxs set_parents].
  cbn [fst]. eapply Inv_sameCore; [apply sameCore_focus|].
  assert (HP : (P < length (parents s))%nat) by (apply (inv_focus s I), HF).
  destruct (lookup_lt_is_Some_2 (parents s) P HP) as [pw Hpw].
  apply (Inv_install Reporter s2 _ (length (auxs s)) (length (stores s)) P I2);
    subst s2; views.
  - exact Hs.
  - reflexivity.
  - reflexivity.
  - intros j Hj. destruct j; [congruence|]. split; reflexivity.
  - reflexivity.
  - rewrite lookup_ge_None_2 by lia. reflexivity.
  - rewrite lookup_alter_snoc. reflexivity.
  - intros v Hv. rewrite lookup_alter_snoc_ne by assumption. reflexivity.
  - exists (pw_listeners pw). rewrite list_lookup_alter_eq, Hpw. split; reflexivity.
  - intros Q HQ. rewrite list_lookup_alter_ne by auto. reflexivity.
  - apply length_alter.
  - reflexivity.
  - apply lookup_snoc.
  - reflexivity.
  - intros x. rewrite !filter_dispose_snoc by reflexivity. reflexivity.
Qed.

Lemma Inv_openProcessExplorer data s : Inv s -> Inv (fst (openProcessExplorer data s)).
Proof.
  intros I. unfold openProcessExplorer.
  destruct (processExplorerWindow s) as [w|] eqn:Hs.
  { rewrite Hs. cbn [fst]. eapply Inv_sameCore; [apply sameCore_focus|exact I]. }
  cbn [processExplorerParentWindow set_processExplorerParentWindow].
  pose proof (Inv_set_explorerParent (focusedWindow s) s I Hs) as I1.
  destruct (focusedWindow s) as [P|] eqn:HF.
  2:{ cbn [processExplorerWindow set_processExplorerParentWindow]. rewrite Hs. exact I1. }
  pose proof (Inv_newDisposableStore ProcessExplorer _ I1) as I2.
  unfold newDisposableStore in *. cbn [snd] in I2.
  set (s2 := log _ _) in *.
  destruct (windowPosition P 800 500 s2) as [position|]; [|exact I2].
  unfold createBrowserWindow, newBrowserWindow.
  set (opts := mkOptions _ _ _ _ _ _ _).
  cbv beta iota zeta.
  cbn [processExplorerWindow set_processExplorerWindow log set_trace onAux onParent updAux
       updParent set_auxs set_parents].
  cbn [fst]. eapply Inv_sameCore; [apply sameCore_focus|].
  assert (HP : (P < length (parents s))%nat) by (apply (inv_focus s I), HF).
  destruct (lookup_lt_is_Some_2 (parents s) P HP) as [pw Hpw].
  apply (Inv_install Explorer s2 _ (length (auxs s)) (length (stores s)) P I2);
    subst s2; views.
  - exact Hs.
  - reflexivity.
  - reflexivity.
  - intros j Hj. destruct j; [|congruence]. split; reflexivity.
  - reflexivity.
  - rewrite lookup_ge_None_2 by lia. reflexivity.
  - rewrite lookup_alter_snoc. reflexivity.
  - intros v Hv. rewrite lookup_alter_snoc_ne by assumption. reflexivity.
  - exists (pw_listeners pw). rewrite list_lookup_alter_eq, Hpw. split; reflexivity.
  - intros Q HQ. rewrite list_lookup_alter_ne by auto. reflexivity.
  - apply length_alter.
  - reflexivity.
  - apply lookup_snoc.
  - reflexivity.
  - intros x. rewrite !filter_dispose_snoc by reflexivity. reflexivity.
Qed.

(** *** The bridge window *)

(** Registering pairs appends bridge listeners to the window and changes
    nothing else the invariant reads. *)
Lemma registerEventPairs_views w winId p pairs s :
  let s' := registerEventPairs w winId p pairs s in
  (forall ls, auxListeners s w = Some ls ->
     exists ls', auxListeners s' w = Some (ls ++ ls') /\ Forall bridgeKind ls') /\
  (forall v, v <> w -> auxListeners s' v = auxListeners s v) /\
  (forall P, parentListeners s' P = parentListeners s P) /\
  parents s' = parents s /\
  stores s' = stores s /\
  issueReporterWindow s' = issueReporterWindow s /\
  issueReporterParentWindow s' = issueReporterParentWindow s /\
  processExplorerWindow s' = processExplorerWindow s /\
  processExplorerParentWindow s' = processExplorerParentWindow s /\
  _browserWindow s' = _browserWindow s /\
  focusedWindow s' = focusedWindow s /\
  (forall x, disposals x s' = disposals x s).
Proof.
  revert s. induction pairs as [|ev pairs IH]; intros s.
  { cbn. repeat split.
    intros ls Hls. exists []. rewrite app_nil_r. split; [exact Hls|constructor]. }
  cbn [registerEventPairs foldl].
  destruct (String.eqb (channel ev) "" || String.eqb (command ev) ""); [apply IH|].
  set (s1 := onAux w EClosed false _ _).
  specialize (IH s1). cbn zeta in IH. unfold registerEventPairs in IH.
  destruct IH as (A1 & A2 & A3 & A4 & A5 & A6 & A7 & A8 & A9 & A10 & A11 & A12).
  assert (Hs1 : forall ls, auxListeners s w = Some ls ->
            auxListeners s1 w =
              Some (ls ++ [mkReg EClosed false (BrowserClosedChannel (channel ev) p)])).
  { intros ls Hls. subst s1. unfold auxListeners in *.
    unfold onAux, ipcOn, removeAllListeners. views.
    rewrite list_lookup_alter_eq.
    destruct (auxs s !! w); [|discriminate]. injection Hls as <-. reflexivity. }
  cbn zeta. repeat split.
  - intros ls Hls. destruct (A1 _ (Hs1 ls Hls)) as (ls' & H1 & H2).
    eexists. rewrite <- app_assoc in H1. split; [exact H1|].
    constructor; [|exact H2]. split; [discriminate|exact Logic.I].
  - intros v Hv. rewrite A2 by assumption. subst s1.
    unfold onAux, ipcOn, removeAllListeners. views.
    rewrite list_lookup_alter_ne by auto. reflexivity.
  - intros P. rewrite A3. reflexivity.
  - rewrite A4. reflexivity.
  - rewrite A5. reflexivity.
  - rewrite A6. reflexivity.
  - rewrite A7. reflexivity.
  - rewrite A8. reflexivity.
  - rewrite A9. reflexivity.
  - rewrite A10. reflexivity.
  - rewrite A11. reflexivity.
  - intros x. rewrite A12. subst s1. unfold onAux, ipcOn, removeAllListeners. views.
    rewrite !filter_dispose_snoc by reflexivity. reflexivity.
Qed.

Lemma Inv_install_bridge s s' w P :
  Inv s ->
  _browserWindow s' = Some w ->
  issueReporterWindow s' = issueReporterWindow s ->
  issueReporterParentWindow s' = issueReporterParentWindow s ->
  processExplorerWindow s' = processExplorerWindow s ->
  processExplorerParentWindow s' = processExplorerParentWindow s ->
  auxListeners s w = None ->
  (exists ls, auxListeners s' w = Some ls /\ Forall bridgeKind ls) ->
  (forall v, v <> w -> auxListeners s' v = auxListeners s v) ->
  (exists ls p, parentListeners s P = Some ls /\
                parentListeners s' P =
                  Some (ls ++ [mkReg EClosed false (BrowserParentClosed p)])) ->
  (forall Q, Q <> P -> parentListeners s' Q = parentListeners s Q) ->
  length (parents s') = length (parents s) ->
  stores s' = stores s ->
  focusedWindow s' = focusedWindow s ->
  (forall x, disposals x s' = disposals x s) ->
  Inv s'.
Proof.
  intros I Hb Hr Hrp He Hep Hfresh (lsw & Hw & Hkind) Haux (ls0 & p & HP0 & HP1) Hpar
    Hlen Hstores Hfocus Hdisp.
  assert (Hown : forall x, ownerOf s' x = ownerOf s x).
  { intros x. unfold ownerOf. rewrite Hstores. reflexivity. }
  assert (Hgrow : forall Q ls, parentListeners s Q = Some ls ->
            exists ls', parentListeners s' Q = Some ls' /\ (forall r, In r ls -> In r ls')).
  { intros Q ls HQ. destruct (decide (Q = P)) as [->|Hne].
    - rewrite HP0 in HQ. injection HQ as <-. eexists. split; [exact HP1|].
      intros r Hr'. apply List.in_or_app. left. exact Hr'.
    - exists ls. rewrite Hpar by assumption. auto. }
  constructor.
  - intros j v Hj.
    assert (Hj' : slotOf j s = Some v) by (destruct j; cbn in *; congruence).
    destruct (inv_sessions s I j v Hj') as (d' & P' & L). exists d', P'.
    apply (liveSession_frame j v d' P' s); try assumption.
    + destruct j; cbn; congruence.
    + destruct j; cbn; congruence.
    + apply Haux. intros ->. destruct L as (_ & L2 & _). congruence.
    + rewrite Hstores. reflexivity.
    + apply Hgrow.
  - intros b Hb'. rewrite Hb in Hb'. injection Hb' as <-.
    exists lsw. split; [exact Hw|].
    eapply Forall_impl; [exact Hkind|]. intros r [H _]. exact H.
  - intros v ls Hv. destruct (decide (v = w)) as [->|Hne].
    + rewrite Hw in Hv. injection Hv as <-.
      eapply Forall_impl; [exact Hkind|]. intros r [_ H]. unfold auxRegOk.
      destruct (reg_listener r); auto; contradiction.
    + rewrite Haux in Hv by assumption.
      eapply Forall_impl; [apply (inv_aux s I v ls Hv)|].
      intros r. apply auxRegOk_mono. intros x o. rewrite Hown. auto.
  - intros Q ls HQ.
    assert (Hmono : forall r, parentRegOk s r -> parentRegOk s' r).
    { intros r. apply parentRegOk_mono. intros x o. rewrite Hown. auto. }
    destruct (decide (Q = P)) as [->|Hne].
    + rewrite HP1 in HQ. injection HQ as <-. apply Forall_app. split.
      * eapply Forall_impl; [apply (inv_parents s I P ls0 HP0)|]. exact Hmono.
      * constructor; [|constructor]. reflexivity.
    + rewrite Hpar in HQ by assumption.
      eapply Forall_impl; [apply (inv_parents s I Q ls HQ)|]. exact Hmono.
  - intros Q HQ. rewrite Hfocus in HQ. rewrite Hlen. apply (inv_focus s I Q HQ).
  - intros x. rewrite Hdisp, Hstores. apply (inv_disposals s I).
Qed.

Lemma auxListeners_onAux w e o l s v :
  auxListeners (onAux w e o l s) v =
  if decide (w = v) then (fun ls => ls ++ [mkReg e o l]) <$> auxListeners s v
  else auxListeners s v.
Proof.
  unfold auxListeners, onAux, updAux. cbn [auxs set_auxs].
  destruct (decide (w = v)) as [->|Hne].
  - rewrite list_lookup_alter_eq. destruct (auxs s !! v); reflexivity.
  - rewrite list_lookup_alter_ne by assumption. reflexivity.
Qed.

Lemma parentListeners_onParent P e l s Q :
  parentListeners (onParent P e l s) Q =
  if decide (P = Q) then (fun ls => ls ++ [mkReg e false l]) <$> parentListeners s Q
  else parentListeners s Q.
Proof.
  unfold parentListeners, onParent, updParent. cbn [parents set_parents].
  destruct (decide (P = Q)) as [->|Hne].
  - rewrite list_lookup_alter_eq. destruct (parents s !! Q); reflexivity.
  - rewrite list_lookup_alter_ne by assumption. reflexivity.
Qed.

(** Registering a listener on a parent changes the listeners of that parent
    only. *)
Lemma auxListeners_onParent P e l s v :
  auxListeners (onParent P e l s) v = auxListeners s v.
Proof. reflexivity. Qed.

Lemma parentListeners_onAux w e o l s P :
  parentListeners (onAux w e o l s) P = parentListeners s P.
Proof. reflexivity. Qed.

Lemma disposals_onParent P e l s x : disposals x (onParent P e l s) = disposals x s.
Proof. reflexivity. Qed.

Lemma disposals_onAux w e o l s x : disposals x (onAux w e o l s) = disposals x s.
Proof. reflexivity. Qed.

Lemma length_onParent P e l s :
  length (parents (onParent P e l s)) = length (parents s).
Proof. unfold onParent, updParent. cbn [parents set_parents]. apply length_alter. Qed.

Lemma onParent_fields P e l s :
  _browserWindow (onParent P e l s) = _browserWindow s /\
  issueReporterWindow (onParent P e l s) = issueReporterWindow s /\
  issueReporterParentWindow (onParent P e l s) = issueReporterParentWindow s /\
  processExplorerWindow (onParent P e l s) = processExplorerWindow s /\
  processExplorerParentWindow (onParent P e l s) = processExplorerParentWindow s /\
  stores (onParent P e l s) = stores s /\
  focusedWindow (onParent P e l s) = focusedWindow s /\
  forall x, disposals x (onParent P e l s) = disposals x s.
Proof. repeat split. Qed.

Lemma Inv_createBridgeWindow config p s :
  Inv s -> _browserWindow s = None -> Inv (fst (createBridgeWindow config p s)).
Proof.
  intros I Hb. unfold createBridgeWindow.
  cbn [_browserParentWindow set_browserParentWindow].
  assert (I1 : Inv (set_browserParentWindow (focusedWindow s) s)).
  { eapply Inv_sameCore; [apply sameCore_set_browserParentWindow|exact I]. }
  destruct (focusedWindow s) as [P|] eqn:HF; [|exact I1].
  destruct (windowPosition P 700 800 _) as [position|]; [|exact I1].
  destruct (cfg_data config) as [data|]; [|exact I1].
  unfold newBrowserWindow. cbv beta iota zeta. cbn [fst].
  set (opts := bridgeOptions _ _ _ _ _).
  assert (HP : (P < length (parents s))%nat) by (apply (inv_focus s I), HF).
  destruct (lookup_lt_is_Some_2 (parents s) P HP) as [pw Hpw].
  unfold installBridgeListeners, startBridgeWindow.
  set (w := length (auxs (set_browserParentWindow (Some P) s))).
  set (base := onAux w EDidFinishLoad false _ _).
  assert (Hbase : auxListeners base w =
            Some [mkReg EReadyToShow true (BrowserReadyToShow (winId config) p);
                  mkReg EDidFinishLoad false (BrowserDidFinishLoad data)]).
  { subst base w. views. rewrite list_lookup_alter_eq, lookup_alter_snoc. reflexivity. }
  assert (Hbase_other : forall v, v <> w -> auxListeners base v = auxListeners s v).
  { intros v Hv. subst base w. views.
    rewrite list_lookup_alter_ne by auto. rewrite lookup_alter_snoc_ne by assumption.
    reflexivity. }
  assert (Hbase_disp : forall x, disposals x base = disposals x s).
  { intros x. subst base w. views. rewrite !filter_dispose_snoc by reflexivity. reflexivity. }
  assert (Hbase_par : forall Q, parentListeners base Q = parentListeners s Q).
  { intros Q. reflexivity. }
  assert (HPl : parentListeners s P = Some (pw_listeners pw)).
  { unfold parentListeners. rewrite Hpw. reflexivity. }
  destruct (events config) as [|ev pairs] eqn:Hev.
  - apply (Inv_install_bridge s _ w P I).
    + reflexivity.
    + reflexivity.
    + reflexivity.
    + reflexivity.
    + reflexivity.
    + subst w. views. rewrite lookup_ge_None_2 by lia. reflexivity.
    + rewrite auxListeners_onParent.
      rewrite auxListeners_onAux. destruct (decide (w = w)); [|congruence].
      rewrite Hbase. eexists. split; [reflexivity|].
      repeat constructor; discriminate.
    + intros v Hv. rewrite auxListeners_onParent.
      rewrite auxListeners_onAux. destruct (decide (w = v)); [congruence|].
      apply Hbase_other. exact Hv.
    + exists (pw_listeners pw), p. split; [exact HPl|].
      rewrite parentListeners_onParent. destruct (decide (P = P)); [|congruence].
      rewrite parentListeners_onAux.
      rewrite Hbase_par, HPl. reflexivity.
    + intros Q HQ. rewrite parentListeners_onParent.
      destruct (decide (P = Q)); [congruence|]. reflexivity.
    + rewrite length_onParent. reflexivity.
    + reflexivity.
    + reflexivity.
    + intros x. rewrite disposals_onParent, disposals_onAux. apply Hbase_disp.
  - destruct (registerEventPairs_views w (winId config) p (ev :: pairs) base)
      as (A1 & A2 & A3 & A4 & A5 & A6 & A7 & A8 & A9 & A10 & A11 & A12).
    set (s' := registerEventPairs w (winId config) p (ev :: pairs) base) in *.
    apply (Inv_install_bridge s _ w P I).
    + rewrite (proj1 (onParent_fields _ _ _ _)), A10. reflexivity.
    + rewrite (proj1 (proj2 (onParent_fields _ _ _ _))), A6. reflexivity.
    + rewrite (proj1 (proj2 (proj2 (onParent_fields _ _ _ _)))), A7. reflexivity.
    + rewrite (proj1 (proj2 (proj2 (proj2 (onParent_fields _ _ _ _))))), A8. reflexivity.
    + rewrite (proj1 (proj2 (proj2 (proj2 (proj2 (onParent_fields _ _ _ _)))))), A9.
      reflexivity.
    + subst w. views. rewrite lookup_ge_None_2 by lia. reflexivity.
    + rewrite auxListeners_onParent.
      destruct (A1 _ Hbase) as (ls' & H1 & H2). eexists. split; [exact H1|].
      apply Forall_app. split; [|exact H2].
      repeat constructor; discriminate.
    + intros v Hv. rewrite auxListeners_onParent.
      rewrite <- Hbase_other by assumption. apply A2. exact Hv.
    + exists (pw_listeners pw), p. split; [exact HPl|].
      rewrite parentListeners_onParent. destruct (decide (P = P)); [|congruence].
      rewrite A3, Hbase_par, HPl. reflexivity.
    + intros Q HQ. rewrite parentListeners_onParent.
      destruct (decide (P = Q)); [congruence|]. rewrite A3. reflexivity.
    + rewrite length_onParent, A4. reflexivity.
    + rewrite (proj1 (proj2 (proj2 (proj2 (proj2 (proj2 (onParent_fields _ _ _ _))))))), A5.
      reflexivity.
    + rewrite (proj1 (proj2 (proj2 (proj2 (proj2 (proj2 (proj2 (onParent_fields _ _ _ _)))))))),
        A11. reflexivity.
    + intros x.
      rewrite (proj2 (proj2 (proj2 (proj2 (proj2 (proj2 (proj2 (onParent_fields _ _ _ _)))))))),
        A12.
      apply Hbase_disp.
Qed.

Lemma Inv_openBrowserWindow args s : Inv s -> Inv (snd (openBrowserWindow args s)).
Proof.
  intros I. unfold openBrowserWindow, newPromise. cbv beta iota zeta.
  set (s0 := set_promises _ s).
  assert (I0 : Inv s0) by (eapply Inv_sameCore; [apply sameCore_set_promises|exact I]).
  destruct (match _browserWindow s0 with
            | Some w => if isDestroyed w s0 then None else Some w
            | None => None
            end) as [w|].
  { cbn [snd]. unfold reject. eapply Inv_sameCore; [|exact I0].
    destruct (isMinimized w s0); same_core. }
  destruct args as [[|config rest]|].
  - cbn [snd]. unfold reject. eapply Inv_sameCore; [apply sameCore_settle|exact I0].
  - destruct (_browserWindow s0) as [w|] eqn:Hb.
    + rewrite Hb. cbn [snd]. eapply Inv_sameCore; [apply sameCore_focus|exact I0].
    + pose proof (Inv_createBridgeWindow config (length (promises s)) s0 I0 Hb) as I1.
      destruct (createBridgeWindow config (length (promises s)) s0) as [s1 [[]|e]];
        cbn [fst] in I1.
      * destruct (_browserWindow s1); cbn [snd]; [|exact I1].
        eapply Inv_sameCore; [apply sameCore_focus|exact I1].
      * cbn [snd]. unfold reject. eapply Inv_sameCore; [apply sameCore_settle|exact I1].
  - cbn [snd]. unfold reject. eapply Inv_sameCore; [apply sameCore_settle|exact I0].
Qed.

Lemma sameCore_safeSend event ch pl s : sameCore s (safeSend event ch pl s).
Proof.
  unfold safeSend. destruct (negb (senderIsDestroyed event)); same_core.
Qed.

Lemma sameCore_runIpcListener l a s : sameCore s (runIpcListener l a s).
Proof.
  destruct l as [winId cmd p]. cbn [runIpcListener]. unfold resolve.
  destruct (String.eqb winId "certificate"); [apply sameCore_settle|].
  destruct (_browserParentWindow s); same_core.
Qed.

Lemma sameCore_emitIpc ch a s : sameCore s (emitIpc ch a s).
Proof.
  unfold emitIpc. generalize (List.filter (onChannel ch) (ipcListeners s)).
  intros ls. revert s. induction ls as [|l ls IH]; intros s; [apply sameCore_refl|].
  cbn [foldl]. eapply sameCore_trans; [apply sameCore_runIpcListener|apply IH].
Qed.

Lemma sameCore_timerFires n s : sameCore s (timerFires n s).
Proof.
  unfold timerFires. destruct (timers s !! n) as [[winId p]|]; [|apply sameCore_refl].
  cbn [runTimer]. unfold resolve.
  eapply sameCore_trans; [apply sameCore_set_timers|].
  destruct (_browserWindow (set_timers (delete n (timers s)) s));
    destruct (String.eqb winId "addEmulator"); same_core.
Qed.

Lemma Inv_focusChanged o s : Inv s -> Inv (focusChanged o s).
Proof.
  intros I. unfold focusChanged.
  destruct o as [P|].
  - destruct (Nat.ltb P (length (parents s))) eqn:E; [|exact I].
    apply Nat.ltb_lt in E. destruct I. constructor; try assumption.
    intros Q [= <-]. exact E.
  - destruct I. constructor; try assumption. intros Q HQ. discriminate.
Qed.

Lemma Inv_parentOpened b s : Inv s -> Inv (set_parents (parents s ++ [mkParentWin b []]) s).
Proof.
  intros I.
  assert (Hpl : forall P ls, parentListeners s P = Some ls ->
            parentListeners (set_parents (parents s ++ [mkParentWin b []]) s) P = Some ls).
  { intros P ls. unfold parentListeners. cbn [parents set_parents].
    destruct (parents s !! P) eqn:E; [|discriminate].
    rewrite lookup_app_l by (apply lookup_lt_Some in E; exact E). rewrite E. auto. }
  constructor.
  - intros k w Hk.
    assert (Hk' : slotOf k s = Some w) by (destruct k; exact Hk).
    destruct (inv_sessions s I k w Hk') as (d & P & L). exists d, P.
    apply (liveSession_frame k w d P s); [destruct k; reflexivity..|reflexivity|reflexivity| |exact L].
    intros ls Hls. exists ls. split; [apply Hpl, Hls | auto].
  - exact (inv_bridge s I).
  - exact (inv_aux s I).
  - intros P ls. unfold parentListeners. cbn [parents set_parents]. intros HP.
    destruct (decide (P < length (parents s))%nat) as [Hlt|Hge].
    + rewrite lookup_app_l in HP by exact Hlt. apply (inv_parents s I P ls HP).
    + destruct (decide (P = length (parents s))) as [->|Hne].
      * rewrite lookup_snoc in HP. injection HP as <-. constructor.
      * rewrite lookup_ge_None_2 in HP by (rewrite length_app; cbn; lia). discriminate.
  - intros P HP. cbn [parents set_parents focusedWindow] in *.
    rewrite length_app. pose proof (inv_focus s I P HP). lia.
  - exact (inv_disposals s I).
Qed.

Lemma Inv_initial e : Inv (initial e).
Proof.
  constructor.
  - intros k w Hk. destruct k; discriminate.
  - intros b Hb. discriminate.
  - intros w ls Hw. discriminate.
  - intros P ls HP. discriminate.
  - intros P HP. discriminate.
  - intros d. reflexivity.
Qed.

(** Every event preserves the invariant. *)
Lemma Inv_step ev s : Inv s -> Inv (step ev s).
Proof.
  intros I. destruct ev; cbn [step].
  - apply Inv_openReporter, I.
  - apply Inv_openProcessExplorer, I.
  - apply Inv_openBrowserWindow, I.
  - eapply Inv_sameCore; [|exact I]. unfold issueSystemInfoRequest.
    destruct (promiseAll2 _ _ _) as [[info remoteData]|]; [|apply sameCore_refl].
    destruct (getSystemInfo c info remoteData); [apply sameCore_safeSend|apply sameCore_refl].
  - eapply Inv_sameCore; [|exact I]. unfold listProcessesRequest.
    destruct (gatherProcesses c) as [processes [e|]]; cbn [fst].
    + eapply sameCore_trans; [|apply sameCore_safeSend]. apply sameCore_log; reflexivity.
    + apply sameCore_safeSend.
  - eapply Inv_sameCore; [|exact I]. unfold issueReporterClipboard.
    destruct (issueReporterWindow s); [|apply sameCore_refl].
    destruct (showMessageBox c); cbn [fst].
    + eapply sameCore_trans; [|apply sameCore_safeSend]. apply sameCore_log; reflexivity.
    + apply sameCore_log; reflexivity.
  - eapply Inv_sameCore; [|exact I]. unfold issuePerformanceInfoRequest, getPerformanceInfo.
    destruct (promiseAll2 _ _ _) as [[info remoteData]|].
    + destruct (diagnosticsGetPerformanceInfo c info remoteData); cbn [fst].
      * apply sameCore_safeSend.
      * apply sameCore_log; reflexivity.
    + cbn [fst]. apply sameCore_log; reflexivity.
  - unfold issueReporterConfirmClose. destruct (issueReporterWindow s); [|exact I].
    eapply Inv_sameCore; [apply sameCore_log; reflexivity|exact I].
  - unfold issueReporterConfirmCloseAnswered.
    destruct (Nat.eqb response 0); [|exact I].
    destruct (issueReporterWindow s) as [w|]; [|exact I].
    apply Inv_clear_reporter, Inv_destroy, I.
  - eapply Inv_sameCore; [|exact I]. unfold workbenchCommand.
    destruct (String.eqb (from commandInfo) "issueReporter").
    + destruct (issueReporterParentWindow s); cbn [fst]; same_core.
    + destruct (String.eqb (from commandInfo) "processExplorer"); [|apply sameCore_refl].
      destruct (processExplorerParentWindow s); cbn [fst]; same_core.
  - eapply Inv_sameCore; [apply sameCore_log; reflexivity|exact I].
  - unfold closeIssueReporter. destruct (issueReporterWindow s); [|exact I].
    apply Inv_close, I.
  - unfold closeProcessExplorer. destruct (processExplorerWindow s); [|exact I].
    apply Inv_close, I.
  - unfold closeBrowserWindow. destruct (_browserWindow s); [|exact I].
    apply Inv_close, I.
  - eapply Inv_sameCore; [|exact I]. unfold windowsInfoRequest.
    destruct (getMainProcessInfo c); [apply sameCore_safeSend|apply sameCore_refl].
  - eapply Inv_sameCore; [apply sameCore_emitIpc|exact I].
  - apply Inv_auxEmits, I.
  - apply Inv_emitParent, I.
  - eapply Inv_sameCore; [apply sameCore_timerFires|exact I].
  - apply Inv_parentOpened, I.
  - apply Inv_focusChanged, I.
  - eapply Inv_sameCore; [|exact I]. apply sameCore_updAux_flag. reflexivity.
Qed.

Lemma Inv_run evs s : Inv s -> Inv (run evs s).
Proof.
  revert s. induction evs as [|ev evs IH]; intros s I; [exact I|].
  cbn [run foldl]. apply IH, Inv_step, I.
Qed.

Lemma Inv_reachable s : reachable s -> Inv s.
Proof. intros (e & evs & ->). apply Inv_run, Inv_initial. Qed.

(** *** What close signals can never undo *)



Lemma later_sameCore s s' :
  sameCore s s' -> (exists t, trace s' = trace s ++ t) -> later s s'.
Proof.
  intros [] Ht. constructor; [| |exact Ht].
  - intros k. destruct k; cbn; congruence.
  - intros d r. rewrite same_stores0. auto.
Qed.




















(** *** The two close signals *)

Lemma dispose_live d r s :
  stores s !! d = Some (mkStore r false) ->
  dispose d s = log (DisposeIPCObjectUrl d) (set_stores (<[d := mkStore r true]> (stores s)) s).
Proof. intros H. unfold dispose. rewrite H. reflexivity. Qed.












Lemma disposals_of_disposed d r s :
  Inv s -> stores s !! d = Some (mkStore r true) -> disposals d s = 1%nat.
Proof. intros I H. rewrite (inv_disposals s I d), H. reflexivity. Qed.

Lemma disposals_of_live d r s :
  Inv s -> stores s !! d = Some (mkStore r false) -> disposals d s = 0%nat.
Proof. intros I H. rewrite (inv_disposals s I d), H. reflexivity. Qed.



(** While the slot of a role is taken, opening a session of that role
    creates no window. *)
Lemma openDiagnostic_live k data w s :
  slotOf k s = Some w -> openDiagnostic k data s = (focus w s, Ok tt).
Proof.
  intros H. destruct k; cbn [openDiagnostic slotOf] in *.
  - unfold openReporter. rewrite H. cbn [issueReporterWindow]. rewrite H. reflexivity.
  - unfold openProcessExplorer. rewrite H. cbn [processExplorerWindow]. rewrite H. reflexivity.
Qed.



(** C2, where the code departs from it: the process explorer listens to the
    ['close'] event of its parent (line 387), the issue reporter to
    ['closed'] (line 344).  A parent that is destroyed emits ['closed']
    without ['close']: the issue reporter is then closed and its channel
    released, in that order, but for the process explorer nothing runs at
    all: the state of the service is unchanged, the window stays in its slot
    and the channel is not released.  On ['close'] the process explorer is
    torn down as the issue reporter is on ['closed']. *)
Theorem parent_closed_leaves_process_explorer_open :
  (liveSession Explorer 0%nat 0%nat 0%nat explorerOpen /\
   step (ParentEmits 0%nat EClosed) explorerOpen = explorerOpen /\
   processExplorerWindow (step (ParentEmits 0%nat EClosed) explorerOpen) = Some 0%nat /\
   disposals 0%nat (step (ParentEmits 0%nat EClosed) explorerOpen) = 0%nat) /\
  (liveSession Reporter 0%nat 0%nat 0%nat reporterOpen /\
   issueReporterWindow (step (ParentEmits 0%nat EClosed) reporterOpen) = None /\
   trace (step (ParentEmits 0%nat EClosed) reporterOpen) =
     trace reporterOpen ++ [Close 0%nat; DisposeIPCObjectUrl 0%nat]) /\
  (processExplorerWindow (step (ParentEmits 0%nat EClose) explorerOpen) = None /\
   trace (step (ParentEmits 0%nat EClose) explorerOpen) =
     trace explorerOpen ++ [Close 0%nat; DisposeIPCObjectUrl 0%nat]).
Proof.
  split; [|split].
  - split.
    { unfold liveSession. split; [vm_compute; reflexivity|].
      split; [vm_compute; reflexivity|]. split; [vm_compute; reflexivity|].
      split; [vm_compute; reflexivity|].
      eexists. split; [vm_compute; reflexivity|]. left. reflexivity. }
    split; [vm_compute; reflexivity|]. split; vm_compute; reflexivity.
  - split.
    { unfold liveSession. split; [vm_compute; reflexivity|].
      split; [vm_compute; reflexivity|]. split; [vm_compute; reflexivity|].
      split; [vm_compute; reflexivity|].
      eexists. split; [vm_compute; reflexivity|]. left. reflexivity. }
    split; vm_compute; reflexivity.
  - split; vm_compute; reflexivity.
Qed.

(** C1, as the code has it for the issue reporter and the process explorer:
    a second open while the slot of the role is taken creates no window (the
    windows are left exactly as they were, so that the role keeps its one
    live window) and the only call made is [focus()] on the existing window;
    [restore()] is not called, and a minimized window stays minimized. *)
Theorem second_open_focuses_without_restore :
  forall k data s w,
    slotOf k s = Some w ->
    let s' := fst (openDiagnostic k data s) in
    trace s' = trace s ++ [Focus w] /\
    auxs s' = auxs s /\
    liveWindows (roleOf k) s' = liveWindows (roleOf k) s /\
    isMinimized w s' = isMinimized w s.
Proof.
  intros k data s w H. rewrite (openDiagnostic_live k data w s H). cbn [fst].
  repeat split.
Qed.

Lemma second_open_focuses_without_restore_witness :
  isMinimized 0%nat reporterMinimized = true /\
  trace (fst (openReporter someData reporterMinimized)) =
    trace reporterMinimized ++ [Focus 0%nat] /\
  isMinimized 0%nat (fst (openReporter someData reporterMinimized)) = true.
Proof.
  destruct (second_open_focuses_without_restore Reporter someData reporterMinimized 0%nat)
    as (H1 & _ & _ & H4).
  - vm_compute. reflexivity.
  - split; [vm_compute; reflexivity|]. split; [exact H1|].
    cbn [openDiagnostic] in H4. rewrite H4. vm_compute. reflexivity.
Defined.

End InvariantFacts.

(** ** The parent references, and the routing of workbench commands *)

Module RoutingFacts.
Import Placement Service Invariant More Examples SessionFacts InvariantFacts.

Lemma sameParentRefs_refl s : sameParentRefs s s.
Proof. split; reflexivity. Qed.

Lemma sameParentRefs_trans s1 s2 s3 :
  sameParentRefs s1 s2 -> sameParentRefs s2 s3 -> sameParentRefs s1 s3.
Proof. intros [A1 A2] [B1 B2]. split; congruence. Qed.

Lemma sameParentRefs_sameCore s s' : sameCore s s' -> sameParentRefs s s'.
Proof. intros C. split; [apply (same_reporterParent _ _ C) | apply (same_explorerParent _ _ C)]. Qed.

Lemma sameParentRefs_dispose d s : sameParentRefs s (dispose d s).
Proof.
  unfold dispose. destruct (stores s !! d) as [[o [|]]|]; split; reflexivity.
Qed.

Lemma sameParentRefs_reject p r s : sameParentRefs s (reject p r s).
Proof. apply sameParentRefs_sameCore. apply sameCore_settle. Qed.

Lemma sameParentRefs_runAuxListener l s : sameParentRefs s (runAuxListener l s).
Proof.
  destruct l as [d|d|winId p|data|ch p|p]; cbn [runAuxListener].
  - apply (sameParentRefs_trans _ (set_issueReporterWindow None s));
      [split; reflexivity | apply sameParentRefs_dispose].
  - apply (sameParentRefs_trans _ (set_processExplorerWindow None s));
      [split; reflexivity | apply sameParentRefs_dispose].
  - destruct (_browserWindow s); split; reflexivity.
  - destruct (_browserWindow s); split; reflexivity.
  - apply (sameParentRefs_trans _ (set_browserWindow None (removeAllListeners ch s)));
      [split; reflexivity | apply sameParentRefs_reject].
  - apply (sameParentRefs_trans _ (set_browserWindow None s));
      [split; reflexivity | apply sameParentRefs_reject].
Qed.

Lemma sameParentRefs_fold_aux (regs : list (Registration AuxListener)) s :
  sameParentRefs s (foldl (fun s r => runAuxListener (reg_listener r) s) s regs).
Proof.
  revert s. induction regs as [|r regs IH]; intros s; [apply sameParentRefs_refl|].
  cbn [foldl]. eapply sameParentRefs_trans; [apply sameParentRefs_runAuxListener | apply IH].
Qed.

Lemma sameParentRefs_emitAux e w s : sameParentRefs s (emitAux e w s).
Proof.
  unfold emitAux. destruct (auxs s !! w) as [aw|]; [|apply sameParentRefs_refl].
  eapply sameParentRefs_trans; [|apply sameParentRefs_fold_aux]. split; reflexivity.
Qed.

Lemma sameParentRefs_close w s : sameParentRefs s (close w s).
Proof.
  unfold close. eapply sameParentRefs_trans; [|apply sameParentRefs_emitAux].
  split; reflexivity.
Qed.

Lemma sameParentRefs_destroy w s : sameParentRefs s (destroy w s).
Proof.
  unfold destroy. eapply sameParentRefs_trans; [|apply sameParentRefs_emitAux].
  split; reflexivity.
Qed.

Lemma sameParentRefs_runParentListener l s : sameParentRefs s (runParentListener l s).
Proof.
  destruct l; cbn [runParentListener].
  - destruct (issueReporterWindow s) as [w|]; [|apply sameParentRefs_refl].
    apply (sameParentRefs_trans _ (close w s)); [apply sameParentRefs_close|].
    apply (sameParentRefs_trans _ (set_issueReporterWindow None (close w s)));
      [split; reflexivity | apply sameParentRefs_dispose].
  - destruct (processExplorerWindow s) as [w|]; [|apply sameParentRefs_refl].
    apply (sameParentRefs_trans _ (close w s)); [apply sameParentRefs_close|].
    apply (sameParentRefs_trans _ (set_processExplorerWindow None (close w s)));
      [split; reflexivity | apply sameParentRefs_dispose].
  - destruct (_browserWindow s) as [w|]; [|apply sameParentRefs_refl].
    apply (sameParentRefs_trans _ (close w s)); [apply sameParentRefs_close|].
    apply (sameParentRefs_trans _ (set_browserWindow None (close w s)));
      [split; reflexivity | apply sameParentRefs_reject].
Qed.

Lemma sameParentRefs_emitParent e P s : sameParentRefs s (emitParent e P s).
Proof.
  unfold emitParent. destruct (parents s !! P) as [pw|]; [|apply sameParentRefs_refl].
  generalize (List.filter (listensTo e) (pw_listeners pw)). intros regs. revert s.
  induction regs as [|r regs IH]; intros s; [apply sameParentRefs_refl|].
  cbn [foldl]. eapply sameParentRefs_trans; [apply sameParentRefs_runParentListener | apply IH].
Qed.

Lemma sameParentRefs_registerEventPairs w winId p pairs s :
  sameParentRefs s (registerEventPairs w winId p pairs s).
Proof.
  destruct (registerEventPairs_views w winId p pairs s)
    as (_ & _ & _ & _ & _ & _ & H7 & _ & H9 & _).
  split; [exact H7 | exact H9].
Qed.

Lemma sameParentRefs_openBrowserWindow args s :
  sameParentRefs s (snd (openBrowserWindow args s)).
Proof.
  unfold openBrowserWindow, newPromise. cbv beta iota zeta.
  set (s0 := set_promises _ s).
  assert (R0 : sameParentRefs s s0) by (split; reflexivity).
  clearbody s0. apply (sameParentRefs_trans _ s0); [exact R0|]. clear R0.
  destruct (match _browserWindow s0 with
            | Some w => if isDestroyed w s0 then None else Some w
            | None => None
            end) as [w|].
  { cbn [snd]. eapply sameParentRefs_trans; [|apply sameParentRefs_reject].
    destruct (isMinimized w s0); split; reflexivity. }
  destruct args as [[|config rest]|]; try (cbn [snd]; apply sameParentRefs_reject).
  assert (C : sameParentRefs s0
                (fst (match _browserWindow s0 with
                      | Some _ => (s0, Ok tt)
                      | None => createBridgeWindow config (length (promises s)) s0
                      end))).
  { destruct (_browserWindow s0); [apply sameParentRefs_refl|].
    unfold createBridgeWindow. cbn [_browserParentWindow set_browserParentWindow].
    destruct (focusedWindow s0) as [P|]; [|split; reflexivity].
    destruct (windowPosition P 700 800 _); [|split; reflexivity].
    destruct (cfg_data config) as [data|]; [|split; reflexivity].
    unfold newBrowserWindow. cbv beta iota zeta. cbn [fst].
    unfold installBridgeListeners.
    destruct (events config) as [|ev pairs].
    - split; reflexivity.
    - set (base := onAux _ EDidFinishLoad _ _ _).
      assert (B : sameParentRefs s0 base) by (split; reflexivity).
      clearbody base.
      apply (sameParentRefs_trans _ base); [exact B|].
      apply (sameParentRefs_trans _
               (registerEventPairs (length (auxs s0)) (winId config) (length (promises s))
                  (ev :: pairs) base));
        [apply sameParentRefs_registerEventPairs | split; reflexivity]. }
  destruct (match _browserWindow s0 with
            | Some _ => (s0, Ok tt)
            | None => createBridgeWindow config (length (promises s)) s0
            end) as [s1 [u|e]]; cbn [fst snd] in *.
  - destruct (_browserWindow s1); exact C.
  - eapply sameParentRefs_trans; [exact C | apply sameParentRefs_reject].
Qed.

(** What an open call does to the two parent references: the reference of
    the other role is left alone, and the role's own reference is assigned
    the focused window (null when there is none) unless the slot is taken. *)
Lemma openReporter_parentRefs data s :
  processExplorerParentWindow (fst (openReporter data s)) = processExplorerParentWindow s /\
  issueReporterParentWindow (fst (openReporter data s)) =
    match issueReporterWindow s with
    | Some _ => issueReporterParentWindow s
    | None => focusedWindow s
    end.
Proof.
  unfold openReporter. destruct (issueReporterWindow s) as [w|] eqn:Hs.
  - cbn [fst]. rewrite Hs. split; reflexivity.
  - cbn [issueReporterParentWindow set_issueReporterParentWindow].
    destruct (focusedWindow s) as [P|] eqn:Hf.
    + unfold newDisposableStore. cbv beta iota zeta.
      destruct (windowPosition P 700 800 _) as [position|]; [|split; reflexivity].
      unfold createBrowserWindow, newBrowserWindow. cbv beta iota zeta.
      cbn [issueReporterWindow set_issueReporterWindow log set_trace onAux onParent updAux
           updParent set_auxs set_parents fst].
      split; reflexivity.
    + cbn [issueReporterWindow set_issueReporterParentWindow]. rewrite Hs.
      split; reflexivity.
Qed.

Lemma openProcessExplorer_parentRefs data s :
  issueReporterParentWindow (fst (openProcessExplorer data s)) = issueReporterParentWindow s /\
  processExplorerParentWindow (fst (openProcessExplorer data s)) =
    match processExplorerWindow s with
    | Some _ => processExplorerParentWindow s
    | None => focusedWindow s
    end.
Proof.
  unfold openProcessExplorer. destruct (processExplorerWindow s) as [w|] eqn:Hs.
  - cbn [fst]. rewrite Hs. split; reflexivity.
  - cbn [processExplorerParentWindow set_processExplorerParentWindow].
    destruct (focusedWindow s) as [P|] eqn:Hf.
    + unfold newDisposableStore. cbv beta iota zeta.
      destruct (windowPosition P 800 500 _) as [position|]; [|split; reflexivity].
      unfold createBrowserWindow, newBrowserWindow. cbv beta iota zeta.
      cbn [processExplorerWindow set_processExplorerWindow log set_trace onAux onParent
           updAux updParent set_auxs set_parents fst].
      split; reflexivity.
    + cbn [processExplorerWindow set_processExplorerParentWindow]. rewrite Hs.
      split; reflexivity.
Qed.

(** Every event that is not an open call leaves both parent references as
    they are: no handler, and no listener of a window, clears them. *)
Lemma step_sameParentRefs ev s :
  opens Reporter ev = false -> opens Explorer ev = false ->
  sameParentRefs s (step ev s).
Proof.
  intros HR HE. destruct ev; cbn [step]; try discriminate.
  - apply sameParentRefs_openBrowserWindow.
  - unfold issueSystemInfoRequest.
    destruct (promiseAll2 _ _ _) as [[info remoteData]|]; [|apply sameParentRefs_refl].
    destruct (getSystemInfo c info remoteData); [|apply sameParentRefs_refl].
    apply sameParentRefs_sameCore, sameCore_safeSend.
  - unfold listProcessesRequest.
    destruct (gatherProcesses c) as [processes [e|]]; cbn [fst].
    + eapply sameParentRefs_trans; [|apply sameParentRefs_sameCore, sameCore_safeSend].
      split; reflexivity.
    + apply sameParentRefs_sameCore, sameCore_safeSend.
  - unfold issueReporterClipboard.
    destruct (issueReporterWindow s); [|apply sameParentRefs_refl].
    destruct (showMessageBox c); cbn [fst]; [|split; reflexivity].
    eapply sameParentRefs_trans; [|apply sameParentRefs_sameCore, sameCore_safeSend].
    split; reflexivity.
  - unfold issuePerformanceInfoRequest, getPerformanceInfo.
    destruct (promiseAll2 _ _ _) as [[info remoteData]|].
    + destruct (diagnosticsGetPerformanceInfo c info remoteData); cbn [fst];
        [apply sameParentRefs_sameCore, sameCore_safeSend | split; reflexivity].
    + split; reflexivity.
  - unfold issueReporterConfirmClose. destruct (issueReporterWindow s); split; reflexivity.
  - unfold issueReporterConfirmCloseAnswered.
    destruct (Nat.eqb response 0); [|apply sameParentRefs_refl].
    destruct (issueReporterWindow s) as [w|]; [|apply sameParentRefs_refl].
    eapply sameParentRefs_trans; [apply (sameParentRefs_destroy w)|]. split; reflexivity.
  - unfold workbenchCommand.
    destruct (String.eqb (from commandInfo) "issueReporter").
    + destruct (issueReporterParentWindow s); split; reflexivity.
    + destruct (String.eqb (from commandInfo) "processExplorer"); [|split; reflexivity].
      destruct (processExplorerParentWindow s); split; reflexivity.
  - split; reflexivity.
  - unfold closeIssueReporter.
    destruct (issueReporterWindow s); [apply sameParentRefs_close | apply sameParentRefs_refl].
  - unfold closeProcessExplorer.
    destruct (processExplorerWindow s); [apply sameParentRefs_close | apply sameParentRefs_refl].
  - unfold closeBrowserWindow.
    destruct (_browserWindow s); [apply sameParentRefs_close | apply sameParentRefs_refl].
  - unfold windowsInfoRequest.
    destruct (getMainProcessInfo c); [|apply sameParentRefs_refl].
    apply sameParentRefs_sameCore, sameCore_safeSend.
  - apply sameParentRefs_sameCore, sameCore_emitIpc.
  - unfold auxEmits. destruct e; try apply sameParentRefs_emitAux.
    eapply sameParentRefs_trans; [|apply sameParentRefs_emitAux]. split; reflexivity.
  - apply sameParentRefs_emitParent.
  - apply sameParentRefs_sameCore, sameCore_timerFires.
  - split; reflexivity.
  - unfold focusChanged. destruct o as [P|]; [|split; reflexivity].
    destruct (Nat.ltb P (length (parents s))); split; reflexivity.
  - split; reflexivity.
Qed.

(** C3, refuted as stated: the parent of the issue reporter emits ['closed'];
    the session ends, yet a workbench command sent under the name
    'issueReporter' afterwards is not dropped: the handler calls [send] on
    the closed parent, which the service still refers to. *)
Lemma workbenchCommand_reaches_closed_parent :
  issueReporterWindow (step (ParentEmits 0%nat EClosed) reporterOpen) = None /\
  trace (step (ParentEmits 0%nat EClosed) reporterOpen) =
    trace reporterOpen ++ [Close 0%nat; DisposeIPCObjectUrl 0%nat] /\
  trace (fst (workbenchCommand
                (mkCommandInfo "workbench.action.reloadWindow" "issueReporter" "x")
                (step (ParentEmits 0%nat EClosed) reporterOpen))) =
    trace (step (ParentEmits 0%nat EClosed) reporterOpen) ++
    [SendRunAction 0%nat
       (mkRunAction "workbench.action.reloadWindow" "issueReporter" (ArgsAsReceived "x"))].
Proof.
  split; [vm_compute; reflexivity|]. split; vm_compute; reflexivity.
Qed.

(** C3, amended: a workbench command whose [from] is 'issueReporter' or
    'processExplorer' is dropped, with nothing sent and nothing thrown, when
    the parent reference of that role is null; otherwise the handler calls
    [send] on the window the reference holds.  The reference is assigned by
    the role's open call alone, which gives it the focused window, or null
    when there is none, unless the slot is taken; no other event changes or
    clears it, the closing of the parent and the end of the session
    included.  A command with any other [from] is answered by the error
    'Unexpected command source: <from>'. *)
Theorem workbenchCommand_follows_parent_reference :
  (forall k c s,
      from c = roleName k -> parentSlotOf k s = None ->
      workbenchCommand c s = (s, Ok tt)) /\
  (forall k c s P,
      from c = roleName k -> parentSlotOf k s = Some P ->
      trace (fst (workbenchCommand c s)) =
        trace s ++
        [SendRunAction P (mkRunAction (id c) (from c) (ArgsAsReceived (args c)))]) /\
  (forall k ev s,
      opens k ev = false -> parentSlotOf k (step ev s) = parentSlotOf k s) /\
  (forall k data s,
      parentSlotOf k (fst (openDiagnostic k data s)) =
        match slotOf k s with
        | Some _ => parentSlotOf k s
        | None => focusedWindow s
        end) /\
  (forall c s,
      from c <> "issueReporter" -> from c <> "processExplorer" ->
      workbenchCommand c s =
        (s, Throw (String.append "Unexpected command source: " (from c)))).
Proof.
  split; [|split; [|split; [|split]]].
  - intros k c s Hf Hp. unfold workbenchCommand. rewrite Hf.
    destruct k; cbn [roleName parentSlotOf] in *; cbn [String.eqb Ascii.eqb Bool.eqb];
      rewrite Hp; reflexivity.
  - intros k c s P Hf Hp. unfold workbenchCommand. rewrite Hf.
    destruct k; cbn [roleName parentSlotOf] in *; cbn [String.eqb Ascii.eqb Bool.eqb];
      rewrite Hp; reflexivity.
  - intros k ev s Hk.
    destruct ev as [data|data| | | | | | | | | | | | | | | | | | | |];
      try (match goal with
           | |- parentSlotOf _ (step ?e _) = _ =>
               destruct (step_sameParentRefs e s eq_refl eq_refl) as [A B]
           end;
           destruct k; [exact A | exact B]).
    + destruct k; [discriminate|]. cbn [step parentSlotOf].
      apply (openReporter_parentRefs data s).
    + destruct k; [|discriminate]. cbn [step parentSlotOf].
      apply (openProcessExplorer_parentRefs data s).
  - intros k data s. destruct k; cbn [openDiagnostic parentSlotOf slotOf].
    + apply (openReporter_parentRefs data s).
    + apply (openProcessExplorer_parentRefs data s).
  - intros c s H1 H2. unfold workbenchCommand.
    apply String.eqb_neq in H1. apply String.eqb_neq in H2.
    rewrite H1, H2. reflexivity.
Qed.

Lemma workbenchCommand_follows_parent_reference_witness :
  workbenchCommand (mkCommandInfo "workbench.action.reloadWindow" "issueReporter" "x")
    (initial someEnv) = (initial someEnv, Ok tt) /\
  parentSlotOf Reporter (step (ParentEmits 0%nat EClosed) reporterOpen) =
    parentSlotOf Reporter reporterOpen /\
  parentSlotOf Explorer (step (closeRequest Explorer) explorerOpen) =
    parentSlotOf Explorer explorerOpen /\
  workbenchCommand (mkCommandInfo "workbench.action.reloadWindow" "unknown-role" "x")
    (initial someEnv) =
    (initial someEnv, Throw "Unexpected command source: unknown-role").
Proof.
  destruct workbenchCommand_follows_parent_reference as (H1 & _ & H3 & _ & H5).
  split; [|split; [|split]].
  - apply (H1 Reporter); reflexivity.
  - apply (H3 Reporter). reflexivity.
  - apply (H3 Explorer). reflexivity.
  - apply H5; cbn; discriminate.
Defined.

End RoutingFacts.

(** * Further properties of the placement *)

Module PlacementMore.
Import Placement PlacementFacts.

(** X1: with exactly one display, neither the platform nor the parent window
    has a say: the request is centred and clamped on that display. *)
Theorem single_display_ignores_parent :
  forall scr d mac mac' pw pw' dw dh,
    getAllDisplays scr = [d] ->
    getWindowPosition scr mac pw dw dh = Some (centerAndClamp (bounds d) dw dh) /\
    getWindowPosition scr mac pw dw dh = getWindowPosition scr mac' pw' dw dh.
Proof.
  intros scr d mac mac' pw pw' dw dh H.
  unfold getWindowPosition, displayToUse. rewrite H. cbn. split; reflexivity.
Qed.

Lemma single_display_ignores_parent_witness :
  getWindowPosition (singleDisplay (rectZ 0 0 1920 1080)) true None 700 800 =
  getWindowPosition (singleDisplay (rectZ 0 0 1920 1080)) false
    (Some (mkBounds (rectZ 5000 5000 300 300))) 700 800.
Proof.
  apply (single_display_ignores_parent (singleDisplay (rectZ 0 0 1920 1080))
           (mkDisplay (rectZ 0 0 1920 1080))).
  reflexivity.
Defined.

(** X2: a display that reports a width or a height that is not positive is not
    clamped against: the rectangle keeps the requested size and the centred
    origin, wherever that falls. *)
Theorem degenerate_display_is_not_clamped :
  forall scr mac pw d dw dh,
    displayToUse scr mac pw = Some d ->
    (width (bounds d) <= 0 \/ height (bounds d) <= 0)%Q ->
    getWindowPosition scr mac pw dw dh =
      Some {| x := x (bounds d) + width (bounds d) / 2 - dw / 2;
              y := y (bounds d) + height (bounds d) / 2 - dh / 2;
              width := dw; height := dh |}.
Proof.
  intros scr mac pw d dw dh Hd Hdeg.
  unfold getWindowPosition. rewrite Hd. unfold centerAndClamp.
  assert (E : Qltb 0 (width (bounds d)) && Qltb 0 (height (bounds d)) = false).
  { apply andb_false_iff. destruct Hdeg as [H|H]; [left|right]; apply Qltb_ge; exact H. }
  rewrite E. reflexivity.
Qed.

Lemma degenerate_display_is_not_clamped_witness :
  getWindowPosition (singleDisplay (rectZ 0 0 0 0)) false None 700 800 =
    Some {| x := 0 + 0 / 2 - 700 / 2; y := 0 + 0 / 2 - 800 / 2;
            width := 700; height := 800 |}.
Proof.
  apply (degenerate_display_is_not_clamped (singleDisplay (rectZ 0 0 0 0)) false None
           (mkDisplay (rectZ 0 0 0 0)) 700 800).
  - reflexivity.
  - left. cbn. discriminate.
Defined.

(** One axis of a request that fits: no branch of the clamp fires. *)
Lemma axis_fits (o len d : Q) :
  (0 < len)%Q -> (0 <= d)%Q -> (d <= len)%Q ->
  let c := (o + len / 2 - d / 2)%Q in
  let c1 := if Qltb c o then o else c in
  let c2 := if Qltb (o + len) c1 then o else c1 in
  let d1 := if Qltb len d then len else d in
  c2 = c /\ d1 = d.
Proof.
  intros Hlen Hd0 Hd c c1 c2 d1.
  pose proof (half_sum len) as Hl. pose proof (half_sum d) as Hh.
  assert (E1 : Qltb c o = false) by (apply Qltb_ge; subst c; lra).
  assert (E3 : Qltb len d = false) by (apply Qltb_ge; exact Hd).
  subst c2 c1 d1. rewrite E1.
  assert (E2 : Qltb (o + len) c = false) by (apply Qltb_ge; subst c; lra).
  rewrite E2, E3. split; reflexivity.
Qed.

(** X3: a request that fits the display keeps its size and is centred: none of
    the clamps of lines 480-502 changes it. *)
Theorem fitting_request_is_centred :
  forall b dw dh,
    (0 < width b)%Q -> (0 < height b)%Q ->
    (0 <= dw)%Q -> (dw <= width b)%Q -> (0 <= dh)%Q -> (dh <= height b)%Q ->
    centerAndClamp b dw dh =
      {| x := x b + width b / 2 - dw / 2; y := y b + height b / 2 - dh / 2;
         width := dw; height := dh |}.
Proof.
  intros b dw dh Hw Hh Hdw0 Hdw Hdh0 Hdh. unfold centerAndClamp.
  assert (Ew : Qltb 0 (width b) = true) by (apply Qltb_lt; exact Hw).
  assert (Eh : Qltb 0 (height b) = true) by (apply Qltb_lt; exact Hh).
  rewrite Ew, Eh. cbn [andb].
  destruct (axis_fits (x b) (width b) dw Hw Hdw0 Hdw) as (X1 & X2).
  destruct (axis_fits (y b) (height b) dh Hh Hdh0 Hdh) as (Y1 & Y2).
  cbv zeta in X1, X2, Y1, Y2. rewrite X1, X2, Y1, Y2. reflexivity.
Qed.

Lemma fitting_request_is_centred_witness :
  centerAndClamp (rectZ 0 0 1920 1080) 700 800 =
    {| x := 0 + 1920 / 2 - 700 / 2; y := 0 + 1080 / 2 - 800 / 2;
       width := 700; height := 800 |}.
Proof.
  apply (fitting_request_is_centred (rectZ 0 0 1920 1080) 700 800);
    cbn; unfold Qlt, Qle; cbn; lia.
Defined.

(** One axis of a request larger than the display. *)
Lemma axis_oversize (o len d : Q) :
  (0 < len)%Q -> (len < d)%Q ->
  let c := (o + len / 2 - d / 2)%Q in
  let c1 := if Qltb c o then o else c in
  let c2 := if Qltb (o + len) c1 then o else c1 in
  let d1 := if Qltb len d then len else d in
  c2 = o /\ d1 = len.
Proof.
  intros Hlen Hd c c1 c2 d1.
  pose proof (half_sum len) as Hl. pose proof (half_sum d) as Hh.
  assert (E1 : Qltb c o = true) by (apply Qltb_lt; subst c; lra).
  assert (E3 : Qltb len d = true) by (apply Qltb_lt; exact Hd).
  subst c2 c1 d1. rewrite E1.
  assert (E2 : Qltb (o + len) o = false) by (apply Qltb_ge; lra).
  rewrite E2, E3. split; reflexivity.
Qed.

(** X4: a request wider (taller) than the display is shrunk to the width
    (height) of the display and starts at the display's own origin on that
    axis. *)
Theorem oversize_request_fills_display :
  forall b dw dh,
    (0 < width b)%Q -> (0 < height b)%Q ->
    ((width b < dw)%Q ->
       x (centerAndClamp b dw dh) = x b /\ width (centerAndClamp b dw dh) = width b) /\
    ((height b < dh)%Q ->
       y (centerAndClamp b dw dh) = y b /\ height (centerAndClamp b dw dh) = height b).
Proof.
  intros b dw dh Hw Hh. unfold centerAndClamp.
  assert (Ew : Qltb 0 (width b) = true) by (apply Qltb_lt; exact Hw).
  assert (Eh : Qltb 0 (height b) = true) by (apply Qltb_lt; exact Hh).
  rewrite Ew, Eh. cbn [andb x y width height]. split.
  - intros H. apply (axis_oversize (x b) (width b) dw Hw H).
  - intros H. apply (axis_oversize (y b) (height b) dh Hh H).
Qed.

Lemma oversize_request_fills_display_witness :
  x (centerAndClamp (rectZ 10 20 640 480) 700 800) = 10%Q /\
  width (centerAndClamp (rectZ 10 20 640 480) 700 800) = 640%Q.
Proof.
  apply (oversize_request_fills_display (rectZ 10 20 640 480) 700 800);
    cbn; unfold Qlt; cbn; lia.
Defined.

End PlacementMore.

(** * Further properties of the sessions *)

Module SessionMore.
Import Placement Service Invariant More Examples SessionFacts InvariantFacts.

(** X5: without a focused window, opening an issue reporter or a process
    explorer declines silently: no window and no store are created and
    nothing is called; the parent reference of the role is overwritten with
    null. *)
Theorem open_declines_without_focus :
  forall k data s,
    slotOf k s = None ->
    focusedWindow s = None ->
    let s' := fst (openDiagnostic k data s) in
    snd (openDiagnostic k data s) = Ok tt /\
    slotOf k s' = None /\
    parentSlotOf k s' = None /\
    auxs s' = auxs s /\
    stores s' = stores s /\
    trace s' = trace s.
Proof.
  intros k data s Hs Hf. destruct k; cbn [openDiagnostic slotOf parentSlotOf] in *.
  - unfold openReporter. rewrite Hs.
    cbn [issueReporterParentWindow set_issueReporterParentWindow]. rewrite Hf.
    cbn [issueReporterWindow set_issueReporterParentWindow]. rewrite Hs.
    cbn [fst snd]. repeat split; assumption.
  - unfold openProcessExplorer. rewrite Hs.
    cbn [processExplorerParentWindow set_processExplorerParentWindow]. rewrite Hf.
    cbn [processExplorerWindow set_processExplorerParentWindow]. rewrite Hs.
    cbn [fst snd]. repeat split; assumption.
Qed.

Lemma open_declines_without_focus_witness :
  auxs (fst (openReporter someData (initial someEnv))) = [] /\
  trace (fst (openReporter someData (initial someEnv))) = [].
Proof.
  destruct (open_declines_without_focus Reporter someData (initial someEnv))
    as (_ & _ & _ & H4 & _ & H6); [reflexivity | reflexivity |].
  split; [exact H4 | exact H6].
Defined.

Lemma alter_snoc {A : Type} (f : A -> A) (l : list A) (a : A) :
  alter f (length l) (l ++ [a]) = l ++ [f a].
Proof.
  induction l as [|b l IH]; [reflexivity|]. cbn. f_equal. exact IH.
Qed.

(** The windows of a role after one more window was appended. *)
Lemma liveWindows_snoc role s s' aw :
  auxs s' = auxs s ++ [aw] ->
  aw_role aw = role -> aw_destroyed aw = false ->
  liveWindows role s' = liveWindows role s ++ [length (auxs s)].
Proof.
  intros Ha Hr Hd. unfold liveWindows. rewrite Ha, length_app. cbn [length].
  rewrite Nat.add_1_r, seq_S, List.filter_app. cbn [List.filter Nat.add].
  assert (E : isLive role s' (length (auxs s)) = true).
  { unfold isLive. rewrite Ha, lookup_snoc, Hr, Hd.
    destruct role; reflexivity. }
  rewrite E. f_equal.
  apply List.filter_ext_in. intros v Hv. apply List.in_seq in Hv.
  unfold isLive. rewrite Ha, lookup_app_l by lia. reflexivity.
Qed.

Lemma openReporter_first data s P position :
  issueReporterWindow s = None ->
  focusedWindow s = Some P ->
  windowPosition P 700 800 s = Some position ->
  let w := length (auxs s) in
  let d := length (stores s) in
  let s' := fst (openReporter data s) in
  snd (openReporter data s) = Ok tt /\
  issueReporterWindow s' = Some w /\
  issueReporterParentWindow s' = Some P /\
  (exists opts,
      auxs s' = auxs s ++ [mkAuxWin IssueReporter opts false false
                             [mkReg EClose false (ReporterClose d)]] /\
      o_x opts = Some (x position) /\ o_y opts = Some (y position) /\
      o_width opts = width position /\ o_height opts = height position) /\
  stores s' = stores s ++ [mkStore IssueReporter false] /\
  parentListeners s' P =
    (fun ls => ls ++ [mkReg EClosed false (ReporterParentClosed d)]) <$> parentListeners s P.
Proof.
  intros Hs Hf Hpos w d. unfold openReporter. rewrite Hs.
  cbn [issueReporterParentWindow set_issueReporterParentWindow]. rewrite Hf.
  unfold newDisposableStore.
  rewrite (windowPosition_frame P 700 800 s) by reflexivity. rewrite Hpos.
  unfold createBrowserWindow, newBrowserWindow.
  cbv beta iota zeta.
  cbn [issueReporterWindow set_issueReporterWindow log set_trace onAux onParent updAux
       updParent set_auxs set_parents fst snd].
  unfold parentListeners. views.
  split; [reflexivity|]. split; [reflexivity|]. split; [reflexivity|].
  split; [|split].
  - eexists. rewrite alter_snoc. split; [reflexivity|]. repeat split.
  - reflexivity.
  - rewrite list_lookup_alter. destruct (decide (P = P)); [|congruence].
    destruct (parents s !! P); reflexivity.
Qed.

Lemma openProcessExplorer_first data s P position :
  processExplorerWindow s = None ->
  focusedWindow s = Some P ->
  windowPosition P 800 500 s = Some position ->
  let w := length (auxs s) in
  let d := length (stores s) in
  let s' := fst (openProcessExplorer data s) in
  snd (openProcessExplorer data s) = Ok tt /\
  processExplorerWindow s' = Some w /\
  processExplorerParentWindow s' = Some P /\
  (exists opts,
      auxs s' = auxs s ++ [mkAuxWin ProcessExplorer opts false false
                             [mkReg EClose false (ExplorerClose d)]] /\
      o_x opts = Some (x position) /\ o_y opts = Some (y position) /\
      o_width opts = width position /\ o_height opts = height position) /\
  stores s' = stores s ++ [mkStore ProcessExplorer false] /\
  parentListeners s' P =
    (fun ls => ls ++ [mkReg EClose false (ExplorerParentClose d)]) <$> parentListeners s P.
Proof.
  intros Hs Hf Hpos w d. unfold openProcessExplorer. rewrite Hs.
  cbn [processExplorerParentWindow set_processExplorerParentWindow]. rewrite Hf.
  unfold newDisposableStore.
  rewrite (windowPosition_frame P 800 500 s) by reflexivity. rewrite Hpos.
  unfold createBrowserWindow, newBrowserWindow.
  cbv beta iota zeta.
  cbn [processExplorerWindow set_processExplorerWindow log set_trace onAux onParent updAux
       updParent set_auxs set_parents fst snd].
  unfold parentListeners. views.
  split; [reflexivity|]. split; [reflexivity|]. split; [reflexivity|].
  split; [|split].
  - eexists. rewrite alter_snoc. split; [reflexivity|]. repeat split.
  - reflexivity.
  - rewrite list_lookup_alter. destruct (decide (P = P)); [|congruence].
    destruct (parents s !! P); reflexivity.
Qed.

(** X6: in a reachable state with a focused window and no session of the
    role, opening creates exactly one window, of that role, neither
    minimized nor destroyed, with the geometry [getWindowPosition] computed
    for the role's default size; the session is live (its store is not
    disposed, window and parent carry the close listeners); and opening
    again creates nothing more. *)
Theorem first_open_creates_one_window :
  forall k data s P position,
    reachable s ->
    slotOf k s = None ->
    focusedWindow s = Some P ->
    windowPosition P (defaultWidth k) (defaultHeight k) s = Some position ->
    let w := length (auxs s) in
    let s' := fst (openDiagnostic k data s) in
    slotOf k s' = Some w /\
    length (auxs s') = S (length (auxs s)) /\
    (exists aw,
        auxs s' !! w = Some aw /\ aw_role aw = roleOf k /\
        aw_minimized aw = false /\ aw_destroyed aw = false /\
        o_x (aw_options aw) = Some (x position) /\
        o_y (aw_options aw) = Some (y position) /\
        o_width (aw_options aw) = width position /\
        o_height (aw_options aw) = height position) /\
    liveSession k w (length (stores s)) P s' /\
    liveWindows (roleOf k) s' = liveWindows (roleOf k) s ++ [w] /\
    (forall data', auxs (fst (openDiagnostic k data' s')) = auxs s').
Proof.
  intros k data s P position Hreach Hs Hf Hpos w s'.
  pose proof (Inv_reachable s Hreach) as I.
  pose proof (inv_focus s I P Hf) as HP.
  destruct (lookup_lt_is_Some_2 (parents s) P HP) as [pw Hpw].
  assert (Hpl : parentListeners s P = Some (pw_listeners pw)).
  { unfold parentListeners. rewrite Hpw. reflexivity. }
  assert (Hfacts :
            slotOf k s' = Some w /\ parentSlotOf k s' = Some P /\
            (exists opts,
                auxs s' = auxs s ++ [mkAuxWin (roleOf k) opts false false
                                       [mkReg EClose false (childListener k (length (stores s)))]] /\
                o_x opts = Some (x position) /\ o_y opts = Some (y position) /\
                o_width opts = width position /\ o_height opts = height position) /\
            stores s' = stores s ++ [mkStore (roleOf k) false] /\
            parentListeners s' P =
              Some (pw_listeners pw ++
                      [mkReg (parentEvent k) false (parentListener k (length (stores s)))])).
  { subst s' w. destruct k; cbn [openDiagnostic slotOf parentSlotOf defaultWidth defaultHeight
                                   roleOf childListener parentListener parentEvent] in *.
    - destruct (openReporter_first data s P position Hs Hf Hpos)
        as (_ & H2 & H3 & H4 & H5 & H6).
      rewrite Hpl in H6. repeat split; assumption.
    - destruct (openProcessExplorer_first data s P position Hs Hf Hpos)
        as (_ & H2 & H3 & H4 & H5 & H6).
      rewrite Hpl in H6. repeat split; assumption. }
  destruct Hfacts as (F1 & F2 & (opts & F3 & O1 & O2 & O3 & O4) & F4 & F5).
  clearbody s'. subst w. split; [exact F1|].
  split; [rewrite F3, length_app; cbn; lia|].
  split.
  { eexists. rewrite F3. split; [apply lookup_snoc|]. repeat split; assumption. }
  split.
  { unfold liveSession. split; [exact F1|]. split.
    - unfold auxListeners. rewrite F3. rewrite lookup_snoc. reflexivity.
    - split; [rewrite F4; apply lookup_snoc|]. split; [exact F2|].
      eexists. split; [exact F5|]. apply List.in_or_app. right. left. reflexivity. }
  split.
  { apply (liveWindows_snoc (roleOf k) s s' _ F3); reflexivity. }
  intros data'. rewrite (openDiagnostic_live k data' _ s' F1). cbn [fst]. unfold focus. fields. reflexivity.
Qed.


Lemma first_open_creates_one_window_witness :
  slotOf Reporter (fst (openDiagnostic Reporter someData workbenchFocused))
  = Some (length (auxs workbenchFocused)) /\
  liveWindows IssueReporter (fst (openDiagnostic Reporter someData workbenchFocused))
  = liveWindows IssueReporter workbenchFocused ++ [length (auxs workbenchFocused)].
Proof.
  destruct (first_open_creates_one_window Reporter someData workbenchFocused 0%nat
              {| x := 2440 # 4; y := 560 # 4; width := 700; height := 800 |})
    as (H1 & _ & _ & _ & H5 & _).
  - exists someEnv, [ParentOpened (rectZ 100 100 1200 800); FocusChanged (Some 0%nat)].
    reflexivity.
  - vm_compute. reflexivity.
  - vm_compute. reflexivity.
  - vm_compute. reflexivity.
  - split; [exact H1 | exact H5].
Defined.


(** *** Bridge requests that create nothing *)

Lemma noLiveBridge_test s ps :
  noLiveBridge s ->
  match _browserWindow (set_promises ps s) with
  | Some w => if isDestroyed w (set_promises ps s) then None else Some w
  | None => None
  end = None.
Proof.
  unfold noLiveBridge, isDestroyed. fields.
  destruct (_browserWindow s) as [w|]; [|reflexivity].
  intros H. rewrite H. reflexivity.
Qed.

Lemma reject_new p reason (s : State) ps :
  p = length ps ->
  promises s = ps ++ [Pending] ->
  reject p reason s =
  log (Settle p (Rejected reason)) (set_promises (ps ++ [Rejected reason]) s).
Proof.
  intros -> Hp. unfold reject. rewrite settle_pending.
  - rewrite Hp, insert_snoc. reflexivity.
  - rewrite Hp. apply lookup_snoc.
Qed.

(** X7: a bridge request with no argument list, or with an empty one, made
    while no bridge window is alive, is rejected without a reason; no window
    is created, no listener is registered and the parent reference is left as
    it was. *)
Theorem bridge_request_without_arguments_rejected :
  forall args s,
    noLiveBridge s ->
    args = None \/ args = Some [] ->
    let p := fst (openBrowserWindow args s) in
    let s' := snd (openBrowserWindow args s) in
    p = length (promises s) /\
    promises s' = promises s ++ [Rejected None] /\
    trace s' = trace s ++ [Settle p (Rejected None)] /\
    auxs s' = auxs s /\
    _browserWindow s' = _browserWindow s /\
    _browserParentWindow s' = _browserParentWindow s /\
    ipcListeners s' = ipcListeners s /\
    parents s' = parents s.
Proof.
  intros args s Hlive Hargs p s'.
  assert (E : openBrowserWindow args s =
              (length (promises s),
               log (Settle (length (promises s)) (Rejected None))
                 (set_promises (promises s ++ [Rejected None]) s))).
  { unfold openBrowserWindow, newPromise.
    rewrite (noLiveBridge_test s _ Hlive).
    rewrite (reject_new (length (promises s)) None _ (promises s)) by reflexivity.
    destruct Hargs as [-> | ->]; reflexivity. }
  subst p s'. rewrite E. cbn [fst snd]. unfold log. fields. repeat split.
Qed.

Lemma bridge_request_without_arguments_rejected_witness :
  promises (snd (openBrowserWindow (Some []) workbenchFocused))
  = promises workbenchFocused ++ [Rejected None] /\
  auxs (snd (openBrowserWindow (Some []) workbenchFocused)) = auxs workbenchFocused.
Proof.
  destruct (bridge_request_without_arguments_rejected (Some []) workbenchFocused)
    as (_ & H2 & _ & H4 & _).
  - vm_compute. exact Logic.I.
  - right. reflexivity.
  - split; [exact H2 | exact H4].
Defined.

(** X8: a bridge request made while no window of the application is focused
    creates nothing and settles nothing: the promise it returns is left
    pending with no listener or timer that could settle it, the bridge parent
    reference is overwritten with null, and nothing is called. *)
Theorem bridge_request_without_focus_stays_pending :
  forall cfg rest s,
    _browserWindow s = None ->
    focusedWindow s = None ->
    let p := fst (openBrowserWindow (Some (cfg :: rest)) s) in
    let s' := snd (openBrowserWindow (Some (cfg :: rest)) s) in
    p = length (promises s) /\
    promises s' = promises s ++ [Pending] /\
    trace s' = trace s /\
    auxs s' = auxs s /\
    parents s' = parents s /\
    ipcListeners s' = ipcListeners s /\
    timers s' = timers s /\
    _browserWindow s' = None /\
    _browserParentWindow s' = None.
Proof.
  intros cfg rest s Hslot Hfocus p s'.
  assert (E : openBrowserWindow (Some (cfg :: rest)) s =
              (length (promises s),
               set_browserParentWindow None (set_promises (promises s ++ [Pending]) s))).
  { unfold openBrowserWindow, newPromise. fields. rewrite Hslot.
    unfold createBridgeWindow. fields. rewrite Hfocus. fields. rewrite Hslot.
    reflexivity. }
  subst p s'. rewrite E. cbn [fst snd]. fields. repeat split. exact Hslot.
Qed.

Lemma bridge_request_without_focus_stays_pending_witness :
  promises (snd (openBrowserWindow (Some [loginConfig]) (initial someEnv))) = [] ++ [Pending] /\
  trace (snd (openBrowserWindow (Some [loginConfig]) (initial someEnv))) = [].
Proof.
  destruct (bridge_request_without_focus_stays_pending loginConfig [] (initial someEnv))
    as (_ & H2 & H3 & _); [reflexivity | reflexivity |].
  split; [exact H2 | exact H3].
Defined.

(** X9: a bridge request whose configuration carries no [data] fails while
    the constructor options are evaluated: the promise is rejected with the
    type error, no window is created and no listener is registered, but the
    bridge parent reference has already been set to the focused window. *)
Theorem bridge_request_without_data_rejected :
  forall cfg rest s P position,
    _browserWindow s = None ->
    focusedWindow s = Some P ->
    windowPosition P 700 800 s = Some position ->
    cfg_data cfg = None ->
    let p := fst (openBrowserWindow (Some (cfg :: rest)) s) in
    let s' := snd (openBrowserWindow (Some (cfg :: rest)) s) in
    p = length (promises s) /\
    promises s' = promises s ++ [Rejected (Some typeError)] /\
    trace s' = trace s ++ [Settle p (Rejected (Some typeError))] /\
    auxs s' = auxs s /\
    parents s' = parents s /\
    ipcListeners s' = ipcListeners s /\
    _browserWindow s' = None /\
    _browserParentWindow s' = Some P.
Proof.
  intros cfg rest s P position Hslot Hfocus Hpos Hdata p s'.
  assert (E : openBrowserWindow (Some (cfg :: rest)) s =
              (length (promises s),
               log (Settle (length (promises s)) (Rejected (Some typeError)))
                 (set_promises (promises s ++ [Rejected (Some typeError)])
                    (set_browserParentWindow (Some P)
                       (set_promises (promises s ++ [Pending]) s))))).
  { unfold openBrowserWindow, newPromise. fields. rewrite Hslot.
    unfold createBridgeWindow. fields. rewrite Hfocus.
    rewrite (windowPosition_frame P 700 800 s) by reflexivity.
    rewrite Hpos, Hdata.
    rewrite (reject_new (length (promises s)) (Some typeError) _ (promises s))
      by reflexivity.
    reflexivity. }
  subst p s'. rewrite E. cbn [fst snd]. unfold log. fields. repeat split. exact Hslot.
Qed.

Lemma bridge_request_without_data_rejected_witness :
  promises (snd (openBrowserWindow
                   (Some [mkBridgeConfig None None None None None "about:blank" "login" []])
                   workbenchFocused))
  = promises workbenchFocused ++ [Rejected (Some typeError)] /\
  auxs (snd (openBrowserWindow
               (Some [mkBridgeConfig None None None None None "about:blank" "login" []])
               workbenchFocused))
  = auxs workbenchFocused.
Proof.
  destruct (bridge_request_without_data_rejected
              (mkBridgeConfig None None None None None "about:blank" "login" []) []
              workbenchFocused 0%nat
              {| x := 2440 # 4; y := 560 # 4; width := 700; height := 800 |})
    as (_ & H2 & _ & H4 & _).
  - reflexivity.
  - reflexivity.
  - vm_compute. reflexivity.
  - reflexivity.
  - split; [exact H2 | exact H4].
Defined.


(** *** The life of a bridge session *)

Lemma registerEventPairs_auxListeners w winId p pairs s :
  auxListeners (registerEventPairs w winId p pairs s) w =
  (fun ls => ls ++ closedListeners p pairs) <$> auxListeners s w.
Proof.
  revert s. induction pairs as [|ev pairs IH]; intros s.
  - cbn [registerEventPairs foldl closedListeners List.filter map].
    destruct (auxListeners s w) as [ls|]; cbn; [rewrite app_nil_r|]; reflexivity.
  - cbn [registerEventPairs foldl]. unfold closedListeners. cbn [List.filter].
    unfold usable at 1.
    destruct (String.eqb (channel ev) "" || String.eqb (command ev) ""); cbn [negb].
    + apply IH.
    + unfold registerEventPairs in IH. rewrite IH. rewrite auxListeners_onAux.
      destruct (decide (w = w)) as [_|Hne]; [|congruence].
      replace (auxListeners (ipcOn (channel ev) (BridgeChannel winId (command ev) p)
                               (removeAllListeners (channel ev) s)) w)
        with (auxListeners s w) by reflexivity.
      destruct (auxListeners s w) as [ls|]; cbn [fmap option_fmap option_map map];
        [|reflexivity].
      rewrite <- app_assoc. reflexivity.
Qed.

Lemma registerEventPairs_timers w winId p pairs s :
  timers (registerEventPairs w winId p pairs s) = timers s.
Proof.
  revert s. induction pairs as [|ev pairs IH]; intros s; [reflexivity|].
  cbn [registerEventPairs foldl].
  destruct (String.eqb (channel ev) "" || String.eqb (command ev) ""); [apply IH|].
  unfold registerEventPairs in IH. rewrite IH. reflexivity.
Qed.

Lemma installBridgeListeners_timers w P p cfg data s :
  timers (installBridgeListeners w P p cfg data s) = timers s.
Proof.
  unfold installBridgeListeners, onParent. fields.
  destruct (events cfg) as [|ev pairs]; [reflexivity|].
  rewrite registerEventPairs_timers. reflexivity.
Qed.

Lemma installBridgeListeners_auxListeners w P p cfg data s :
  auxListeners (installBridgeListeners w P p cfg data s) w =
  (fun ls => ls ++ bridgeListeners p cfg data) <$> auxListeners s w.
Proof.
  unfold installBridgeListeners, bridgeListeners. rewrite auxListeners_onParent.
  destruct (events cfg) as [|ev pairs].
  - rewrite !auxListeners_onAux. destruct (decide (w = w)) as [_|Hne]; [|congruence].
    destruct (auxListeners s w) as [ls|]; cbn [fmap option_fmap option_map];
      [|reflexivity].
    rewrite <- !app_assoc. reflexivity.
  - rewrite registerEventPairs_auxListeners, !auxListeners_onAux.
    destruct (decide (w = w)) as [_|Hne]; [|congruence].
    destruct (auxListeners s w) as [ls|]; cbn [fmap option_fmap option_map];
      [|reflexivity].
    rewrite <- !app_assoc. reflexivity.
Qed.

Lemma isDestroyed_onAux w e o l s v : isDestroyed v (onAux w e o l s) = isDestroyed v s.
Proof.
  unfold isDestroyed, onAux, updAux. fields. rewrite list_lookup_alter.
  destruct (decide (w = v)) as [->|]; [|reflexivity].
  destruct (auxs s !! v); reflexivity.
Qed.

Lemma isDestroyed_onParent P e l s v : isDestroyed v (onParent P e l s) = isDestroyed v s.
Proof. reflexivity. Qed.

Lemma isDestroyed_registerEventPairs w winId p pairs s v :
  isDestroyed v (registerEventPairs w winId p pairs s) = isDestroyed v s.
Proof.
  revert s. induction pairs as [|ev pairs IH]; intros s; [reflexivity|].
  cbn [registerEventPairs foldl].
  destruct (String.eqb (channel ev) "" || String.eqb (command ev) ""); [apply IH|].
  unfold registerEventPairs in IH. rewrite IH, isDestroyed_onAux. reflexivity.
Qed.

Lemma isDestroyed_installBridgeListeners w P p cfg data s v :
  isDestroyed v (installBridgeListeners w P p cfg data s) = isDestroyed v s.
Proof.
  unfold installBridgeListeners.
  rewrite isDestroyed_onParent.
  destruct (events cfg) as [|ev pairs].
  - rewrite !isDestroyed_onAux. reflexivity.
  - rewrite isDestroyed_registerEventPairs, !isDestroyed_onAux. reflexivity.
Qed.

(** The state a first bridge request leaves: one pending promise more, the
    new window in the slot with the listeners of [bridgeListeners], the
    focused window as its parent. *)
Lemma bridge_created cfg rest s P position data :
  _browserWindow s = None ->
  focusedWindow s = Some P ->
  windowPosition P 700 800 s = Some position ->
  cfg_data cfg = Some data ->
  let p := length (promises s) in
  let w := length (auxs s) in
  let s1 := snd (openBrowserWindow (Some (cfg :: rest)) s) in
  fst (openBrowserWindow (Some (cfg :: rest)) s) = p /\
  promises s1 = promises s ++ [Pending] /\
  _browserWindow s1 = Some w /\
  _browserParentWindow s1 = Some P /\
  timers s1 = timers s /\
  auxListeners s1 w = Some (bridgeListeners p cfg data) /\
  isDestroyed w s1 = false.
Proof.
  intros Hslot Hfocus Hpos Hdata p w s1. subst s1.
  rewrite (openBrowserWindow_creates cfg rest s P position data) by assumption.
  cbn [fst snd]. fold p w.
  set (base := startBridgeWindow w cfg _).
  destruct (installBridgeListeners_frame w P p cfg data base) as (Fp & Fparent & Fslot).
  pose proof (installBridgeListeners_timers w P p cfg data base) as Ft.
  pose proof (installBridgeListeners_auxListeners w P p cfg data base) as Fl.
  assert (Hbase : auxListeners base w = Some []).
  { subst base w. unfold startBridgeWindow, newBrowserWindow. cbn [snd]. views.
    rewrite lookup_snoc. reflexivity. }
  rewrite Hbase in Fl. cbn [fmap option_fmap option_map app] in Fl.
  split; [reflexivity|].
  split; [unfold focus; fields; rewrite Fp; reflexivity|].
  split; [unfold focus; fields; rewrite Fslot; reflexivity|].
  split; [unfold focus; fields; rewrite Fparent; reflexivity|].
  split; [unfold focus; fields; rewrite Ft; reflexivity|].
  split; [exact Fl|].
  replace (isDestroyed w (focus w (installBridgeListeners w P p cfg data base)))
    with (isDestroyed w (installBridgeListeners w P p cfg data base)) by reflexivity.
  rewrite isDestroyed_installBridgeListeners.
  subst base w. unfold isDestroyed, startBridgeWindow, newBrowserWindow. cbn [snd]. views.
  rewrite lookup_snoc. reflexivity.
Qed.


Lemma emitAux_eq e w s aw :
  auxs s !! w = Some aw ->
  emitAux e w s =
  foldl (fun s r => runAuxListener (reg_listener r) s)
    (updAux w
       (set_aw_listeners
          (List.filter (fun r => negb (listensTo e r && reg_once r)) (aw_listeners aw))) s)
    (List.filter (listensTo e) (aw_listeners aw)).
Proof. intros H. unfold emitAux. rewrite H. reflexivity. Qed.

Lemma closedListeners_channels p pairs :
  closedListeners p pairs =
  map (fun ch => mkReg EClosed false (BrowserClosedChannel ch p))
      (map channel (List.filter usable pairs)).
Proof. unfold closedListeners. rewrite map_map. reflexivity. Qed.

Lemma filter_closedListeners e p pairs :
  List.filter (listensTo e) (closedListeners p pairs) =
  if WinEvent_eqb EClosed e then closedListeners p pairs else [].
Proof.
  unfold closedListeners.
  induction (List.filter usable pairs) as [|ev l IH]; cbn [map List.filter].
  - destruct (WinEvent_eqb EClosed e); reflexivity.
  - unfold listensTo at 1. cbn [reg_event]. rewrite IH.
    destruct (WinEvent_eqb EClosed e); reflexivity.
Qed.

(** The listeners of a bridge window that run when it emits ['closed']. *)
Lemma bridgeListeners_closed p cfg data :
  List.filter (listensTo EClosed) (bridgeListeners p cfg data) =
  match events cfg with
  | [] => [mkReg EClosed false (BrowserClosed p)]
  | _ :: _ => closedListeners p (events cfg)
  end.
Proof.
  unfold bridgeListeners. rewrite List.filter_app.
  destruct (events cfg) as [|ev pairs]; [reflexivity|].
  rewrite filter_closedListeners. reflexivity.
Qed.

Lemma bridgeListeners_ready p cfg data :
  List.filter (listensTo EReadyToShow) (bridgeListeners p cfg data) =
  [mkReg EReadyToShow true (BrowserReadyToShow (winId cfg) p)].
Proof.
  unfold bridgeListeners. rewrite List.filter_app.
  destruct (events cfg) as [|ev pairs]; [reflexivity|].
  rewrite filter_closedListeners. reflexivity.
Qed.

Lemma reject_fields p r s :
  _browserWindow (reject p r s) = _browserWindow s /\
  _browserParentWindow (reject p r s) = _browserParentWindow s /\
  ipcListeners (reject p r s) = ipcListeners s /\
  auxs (reject p r s) = auxs s /\
  timers (reject p r s) = timers s.
Proof.
  unfold reject, settle. destruct (promises s !! p) as [[| |]|]; repeat split.
Qed.

Lemma reject_outcome p r s :
  promises s !! p = Some Pending \/ promises s !! p = Some (Rejected r) ->
  promises (reject p r s) !! p = Some (Rejected r).
Proof.
  intros [H|H]; unfold reject.
  - rewrite settle_pending by exact H. fields.
    apply list_lookup_insert_eq. apply lookup_lt_Some in H. exact H.
  - rewrite settle_settled by congruence. exact H.
Qed.

(** Running the ['closed'] listeners of the usable pairs, on the channels
    [chs]: the slot is cleared, the promise rejected, and every listener on
    one of the channels removed. *)
Lemma closed_fold p chs s :
  let F :=
    foldl (fun s r => runAuxListener (reg_listener r) s) s
      (map (fun ch => mkReg EClosed false (BrowserClosedChannel ch p)) chs) in
  auxs F = auxs s /\
  (chs <> [] \/ _browserWindow s = None -> _browserWindow F = None) /\
  (chs <> [] /\ promises s !! p = Some Pending \/ promises s !! p = Some (Rejected None) ->
   promises F !! p = Some (Rejected None)) /\
  (forall cl, In cl (ipcListeners F) -> In cl (ipcListeners s) /\ ~ In (fst cl) chs).
Proof.
  revert s. induction chs as [|ch chs IH]; intros s F.
  - subst F. cbn [map foldl]. split; [reflexivity|].
    split; [intros [H|H]; [congruence | exact H]|].
    split; [intros [[H _]|H]; [congruence | exact H]|].
    intros cl Hcl. split; [exact Hcl | intros []].
  - subst F. cbn [map foldl reg_listener runAuxListener].
    set (s1 := reject p None (set_browserWindow None (removeAllListeners ch s))).
    destruct (reject_fields p None (set_browserWindow None (removeAllListeners ch s)))
      as (R1 & _ & R3 & R4 & _).
    fold s1 in R1, R3, R4.
    destruct (IH s1) as (I1 & I2 & I3 & I4).
    split; [rewrite I1, R4; reflexivity|].
    split; [intros _; apply I2; right; rewrite R1; reflexivity|].
    split.
    + intros H. apply I3. right. subst s1. apply reject_outcome.
      destruct H as [[_ H]|H]; [left | right]; exact H.
    + intros cl Hcl. destruct (I4 cl Hcl) as [Hin Hnot].
      rewrite R3 in Hin. unfold removeAllListeners in Hin. fields.
      cbn [ipcListeners set_browserWindow log set_trace set_ipcListeners] in Hin.
      apply List.filter_In in Hin. destruct Hin as [Hin Hne].
      split; [exact Hin|].
      intros [Heq|Hrest]; [|exact (Hnot Hrest)].
      subst ch. rewrite String.eqb_refl in Hne. discriminate.
Qed.

Lemma filter_onChannel_nil ch (ls : list (string * IpcListener)) :
  (forall cl, In cl ls -> fst cl <> ch) -> List.filter (onChannel ch) ls = [].
Proof.
  induction ls as [|cl ls IH]; intros H; [reflexivity|].
  cbn [List.filter]. unfold onChannel at 1.
  destruct (String.eqb (fst cl) ch) eqn:E.
  - apply String.eqb_eq in E. exfalso. exact (H cl (or_introl eq_refl) E).
  - apply IH. intros c Hc. apply H. right. exact Hc.
Qed.

(** X10: when the bridge window is closed, the session ends.  Whenever the
    request configured no event pairs, or at least one usable pair, the
    ['closed'] event of the window clears the slot, rejects the pending
    promise without a reason, and leaves no [ipcMain] listener on the channel
    of any usable pair. *)
Theorem bridge_closed_ends_session :
  forall s cfg rest P position data,
    _browserWindow s = None ->
    focusedWindow s = Some P ->
    windowPosition P 700 800 s = Some position ->
    cfg_data cfg = Some data ->
    events cfg = [] \/ (exists ev, In ev (events cfg) /\ usable ev = true) ->
    let p := fst (openBrowserWindow (Some (cfg :: rest)) s) in
    let s1 := snd (openBrowserWindow (Some (cfg :: rest)) s) in
    let w := length (auxs s) in
    let s2 := step (AuxEmits w EClosed) s1 in
    _browserWindow s1 = Some w /\
    promises s1 !! p = Some Pending /\
    _browserWindow s2 = None /\
    promises s2 !! p = Some (Rejected None) /\
    (forall ev, In ev (events cfg) -> usable ev = true ->
       List.filter (onChannel (channel ev)) (ipcListeners s2) = []).
Proof.
  intros s cfg rest P position data Hslot Hfocus Hpos Hdata Hev p s1 w s2.
  destruct (bridge_created cfg rest s P position data Hslot Hfocus Hpos Hdata)
    as (Bp & Bpr & Bw & _ & _ & Bl & _).
  fold s1 in Bpr, Bw, Bl. fold w in Bw, Bl.
  subst p. rewrite Bp. set (p := length (promises s)) in *.
  assert (Hp : promises s1 !! p = Some Pending).
  { rewrite Bpr. apply lookup_snoc. }
  split; [exact Bw|]. split; [exact Hp|].
  clearbody s1 p. clear Bp Bpr.
  unfold auxListeners in Bl.
  destruct (auxs s1 !! w) as [aw|] eqn:Haw; [|discriminate].
  cbn [fmap option_fmap option_map] in Bl. injection Bl as Bl.
  subst s2. cbn [step auxEmits].
  set (s1' := updAux w (set_aw_destroyed true) s1).
  assert (Haw' : auxs s1' !! w = Some (set_aw_destroyed true aw)).
  { subst s1'. unfold updAux. fields. rewrite list_lookup_alter.
    destruct (decide (w = w)); [|congruence]. rewrite Haw. reflexivity. }
  rewrite (emitAux_eq EClosed w s1' _ Haw').
  cbn [aw_listeners set_aw_destroyed]. rewrite Bl, bridgeListeners_closed.
  set (s1'' := updAux w _ s1').
  assert (Fw : _browserWindow s1'' = Some w) by exact Bw.
  assert (Fp : promises s1'' !! p = Some Pending) by exact Hp.
  clearbody s1''.
  destruct (events cfg) as [|ev0 pairs] eqn:E.
  - cbn [foldl reg_listener runAuxListener].
    destruct (reject_fields p None (set_browserWindow None s1'')) as (R1 & _).
    split; [rewrite R1; reflexivity|].
    split; [apply reject_outcome; left; exact Fp|].
    intros ev [].
  - rewrite closedListeners_channels.
    destruct (closed_fold p (map channel (List.filter usable (ev0 :: pairs))) s1'')
      as (_ & C2 & C3 & C4).
    assert (Hne : map channel (List.filter usable (ev0 :: pairs)) <> []).
    { destruct Hev as [Hev|(ev & Hin & Hu)]; [discriminate|].
      intros Hnil. apply map_eq_nil in Hnil.
      assert (Hin' : In ev (List.filter usable (ev0 :: pairs))).
      { apply List.filter_In. split; assumption. }
      rewrite Hnil in Hin'. exact Hin'. }
    split; [apply C2; left; exact Hne|].
    split; [apply C3; left; split; [exact Hne | exact Fp]|].
    intros ev Hin Hu. apply filter_onChannel_nil.
    intros cl Hcl Heq. destruct (C4 cl Hcl) as [_ Hnot]. apply Hnot.
    rewrite Heq. apply List.in_map. apply List.filter_In. split; assumption.
Qed.

Lemma bridge_closed_ends_session_witness :
  _browserWindow
    (step (AuxEmits (length (auxs workbenchFocused)) EClosed)
       (snd (openBrowserWindow (Some [certificateConfig]) workbenchFocused))) = None.
Proof.
  destruct (bridge_closed_ends_session workbenchFocused certificateConfig [] 0%nat
              {| x := 2440 # 4; y := 560 # 4; width := 700; height := 800 |}
              (mkBridgeData "Default Dark+" "{}"))
    as (_ & _ & H3 & _).
  - reflexivity.
  - reflexivity.
  - vm_compute. reflexivity.
  - reflexivity.
  - right. exists (mkEventPair "cert-ready" "certificate").
    split; [left; reflexivity | reflexivity].
  - exact H3.
Defined.

Lemma stale_bridge_blocks_creation args s w :
  _browserWindow s = Some w ->
  isDestroyed w s = true ->
  auxs (snd (openBrowserWindow args s)) = auxs s.
Proof.
  intros Hw Hd. unfold openBrowserWindow, newPromise. fields. rewrite Hw.
  replace (isDestroyed w (set_promises (promises s ++ [Pending]) s))
    with (isDestroyed w s) by reflexivity.
  rewrite Hd.
  destruct args as [[|c r]|]; cbn [snd].
  - destruct (reject_fields (length (promises s)) None
                (set_promises (promises s ++ [Pending]) s)) as (_ & _ & _ & R4 & _).
    rewrite R4. reflexivity.
  - fields. rewrite Hw. reflexivity.
  - destruct (reject_fields (length (promises s)) None
                (set_promises (promises s ++ [Pending]) s)) as (_ & _ & _ & R4 & _).
    rewrite R4. reflexivity.
Qed.

Lemma filter_usable_nil pairs :
  Forall (fun ev => usable ev = false) pairs -> List.filter usable pairs = [].
Proof.
  induction 1 as [|ev pairs Hev _ IH]; [reflexivity|].
  cbn [List.filter]. rewrite Hev. exact IH.
Qed.

(** X11: a request whose event pairs are all unusable (each lacks a channel
    or a command) registers no ['closed'] listener at all.  When its window
    is closed, nothing runs: the slot keeps the destroyed window and the
    promise stays pending; and since the slot is not empty, the next request
    creates no window, whatever its arguments. *)
Theorem unusable_pairs_leave_stale_bridge :
  forall s cfg rest P position data,
    _browserWindow s = None ->
    focusedWindow s = Some P ->
    windowPosition P 700 800 s = Some position ->
    cfg_data cfg = Some data ->
    events cfg <> [] ->
    Forall (fun ev => usable ev = false) (events cfg) ->
    let p := fst (openBrowserWindow (Some (cfg :: rest)) s) in
    let s1 := snd (openBrowserWindow (Some (cfg :: rest)) s) in
    let w := length (auxs s) in
    let s2 := step (AuxEmits w EClosed) s1 in
    _browserWindow s2 = Some w /\
    isDestroyed w s2 = true /\
    promises s2 !! p = Some Pending /\
    trace s2 = trace s1 /\
    (forall args, auxs (snd (openBrowserWindow args s2)) = auxs s2).
Proof.
  intros s cfg rest P position data Hslot Hfocus Hpos Hdata Hne Hun p s1 w s2.
  destruct (bridge_created cfg rest s P position data Hslot Hfocus Hpos Hdata)
    as (Bp & Bpr & Bw & _ & _ & Bl & _).
  fold s1 in Bpr, Bw, Bl. fold w in Bw, Bl.
  subst p. rewrite Bp. set (p := length (promises s)) in *.
  assert (Hp : promises s1 !! p = Some Pending).
  { rewrite Bpr. apply lookup_snoc. }
  clearbody s1 p. clear Bp Bpr.
  unfold auxListeners in Bl.
  destruct (auxs s1 !! w) as [aw|] eqn:Haw; [|discriminate].
  cbn [fmap option_fmap option_map] in Bl. injection Bl as Bl.
  assert (E : s2 =
              updAux w
                (set_aw_listeners
                   (List.filter (fun r => negb (listensTo EClosed r && reg_once r))
                      (bridgeListeners p cfg data)))
                (updAux w (set_aw_destroyed true) s1)).
  { subst s2. cbn [step auxEmits].
    assert (Haw' : auxs (updAux w (set_aw_destroyed true) s1) !! w
                   = Some (set_aw_destroyed true aw)).
    { unfold updAux. fields. rewrite list_lookup_alter.
      destruct (decide (w = w)); [|congruence]. rewrite Haw. reflexivity. }
    rewrite (emitAux_eq EClosed w _ _ Haw').
    cbn [aw_listeners set_aw_destroyed]. rewrite Bl, bridgeListeners_closed.
    destruct (events cfg) as [|ev0 pairs]; [congruence|].
    unfold closedListeners. rewrite (filter_usable_nil _ Hun). reflexivity. }
  clearbody s2. subst s2.
  assert (Hd : isDestroyed w
                 (updAux w
                    (set_aw_listeners
                       (List.filter (fun r => negb (listensTo EClosed r && reg_once r))
                          (bridgeListeners p cfg data)))
                    (updAux w (set_aw_destroyed true) s1)) = true).
  { unfold isDestroyed, updAux. fields. rewrite !list_lookup_alter.
    destruct (decide (w = w)); [|congruence]. rewrite Haw. reflexivity. }
  split; [exact Bw|]. split; [exact Hd|]. split; [exact Hp|]. split; [reflexivity|].
  intros args. apply (stale_bridge_blocks_creation args _ w); [exact Bw | exact Hd].
Qed.

Lemma unusable_pairs_leave_stale_bridge_witness :
  _browserWindow
    (step (AuxEmits (length (auxs workbenchFocused)) EClosed)
       (snd (openBrowserWindow
               (Some [mkBridgeConfig None None (Some (mkBridgeData "Default Dark+" "{}"))
                        None None "about:blank" "login" [mkEventPair "" "refresh"]])
               workbenchFocused)))
  = Some (length (auxs workbenchFocused)).
Proof.
  destruct (unusable_pairs_leave_stale_bridge workbenchFocused
              (mkBridgeConfig None None (Some (mkBridgeData "Default Dark+" "{}"))
                 None None "about:blank" "login" [mkEventPair "" "refresh"])
              [] 0%nat
              {| x := 2440 # 4; y := 560 # 4; width := 700; height := 800 |}
              (mkBridgeData "Default Dark+" "{}"))
    as (H1 & _).
  - reflexivity.
  - reflexivity.
  - vm_compute. reflexivity.
  - reflexivity.
  - discriminate.
  - constructor; [reflexivity | constructor].
  - exact H1.
Defined.


Lemma delete_snoc {A : Type} (l : list A) (a : A) : delete (length l) (l ++ [a]) = l.
Proof. induction l as [|b l IH]; [reflexivity|]. cbn. f_equal. exact IH. Qed.

Lemma filter_once_free {L : Type} (e : WinEvent) (ls : list (Registration L)) :
  Forall (fun r => reg_once r = false) ls ->
  List.filter (fun r => negb (listensTo e r && reg_once r)) ls = ls.
Proof.
  induction 1 as [|r ls Hr _ IH]; [reflexivity|].
  cbn [List.filter]. rewrite Hr, andb_false_r. cbn [negb]. f_equal. exact IH.
Qed.

Lemma closedListeners_once p pairs :
  Forall (fun r => reg_once r = false) (closedListeners p pairs).
Proof.
  unfold closedListeners. induction (List.filter usable pairs); constructor;
    [reflexivity | assumption].
Qed.

(** What a bridge window still carries after its first ['ready-to-show']. *)
Lemma bridgeListeners_after_ready p cfg data :
  List.filter (fun r => negb (listensTo EReadyToShow r && reg_once r))
    (bridgeListeners p cfg data) = tail (bridgeListeners p cfg data).
Proof.
  unfold bridgeListeners. cbn [app List.filter listensTo reg_event reg_once WinEvent_eqb
                               andb negb tail].
  f_equal. apply filter_once_free.
  destruct (events cfg); [repeat constructor | apply closedListeners_once].
Qed.

Lemma tail_bridgeListeners_ready p cfg data :
  List.filter (listensTo EReadyToShow) (tail (bridgeListeners p cfg data)) = [].
Proof.
  unfold bridgeListeners. cbn [app tail List.filter listensTo reg_event WinEvent_eqb].
  destruct (events cfg); [reflexivity|]. apply filter_closedListeners.
Qed.

(** X12: the ['ready-to-show'] event of a new bridge window shows it, puts
    it on top and starts one timer; the listener is used once, so a second
    event starts nothing.  When the timer fires the window leaves the top,
    and the promise is fulfilled if, and only if, the request's [winId] is
    'addEmulator'. *)
Theorem ready_to_show_settles_only_addEmulator :
  forall s cfg rest P position data,
    _browserWindow s = None ->
    focusedWindow s = Some P ->
    windowPosition P 700 800 s = Some position ->
    cfg_data cfg = Some data ->
    let p := fst (openBrowserWindow (Some (cfg :: rest)) s) in
    let s1 := snd (openBrowserWindow (Some (cfg :: rest)) s) in
    let w := length (auxs s) in
    let s2 := step (AuxEmits w EReadyToShow) s1 in
    let s3 := step (TimerFires (length (timers s))) s2 in
    trace s2 = trace s1 ++ [Show w; SetAlwaysOnTop w true; SetTimeout 100] /\
    timers s2 = timers s ++ [AlwaysOnTopOff (winId cfg) p] /\
    promises s2 !! p = Some Pending /\
    (trace (step (AuxEmits w EReadyToShow) s2) = trace s2 /\
     timers (step (AuxEmits w EReadyToShow) s2) = timers s2) /\
    timers s3 = timers s /\
    (winId cfg = "addEmulator" ->
       promises s3 !! p = Some (Fulfilled None) /\
       trace s3 = trace s2 ++ [SetAlwaysOnTop w false; Settle p (Fulfilled None)]) /\
    (winId cfg <> "addEmulator" ->
       promises s3 !! p = Some Pending /\
       trace s3 = trace s2 ++ [SetAlwaysOnTop w false]).
Proof.
  intros s cfg rest P position data Hslot Hfocus Hpos Hdata p s1 w s2 s3.
  destruct (bridge_created cfg rest s P position data Hslot Hfocus Hpos Hdata)
    as (Bp & Bpr & Bw & _ & Bt & Bl & _).
  fold s1 in Bpr, Bw, Bt, Bl. fold w in Bw, Bl.
  subst p. rewrite Bp. set (p := length (promises s)) in *.
  assert (Hp : promises s1 !! p = Some Pending).
  { rewrite Bpr. apply lookup_snoc. }
  clearbody s1 p. clear Bp Bpr.
  unfold auxListeners in Bl.
  destruct (auxs s1 !! w) as [aw|] eqn:Haw; [|discriminate].
  cbn [fmap option_fmap option_map] in Bl. injection Bl as Bl.
  set (s1' := updAux w (set_aw_listeners (tail (bridgeListeners p cfg data))) s1).
  assert (E2 : s2 =
               log (SetTimeout 100)
                 (set_timers (timers s ++ [AlwaysOnTopOff (winId cfg) p])
                    (log (SetAlwaysOnTop w true) (log (Show w) s1')))).
  { subst s2. cbn [step auxEmits]. rewrite (emitAux_eq EReadyToShow w s1 aw Haw).
    rewrite Bl, bridgeListeners_ready, bridgeListeners_after_ready. fold s1'.
    cbn [foldl reg_listener runAuxListener].
    replace (_browserWindow s1') with (Some w) by (symmetry; exact Bw).
    cbv beta iota zeta. fields. unfold updAux in s1'. subst s1'. fields.
    rewrite Bt. reflexivity. }
  clearbody s2.
  assert (Haw2 : auxs s2 !! w
                 = Some (set_aw_listeners (tail (bridgeListeners p cfg data)) aw)).
  { rewrite E2. subst s1'. unfold updAux, log. fields. rewrite list_lookup_alter.
    destruct (decide (w = w)); [|congruence]. rewrite Haw. reflexivity. }
  assert (T2 : trace s2 = trace s1 ++ [Show w; SetAlwaysOnTop w true; SetTimeout 100]).
  { rewrite E2. subst s1'. unfold updAux, log. fields. rewrite <- !app_assoc. reflexivity. }
  assert (Ti2 : timers s2 = timers s ++ [AlwaysOnTopOff (winId cfg) p]).
  { rewrite E2. reflexivity. }
  assert (P2 : promises s2 = promises s1).
  { rewrite E2. reflexivity. }
  assert (W2 : _browserWindow s2 = Some w).
  { rewrite E2. exact Bw. }
  clear E2. clearbody s1'.
  split; [exact T2|]. split; [exact Ti2|]. split; [rewrite P2; exact Hp|].
  split.
  { cbn [step auxEmits]. rewrite (emitAux_eq EReadyToShow w s2 _ Haw2).
    cbn [aw_listeners set_aw_listeners]. rewrite tail_bridgeListeners_ready.
    cbn [foldl]. unfold updAux. fields. split; reflexivity. }
  assert (E3 : s3 = runTimer (AlwaysOnTopOff (winId cfg) p) (set_timers (timers s) s2)).
  { subst s3. cbn [step]. unfold timerFires. rewrite Ti2, lookup_snoc, delete_snoc.
    reflexivity. }
  clearbody s3. subst s3. cbn [runTimer]. fields. rewrite W2.
  assert (Hp2 : promises (log (SetAlwaysOnTop w false) (set_timers (timers s) s2)) !! p
                = Some Pending).
  { unfold log. fields. rewrite P2. exact Hp. }
  split.
  { destruct (String.eqb (winId cfg) "addEmulator"); [|reflexivity].
    unfold resolve. rewrite settle_pending by exact Hp2. reflexivity. }
  split.
  - intros Hid. rewrite Hid. cbn [String.eqb Ascii.eqb Bool.eqb].
    unfold resolve. rewrite settle_pending by exact Hp2.
    unfold log. fields. split.
    + rewrite P2. apply list_lookup_insert_eq. apply lookup_lt_Some in Hp. exact Hp.
    + rewrite <- !app_assoc. reflexivity.
  - intros Hid. apply String.eqb_neq in Hid. rewrite Hid.
    split; [exact Hp2|]. unfold log. fields. reflexivity.
Qed.

Lemma ready_to_show_settles_only_addEmulator_witness :
  promises
    (step (TimerFires (length (timers workbenchFocused)))
       (step (AuxEmits (length (auxs workbenchFocused)) EReadyToShow)
          (snd (openBrowserWindow (Some [emulatorConfig]) workbenchFocused))))
    !! fst (openBrowserWindow (Some [emulatorConfig]) workbenchFocused)
  = Some (Fulfilled None).
Proof.
  destruct (ready_to_show_settles_only_addEmulator workbenchFocused emulatorConfig [] 0%nat
              {| x := 2440 # 4; y := 560 # 4; width := 700; height := 800 |}
              (mkBridgeData "Default Light+" "{}"))
    as (_ & _ & _ & _ & _ & H & _).
  - reflexivity.
  - reflexivity.
  - vm_compute. reflexivity.
  - reflexivity.
  - apply H. reflexivity.
Defined.


(** *** Diagnostic sessions: closing, and what closing leaves behind *)

(** [close()] on the window of a live session, with what it leaves
    untouched. *)
Lemma close_live k w d P s :
  liveSession k w d P s ->
  let s' := close w s in
  slotOf k s' = None /\
  (forall k', k' <> k -> slotOf k' s' = slotOf k' s) /\
  (forall k', parentSlotOf k' s' = parentSlotOf k' s) /\
  stores s' = <[d := mkStore (roleOf k) true]> (stores s) /\
  parents s' = parents s /\
  (forall v, v <> w -> auxs s' !! v = auxs s !! v) /\
  trace s' = trace s ++ [Close w; DisposeIPCObjectUrl d].
Proof.
  intros (L1 & L2 & L3 & L4 & L5). unfold close, emitAux. unfold auxListeners in L2.
  cbn [auxs log set_trace].
  destruct (auxs s !! w) as [aw|] eqn:Haw; [|discriminate].
  cbn in L2. injection L2 as L2. rewrite L2.
  cbn [List.filter listensTo reg_event reg_once WinEvent_eqb andb negb foldl reg_listener].
  set (s0 := updAux w _ (log (Close w) s)).
  assert (A0 : forall v, v <> w -> auxs s0 !! v = auxs s !! v).
  { intros v Hv. subst s0. unfold updAux, log. fields.
    apply list_lookup_alter_ne. congruence. }
  assert (T0 : trace s0 = trace s ++ [Close w]) by reflexivity.
  assert (S0 : stores s0 = stores s) by reflexivity.
  assert (P0 : parents s0 = parents s) by reflexivity.
  assert (R0 : issueReporterWindow s0 = issueReporterWindow s) by reflexivity.
  assert (E0 : processExplorerWindow s0 = processExplorerWindow s) by reflexivity.
  assert (RP0 : issueReporterParentWindow s0 = issueReporterParentWindow s) by reflexivity.
  assert (EP0 : processExplorerParentWindow s0 = processExplorerParentWindow s)
    by reflexivity.
  clearbody s0. rewrite <- S0 in L3.
  destruct k; cbn [childListener runAuxListener roleOf] in *.
  - rewrite (dispose_live d IssueReporter (set_issueReporterWindow None s0) L3). views.
    split; [reflexivity|].
    split; [intros [|] Hk; [congruence | exact E0]|].
    split; [intros [|]; [exact RP0 | exact EP0]|].
    split; [rewrite S0; reflexivity|].
    split; [exact P0|]. split; [exact A0|].
    rewrite T0, <- app_assoc. reflexivity.
  - rewrite (dispose_live d ProcessExplorer (set_processExplorerWindow None s0) L3). views.
    split; [reflexivity|].
    split; [intros [|] Hk; [exact R0 | congruence]|].
    split; [intros [|]; [exact RP0 | exact EP0]|].
    split; [rewrite S0; reflexivity|].
    split; [exact P0|]. split; [exact A0|].
    rewrite T0, <- app_assoc. reflexivity.
Qed.

Lemma closeRequest_step k w s :
  slotOf k s = Some w -> step (closeRequest k) s = close w s.
Proof.
  intros H. destruct k; cbn [closeRequest step slotOf] in *.
  - unfold closeIssueReporter. rewrite H. reflexivity.
  - unfold closeProcessExplorer. rewrite H. reflexivity.
Qed.

(** X13: the close request of a diagnostic window ('vscode:closeIssueReporter',
    'vscode:closeProcessExplorer') ends its session: the window is asked to
    close, and its ['close'] listener clears the slot and releases the
    configuration channel, which had not been released before.  The parent
    reference of the role is not cleared, so a workbench command sent under
    the role's name afterwards is still forwarded to the former parent. *)
Theorem close_request_ends_session :
  forall k w d P s c,
    reachable s ->
    liveSession k w d P s ->
    from c = roleName k ->
    let s' := step (closeRequest k) s in
    trace s' = trace s ++ [Close w; DisposeIPCObjectUrl d] /\
    slotOf k s' = None /\
    disposals d s = 0%nat /\
    disposals d s' = 1%nat /\
    parentSlotOf k s' = Some P /\
    workbenchCommand c s' =
      (log (SendRunAction P (mkRunAction (id c) (from c) (ArgsAsReceived (args c)))) s',
       Ok tt).
Proof.
  intros k w d P s c Hreach L Hfrom s'.
  pose proof (Inv_reachable s Hreach) as I.
  assert (I' : Inv s') by (apply Inv_step; exact I).
  pose proof L as (L1 & _ & L3 & L4 & _).
  assert (E : s' = close w s) by (apply closeRequest_step; exact L1).
  destruct (close_live k w d P s L) as (C1 & _ & C3 & C4 & _ & _ & C7).
  rewrite <- E in C1, C3, C4, C7. clearbody s'.
  assert (Hd : stores s' !! d = Some (mkStore (roleOf k) true)).
  { rewrite C4. apply list_lookup_insert_eq. apply lookup_lt_Some in L3. exact L3. }
  assert (HP : parentSlotOf k s' = Some P) by (rewrite C3; exact L4).
  split; [exact C7|]. split; [exact C1|].
  split; [exact (disposals_of_live d _ s I L3)|].
  split; [exact (disposals_of_disposed d _ s' I' Hd)|].
  split; [exact HP|].
  unfold workbenchCommand. rewrite Hfrom.
  destruct k; cbn [roleName parentSlotOf] in *; cbn [String.eqb Ascii.eqb Bool.eqb];
    rewrite HP; reflexivity.
Qed.

Lemma close_request_ends_session_witness :
  trace (step (closeRequest Reporter) reporterOpen)
  = trace reporterOpen ++ [Close 0%nat; DisposeIPCObjectUrl 0%nat] /\
  disposals 0%nat (step (closeRequest Reporter) reporterOpen) = 1%nat.
Proof.
  destruct (close_request_ends_session Reporter 0%nat 0%nat 0%nat reporterOpen
              (mkCommandInfo "workbench.action.reloadWindow" "issueReporter" "x"))
    as (H1 & _ & _ & H4 & _).
  - exists someEnv, [ParentOpened (rectZ 100 100 1200 800); FocusChanged (Some 0%nat);
                     CallOpenReporter someData].
    vm_compute. reflexivity.
  - unfold liveSession. split; [vm_compute; reflexivity|].
    split; [vm_compute; reflexivity|]. split; [vm_compute; reflexivity|].
    split; [vm_compute; reflexivity|].
    eexists. split; [vm_compute; reflexivity|]. left. reflexivity.
  - reflexivity.
  - split; [exact H1 | exact H4].
Defined.

(** X15: confirming the close of the issue reporter destroys its window and
    clears the slot, but releases nothing: [destroy()] emits no ['close'], so
    the listener that disposes the session's store does not run, and the
    configuration channel stays registered.  Any other answer of the dialog
    changes nothing. *)
Theorem confirmed_close_destroys_without_disposing :
  forall w d P s response,
    reachable s ->
    liveSession Reporter w d P s ->
    let s' := step (ConfirmCloseAnswered response) s in
    (response = 0%nat ->
       trace s' = trace s ++ [Destroy w] /\
       issueReporterWindow s' = None /\
       isDestroyed w s' = true /\
       stores s' !! d = Some (mkStore IssueReporter false) /\
       disposals d s' = 0%nat) /\
    (response <> 0%nat -> s' = s).
Proof.
  intros w d P s response Hreach L s'.
  pose proof (Inv_reachable s Hreach) as I.
  assert (I' : Inv s') by (apply Inv_step; exact I).
  split.
  - intros ->. destruct L as (L1 & L2 & L3 & _).
    cbn [slotOf] in L1. unfold auxListeners in L2.
    destruct (auxs s !! w) as [aw|] eqn:Haw; [|discriminate].
    cbn in L2. injection L2 as L2.
    assert (E : s' =
                set_issueReporterWindow None
                  (updAux w (set_aw_listeners [mkReg EClose false (childListener Reporter d)])
                     (updAux w (set_aw_destroyed true) (log (Destroy w) s)))).
    { subst s'. cbn [step]. unfold issueReporterConfirmCloseAnswered.
      cbn [Nat.eqb]. rewrite L1. unfold destroy.
      assert (Haw' : auxs (updAux w (set_aw_destroyed true) (log (Destroy w) s)) !! w
                     = Some (set_aw_destroyed true aw)).
      { unfold updAux, log. fields. rewrite list_lookup_alter.
        destruct (decide (w = w)); [|congruence]. rewrite Haw. reflexivity. }
      rewrite (emitAux_eq EClosed w _ _ Haw').
      cbn [aw_listeners set_aw_destroyed]. rewrite L2. reflexivity. }
    clearbody s'.
    assert (Hst : stores s' !! d = Some (mkStore IssueReporter false)).
    { rewrite E. exact L3. }
    split; [rewrite E; reflexivity|]. split; [rewrite E; reflexivity|].
    split.
    { rewrite E. unfold isDestroyed, updAux, log. fields. rewrite !list_lookup_alter.
      destruct (decide (w = w)); [|congruence]. rewrite Haw. reflexivity. }
    split; [exact Hst|].
    exact (disposals_of_live d _ s' I' Hst).
  - intros Hr. subst s'. cbn [step]. unfold issueReporterConfirmCloseAnswered.
    apply Nat.eqb_neq in Hr. rewrite Hr. reflexivity.
Qed.

Lemma confirmed_close_destroys_without_disposing_witness :
  issueReporterWindow (step (ConfirmCloseAnswered 0%nat) reporterOpen) = None /\
  disposals 0%nat (step (ConfirmCloseAnswered 0%nat) reporterOpen) = 0%nat.
Proof.
  destruct (confirmed_close_destroys_without_disposing 0%nat 0%nat 0%nat reporterOpen 0%nat)
    as [H _].
  - exists someEnv, [ParentOpened (rectZ 100 100 1200 800); FocusChanged (Some 0%nat);
                     CallOpenReporter someData].
    vm_compute. reflexivity.
  - unfold liveSession. split; [vm_compute; reflexivity|].
    split; [vm_compute; reflexivity|]. split; [vm_compute; reflexivity|].
    split; [vm_compute; reflexivity|].
    eexists. split; [vm_compute; reflexivity|]. left. reflexivity.
  - destruct (H eq_refl) as (_ & H2 & _ & _ & H5). split; [exact H2 | exact H5].
Defined.







(** *** The size of a bridge window *)

Lemma Qeq_bool_false (a b : Q) : ~ (a == b)%Q -> Qeq_bool a b = false.
Proof.
  intros H. destruct (Qeq_bool a b) eqn:E; [|reflexivity].
  apply Qeq_bool_iff in E. contradiction.
Qed.

Lemma windowHeight_positive win32 cfg :
  (forall h, cfg_height cfg = Some h -> (0 <= h)%Q) ->
  (0 < windowHeight win32 cfg)%Q.
Proof.
  intros Hh. unfold windowHeight, truthy.
  destruct (cfg_height cfg) as [h|] eqn:E.
  - specialize (Hh h eq_refl).
    destruct (Qeq_bool h 0) eqn:E0.
    + destruct win32; reflexivity.
    + assert (Hne : ~ (h == 0)%Q).
      { intros H0. apply Qeq_bool_iff in H0. congruence. }
      destruct win32; lra.
  - destruct win32; reflexivity.
Qed.

(** X19: the height of a new bridge window comes from the request, never
    from the computed position, as long as the configured height is missing
    or not negative: the fallback to the position's height is taken only when
    the adjusted height is zero, which off Windows happens exactly for a
    configured height of -15. *)
Theorem bridge_height_from_configuration :
  forall win32 cfg data position P,
    ((forall h, cfg_height cfg = Some h -> (0 <= h)%Q) ->
     o_height (bridgeOptions win32 cfg data position P) = windowHeight win32 cfg /\
     (0 < windowHeight win32 cfg)%Q) /\
    (win32 = false ->
     (exists h, cfg_height cfg = Some h /\ (h == -15)%Q) ->
     o_height (bridgeOptions win32 cfg data position P) = height position).
Proof.
  intros win32 cfg data position P. split.
  - intros Hh. pose proof (windowHeight_positive win32 cfg Hh) as Hpos.
    split; [|exact Hpos].
    unfold bridgeOptions. cbn [o_height].
    rewrite Qeq_bool_false; [reflexivity|]. intros H0. rewrite H0 in Hpos.
    exact (Qlt_irrefl 0 Hpos).
  - intros -> (h & Hc & Hh). unfold bridgeOptions. cbn [o_height].
    assert (E : Qeq_bool (windowHeight false cfg) 0 = true).
    { apply Qeq_bool_iff. unfold windowHeight, truthy. rewrite Hc.
      rewrite Qeq_bool_false by (rewrite Hh; discriminate).
      rewrite Hh. reflexivity. }
    rewrite E. reflexivity.
Qed.

Lemma bridge_height_from_configuration_witness :
  o_height (bridgeOptions false certificateConfig (mkBridgeData "Default Dark+" "{}")
              (rectZ 610 140 700 800) 0%nat)
  = windowHeight false certificateConfig.
Proof.
  destruct (bridge_height_from_configuration false certificateConfig
              (mkBridgeData "Default Dark+" "{}") (rectZ 610 140 700 800) 0%nat)
    as [H _].
  destruct H as [H _]; [|exact H].
  intros h Hh. injection Hh as <-. discriminate.
Defined.


(** *** Opening never fails while a display is attached *)

Lemma displayToUse_some scr mac pw :
  getAllDisplays scr <> [] -> exists d, displayToUse scr mac pw = Some d.
Proof.
  intros Hne. unfold displayToUse.
  destruct (getAllDisplays scr) as [|d0 ds] eqn:E; [congruence|].
  destruct (Nat.eqb (length (d0 :: ds)) 1); [exists d0; reflexivity|].
  match goal with
  | |- exists d, match ?d2 with Some _ => _ | None => _ end = Some d =>
      destruct d2 as [d|]
  end.
  - exists d. reflexivity.
  - destruct (getPrimaryDisplay scr) as [d|]; [exists d | exists d0]; reflexivity.
Qed.

Lemma windowPosition_some P dw dh s :
  getAllDisplays (screen (env s)) <> [] ->
  exists position, windowPosition P dw dh s = Some position.
Proof.
  intros Hne. unfold windowPosition, getWindowPosition.
  destruct (displayToUse_some (screen (env s)) (isMacintosh (env s)) (parentBounds P s) Hne)
    as (d & Hd).
  rewrite Hd. eexists. reflexivity.
Qed.

(** X20: [getWindowPosition] can only fail when no display at all is
    attached.  With at least one display, opening an issue reporter or a
    process explorer never fails: the returned promise is fulfilled whether a window is created, an existing
    one is focused, or nothing is done for want of a focused window. *)
Theorem open_never_fails_with_a_display :
  forall k data s,
    getAllDisplays (screen (env s)) <> [] ->
    snd (openDiagnostic k data s) = Ok tt.
Proof.
  intros k data s Hne.
  destruct (slotOf k s) as [w|] eqn:Hs.
  - rewrite (openDiagnostic_live k data w s Hs). reflexivity.
  - destruct (focusedWindow s) as [P|] eqn:Hf.
    + destruct (windowPosition_some P (defaultWidth k) (defaultHeight k) s Hne)
        as (position & Hpos).
      destruct k; cbn [openDiagnostic slotOf defaultWidth defaultHeight] in *.
      * destruct (openReporter_first data s P position Hs Hf Hpos) as (H & _). exact H.
      * destruct (openProcessExplorer_first data s P position Hs Hf Hpos) as (H & _).
        exact H.
    + destruct k; cbn [openDiagnostic slotOf] in *.
      * unfold openReporter. rewrite Hs.
        cbn [issueReporterParentWindow set_issueReporterParentWindow]. rewrite Hf.
        cbn [issueReporterWindow set_issueReporterParentWindow]. rewrite Hs. reflexivity.
      * unfold openProcessExplorer. rewrite Hs.
        cbn [processExplorerParentWindow set_processExplorerParentWindow]. rewrite Hf.
        cbn [processExplorerWindow set_processExplorerParentWindow]. rewrite Hs.
        reflexivity.
Qed.

Lemma open_never_fails_with_a_display_witness :
  snd (openDiagnostic Explorer someData reporterOpen) = Ok tt.
Proof.
  apply open_never_fails_with_a_display.
  vm_compute. discriminate.
Defined.

End SessionMore.

(** ** More on the handlers *)

Module HandlerMore.
Import Placement Service More Examples HandlerFacts.

Lemma remoteEntries_names remotes :
  map pe_name (remoteEntries remotes) = map hostName (List.filter listed remotes).
Proof.
  induction remotes as [|data remotes IH]; [reflexivity|].
  unfold remoteEntries in *. cbn [flat_map List.filter].
  destruct data as [h e|h [ps|]]; cbn [listed app map pe_name hostName];
    rewrite ?IH; reflexivity.
Qed.

(** X21: when every step of process listing succeeds, the handler logs
    nothing and answers with the local process tree first, followed by one
    entry per remote host in the order the hosts were reported: hosts that
    failed and hosts that sent processes are listed under their host name,
    hosts that sent no processes are left out. *)
Theorem listProcesses_lists_local_then_remote_hosts :
  forall c event s pid root remotes,
    getMainProcessId c = Ok pid ->
    listProcesses c pid = Ok root ->
    getRemoteDiagnostics c (mkDiagnosticOptions true false) = Ok remotes ->
    senderIsDestroyed event = false ->
    listProcessesRequest c event s =
      (log (Reply (sender event) "vscode:listProcessesResponse"
              (ProcessList (mkEntry "Local" (RootProcess root) :: remoteEntries remotes))) s,
       Ok tt) /\
    map pe_name (remoteEntries remotes) = map hostName (List.filter listed remotes).
Proof.
  intros c event s pid root remotes H1 H2 H3 Hlive.
  split; [|apply remoteEntries_names].
  unfold listProcessesRequest, gatherProcesses. rewrite H1, H2, H3.
  rewrite safeSend_live by exact Hlive. reflexivity.
Qed.

Lemma listProcesses_lists_local_then_remote_hosts_witness :
  map pe_name
    (remoteEntries [RemoteDiagnosticInfo "idle-host" None;
                    RemoteDiagnosticError "lost-host" "timeout";
                    RemoteDiagnosticInfo "ssh-host" (Some "remote tree")])
  = map hostName
      (List.filter listed
         [RemoteDiagnosticInfo "idle-host" None;
          RemoteDiagnosticError "lost-host" "timeout";
          RemoteDiagnosticInfo "ssh-host" (Some "remote tree")]).
Proof.
  apply (listProcesses_lists_local_then_remote_hosts
           {| getMainProcessInfo := Ok someInfo;
              getMainProcessId := Ok 4242%nat;
              getRemoteDiagnostics := fun _ =>
                Ok [RemoteDiagnosticInfo "idle-host" None;
                    RemoteDiagnosticError "lost-host" "timeout";
                    RemoteDiagnosticInfo "ssh-host" (Some "remote tree")];
              listProcesses := fun _ => Ok "local tree";
              getSystemInfo := fun _ _ => Ok "system info";
              diagnosticsGetPerformanceInfo := fun _ _ => Ok "performance info";
              showMessageBox := Ok 0%nat;
              remoteRejectsFirst := false |}
           liveSender (initial someEnv) 4242%nat "local tree"); reflexivity.
Defined.

(** X22: the system-info and windows-info handlers have no error path of
    their own.  When a collaborator they call fails, the handler fails with
    it and the service is left as it was: the requester is sent no answer and
    nothing is logged. *)
Theorem failed_info_requests_are_silent :
  forall c event s e,
    (getMainProcessInfo c = Throw e \/
     getRemoteDiagnostics c (mkDiagnosticOptions false false) = Throw e \/
     (exists info remoteData,
         getMainProcessInfo c = Ok info /\
         getRemoteDiagnostics c (mkDiagnosticOptions false false) = Ok remoteData /\
         getSystemInfo c info remoteData = Throw e) ->
     fst (issueSystemInfoRequest c event s) = s /\
     exists e', snd (issueSystemInfoRequest c event s) = Throw e') /\
    (getMainProcessInfo c = Throw e ->
     windowsInfoRequest c event s = (s, Throw e)).
Proof.
  intros c event s e. split.
  - intros H. unfold issueSystemInfoRequest, promiseAll2.
    destruct H as [H|[H|(info & remoteData & H1 & H2 & H3)]].
    + rewrite H. destruct (getRemoteDiagnostics c (mkDiagnosticOptions false false));
        (split; [reflexivity | eexists; reflexivity]).
    + rewrite H. destruct (getMainProcessInfo c);
        (split; [reflexivity | eexists; reflexivity]).
    + rewrite H1, H2, H3. split; [reflexivity | eexists; reflexivity].
  - intros H. unfold windowsInfoRequest. rewrite H. reflexivity.
Qed.

Lemma failed_info_requests_are_silent_witness :
  fst (issueSystemInfoRequest remoteDown liveSender (initial someEnv)) = initial someEnv.
Proof.
  destruct (failed_info_requests_are_silent remoteDown liveSender (initial someEnv)
              "connection lost") as [H _].
  destruct H as [H _]; [right; left; reflexivity | exact H].
Defined.

End HandlerMore.
